(** * tplswitch_infocollector: a shallow embedding and its properties

    The program logs on to a TP-Link TL-SG105E switch, fetches two of its
    management pages, pulls script variables out of them with regular
    expressions and fills a [SwitchTPL] object that is finally dumped as
    JSON.

    Conventions of the embedding.

    - A Python [str] is a sequence of code points.  The text of a page and
      the literals of the program are modelled as [string], that is with
      code points below 256 (requests decodes a [text/html] body that
      declares no charset as ISO-8859-1).  Strings produced by
      [json.loads] can hold any code point (through [\uXXXX] escapes) and
      are lists of code points, [list N].
    - A Python [int] is a [Z].
    - Two limits of the interpreter are not part of the model: the 4300
      digits beyond which [int], [json.loads] and [json.dumps] refuse an
      integer with ValueError, and the recursion limit at which
      [json.loads] and [json.dumps] give up with RecursionError.  The
      properties that either limit could affect are stated for pages that
      stay within them, through [digit_count] and [bracket_count].  A
      float read by [json.loads] is kept as the literal it was read from;
      the properties about the text written are stated for values without
      floats.
    - A raised exception is the [Raise] case of [result]; statements that
      mutate [self.switch] before an exception is raised keep their effect,
      which the state monad [M] makes explicit.
    - The network is a parameter: [Requests] answers the logon request and
      hands over the [Session] that answers the two fetches.  The start of
      the module, which installs missing libraries with apt, and the
      command-line parsing of argparse are not modelled; [main] takes the
      three options as they come out of it. *)

From Stdlib Require Import String Ascii List ZArith NArith Lia Bool.
Import ListNotations.

#[local] Set Warnings "-register-all".

Local Open Scope string_scope.
Local Open Scope list_scope.
Local Open Scope Z_scope.

(** ** Exceptions and results *)

Inductive exn : Type :=
| AttributeError                 (* [None.group(1)]: re.search found nothing *)
| ValueError                     (* [int] on a malformed literal *)
| JSONDecodeError                (* [json.loads] on a malformed document *)
| IndexError                     (* list index out of range *)
| KeyError (key : string)        (* missing dict key *)
| TypeError                      (* subscript on a value that has none *)
| RecursionError                 (* the decoder out of fuel; shown never to happen *)
| NotImplementedError            (* a method of the abstract parser *)
| RequestException               (* any failure raised by requests *)
| Exception (msg : string).      (* [raise Exception(msg)] *)

Inductive result (A : Type) : Type :=
| Ok (a : A)
| Raise (e : exn).

Arguments Ok {A} a.
Arguments Raise {A} e.

Definition rbind {A B : Type} (r : result A) (k : A -> result B) : result B :=
  match r with
  | Ok a => k a
  | Raise e => Raise e
  end.

Notation "x <- r ;; k" := (rbind r (fun x => k))
  (at level 61, r at next level, right associativity).

Fixpoint mapM {A B : Type} (f : A -> result B) (l : list A) : result (list B) :=
  match l with
  | [] => Ok []
  | a :: l' => b <- f a ;; bs <- mapM f l' ;; Ok (b :: bs)
  end.

(** ** Python built-ins used by the program *)

Module Py.

Definition code (c : ascii) : N := N_of_ascii c.

Definition is_digit (c : ascii) : bool :=
  ((48 <=? code c) && (code c <=? 57))%N.

Definition digit_value (c : ascii) : Z := Z.of_N (code c) - 48.

(** Characters that [int] skips around a literal: the ASCII white space of
    [Py_ISSPACE] and, below 256, the two non-ASCII Unicode spaces. *)
Definition is_int_space (c : ascii) : bool :=
  ((9 <=? code c) && (code c <=? 13) || (code c =? 32)
   || (code c =? 133) || (code c =? 160))%N.

Fixpoint lstrip (s : string) : string :=
  match s with
  | String c s' => if is_int_space c then lstrip s' else s
  | EmptyString => EmptyString
  end.

Fixpoint rstrip (s : string) : string :=
  match s with
  | EmptyString => EmptyString
  | String c s' =>
      match rstrip s' with
      | EmptyString => if is_int_space c then EmptyString else String c EmptyString
      | r => String c r
      end
  end.

(** Decimal digits with single underscores between them; [after_digit]
    tells whether the previous character was a digit. *)
Fixpoint int_digits (acc : Z) (after_digit : bool) (s : string) : option Z :=
  match s with
  | EmptyString => if after_digit then Some acc else None
  | String c s' =>
      if is_digit c then int_digits (10 * acc + digit_value c) true s'
      else if (Ascii.eqb c "_" && after_digit)%bool then int_digits acc false s'
      else None
  end.

(** [int(s)] in base 10.  The interpreter's optional cap on the number of
    digits ([sys.set_int_max_str_digits]) is not modelled. *)
Definition int (s : string) : result Z :=
  let t := rstrip (lstrip s) in
  let signed :=
    match t with
    | String "-" r => (true, r)
    | String "+" r => (false, r)
    | _ => (false, t)
    end in
  match int_digits 0 false (snd signed) with
  | Some v => Ok (if fst signed then - v else v)
  | None => Raise ValueError
  end.

(** [s.split(sep)] for a one-character separator. *)
Fixpoint split (sep : ascii) (s : string) : list string :=
  match s with
  | EmptyString => [EmptyString]
  | String c s' =>
      if Ascii.eqb c sep then EmptyString :: split sep s'
      else match split sep s' with
           | h :: t => String c h :: t
           | [] => [String c EmptyString]
           end
  end.

(** [l[i]]: negative indices count from the end. *)
Definition getitem {A : Type} (l : list A) (i : Z) : result A :=
  let n := Z.of_nat (length l) in
  let j := if i <? 0 then i + n else i in
  if (j <? 0) || (n <=? j) then Raise IndexError
  else match nth_error l (Z.to_nat j) with
       | Some a => Ok a
       | None => Raise IndexError
       end.

(** [range(n)]. *)
Definition range (n : Z) : list Z := map Z.of_nat (seq 0 (Z.to_nat n)).

(** [str(n)] for an int. *)
Fixpoint digits_of_pos (fuel : nat) (n : N) (acc : string) : string :=
  match fuel with
  | O => acc
  | S fuel' =>
      let acc' := String (ascii_of_N (48 + n mod 10)) acc in
      if (n <? 10)%N then acc' else digits_of_pos fuel' (n / 10) acc'
  end.

Definition str_of_int (z : Z) : string :=
  let n := Z.abs_N z in
  let d := digits_of_pos (S (N.to_nat (N.log2 n))) n EmptyString in
  if z <? 0 then String "-" d else d.

(** What follows the prefix [p] in [s], when [s] starts with [p]. *)
Fixpoint strip_prefix (p s : string) : option string :=
  match p with
  | EmptyString => Some s
  | String a p' =>
      match s with
      | String b s' => if Ascii.eqb a b then strip_prefix p' s' else None
      | EmptyString => None
      end
  end.

(** The code points of a text. *)
Definition codes (s : string) : list N := map code (list_ascii_of_string s).

Fixpoint codes_eqb (a b : list N) : bool :=
  match a, b with
  | [], [] => true
  | x :: a', y :: b' => (x =? y)%N && codes_eqb a' b'
  | _, _ => false
  end.

(** [needle in s] *)
Fixpoint contains (needle s : string) : bool :=
  match strip_prefix needle s with
  | Some _ => true
  | None =>
      match s with
      | EmptyString => false
      | String _ s' => contains needle s'
      end
  end.

(** Every character of [s] satisfies [p]. *)
Fixpoint all_chars (p : ascii -> bool) (s : string) : bool :=
  match s with
  | EmptyString => true
  | String c s' => p c && all_chars p s'
  end.

(** Insertion-ordered dict: assigning to an existing key keeps its place. *)
Section Dict.
Context {K V : Type} (eqb : K -> K -> bool).

Fixpoint dict_set (d : list (K * V)) (k : K) (v : V) : list (K * V) :=
  match d with
  | [] => [(k, v)]
  | (k', v') :: d' =>
      if eqb k' k then (k, v) :: d' else (k', v') :: dict_set d' k v
  end.

Fixpoint dict_get (d : list (K * V)) (k : K) : option V :=
  match d with
  | [] => None
  | (k', v') :: d' => if eqb k' k then Some v' else dict_get d' k
  end.

End Dict.

End Py.

(** ** The fragment of [re] used by the program

    A pattern is a sequence of atoms with at most one capture group.  The
    matcher is the usual backtracking one: a lazy star first tries what
    follows and only then takes one more character, a greedy plus does the
    opposite.  [^] and [$] have their [re.MULTILINE] meaning. *)

Module Re.

Inductive atom : Type :=
| Lit (c : ascii)
| Class (p : ascii -> bool)
| LazyStar (p : ascii -> bool)
| GreedyPlus (p : ascii -> bool)
| GroupOpen
| GroupClose
| Bol
| Eol.

Record rmatch : Type := mk_rmatch {
  matched : string;   (* group(0) *)
  group1 : string;    (* group(1) *)
  rest : string       (* the text after the match *)
}.

Definition is_nl (c : ascii) : bool := Ascii.eqb c "010".

(** [c] has been consumed in front of the match [r]. *)
Definition consume (ing : bool) (c : ascii) (r : rmatch) : rmatch :=
  mk_rmatch (String c (matched r))
            (if ing then String c (group1 r) else group1 r)
            (rest r).

Definition at_eol (s : string) : bool :=
  match s with
  | EmptyString => true
  | String c _ => is_nl c
  end.

(** [match_here pat ing bol s]: match [pat] at the start of [s]; [ing]
    tells whether the capture group is open, [bol] whether [s] starts a
    line. *)
Fixpoint match_here (pat : list atom) : bool -> bool -> string -> option rmatch :=
  match pat with
  | [] => fun _ _ s => Some (mk_rmatch EmptyString EmptyString s)
  | Lit c :: pat' => fun ing _ s =>
      match s with
      | String c' s' =>
          if Ascii.eqb c' c
          then option_map (consume ing c') (match_here pat' ing (is_nl c') s')
          else None
      | EmptyString => None
      end
  | Class p :: pat' => fun ing _ s =>
      match s with
      | String c' s' =>
          if p c'
          then option_map (consume ing c') (match_here pat' ing (is_nl c') s')
          else None
      | EmptyString => None
      end
  | LazyStar p :: pat' => fun ing =>
      fix star (bol : bool) (s : string) : option rmatch :=
        match match_here pat' ing bol s with
        | Some r => Some r
        | None =>
            match s with
            | String c' s' =>
                if p c' then option_map (consume ing c') (star (is_nl c') s')
                else None
            | EmptyString => None
            end
        end
  | GreedyPlus p :: pat' => fun ing _ s =>
      let more :=
        fix more (bol : bool) (s : string) : option rmatch :=
          let stop := match_here pat' ing bol s in
          match s with
          | String c' s' =>
              if p c' then
                match more (is_nl c') s' with
                | Some r => Some (consume ing c' r)
                | None => stop
                end
              else stop
          | EmptyString => stop
          end in
      match s with
      | String c' s' =>
          if p c' then option_map (consume ing c') (more (is_nl c') s')
          else None
      | EmptyString => None
      end
  | GroupOpen :: pat' => fun _ bol s => match_here pat' true bol s
  | GroupClose :: pat' => fun _ bol s => match_here pat' false bol s
  | Bol :: pat' => fun ing bol s =>
      if bol then match_here pat' ing bol s else None
  | Eol :: pat' => fun ing bol s =>
      if at_eol s then match_here pat' ing bol s else None
  end.

(** [re.search]: the match at the leftmost position that has one. *)
Fixpoint search_from (pat : list atom) (bol : bool) (s : string) : option rmatch :=
  match match_here pat false bol s with
  | Some r => Some r
  | None =>
      match s with
      | String c s' => search_from pat (is_nl c) s'
      | EmptyString => None
      end
  end.

Definition search (pat : list atom) (s : string) : option rmatch :=
  search_from pat true s.

(** [re.sub] for a pattern that never matches the empty string: matches
    are replaced left to right, the scan resuming after each match.
    [skip] counts the characters of the current match still to drop. *)
Fixpoint sub_from (pat : list atom) (repl : rmatch -> string)
         (skip : nat) (bol : bool) (s : string) : string :=
  match skip with
  | S k =>
      match s with
      | String c s' => sub_from pat repl k (is_nl c) s'
      | EmptyString => EmptyString
      end
  | O =>
      match s with
      | String c s' =>
          match match_here pat false bol s with
          | Some r =>
              match String.length (matched r) with
              | S k => repl r ++ sub_from pat repl k (is_nl c) s'
              | O => String c (sub_from pat repl O (is_nl c) s')
              end
          | None => String c (sub_from pat repl O (is_nl c) s')
          end
      | EmptyString => EmptyString
      end
  end.

Definition sub (pat : list atom) (repl : rmatch -> string) (s : string) : string :=
  sub_from pat repl O true s.

(** The literal characters of a pattern. *)
Fixpoint lits (s : string) : list atom :=
  match s with
  | EmptyString => []
  | String c s' => Lit c :: lits s'
  end.

(** The characters of [p] have been consumed, in order, in front of [r]. *)
Fixpoint consume_all (ing : bool) (p : string) (r : rmatch) : rmatch :=
  match p with
  | EmptyString => r
  | String c p' => consume ing c (consume_all ing p' r)
  end.

(** Whether a line starts after the text [p], given that one started
    ([bol]) or not before it. *)
Fixpoint bol_after (bol : bool) (p : string) : bool :=
  match p with
  | EmptyString => bol
  | String c p' => bol_after (is_nl c) p'
  end.

(** [\d], [\w] and [[\s\S]] on code points below 256. *)
Definition digit : ascii -> bool := Py.is_digit.

Definition word (c : ascii) : bool :=
  let n := Py.code c in
  ((48 <=? n) && (n <=? 57) || (65 <=? n) && (n <=? 90)
   || (97 <=? n) && (n <=? 122) || (n =? 95)
   || (n =? 170) || (n =? 178) || (n =? 179) || (n =? 181)
   || (n =? 185) || (n =? 186) || (188 <=? n) && (n <=? 190)
   || (192 <=? n) && (n <=? 214) || (216 <=? n) && (n <=? 246)
   || (248 <=? n))%N.

Definition any (c : ascii) : bool := true.

(** [match.group(1)] on the result of [re.search]. *)
Definition group (m : option rmatch) : result string :=
  match m with
  | Some r => Ok (group1 r)
  | None => Raise AttributeError
  end.

End Re.

(** ** SwitchTPLParser.parse_ports_info *)

Record port_data : Type := mk_port_data {
  pd_status : string;        (* 'status' *)
  pd_link_status : string;   (* 'link-status' *)
  pd_txgoodpkt : Z;
  pd_txbadpkt : Z;
  pd_rxgoodpkt : Z;
  pd_rxbadpkt : Z
}.

Definition state_info : list string := ["Disabled"; "Enabled"].

Definition link_info : list string :=
  ["Link Down"; "Auto"; "10Half"; "10Full"; "100Half"; "100Full"; "1000Full"; ""].

(** r'var max_port_num = (\d);' *)
Definition re_max_port_num : list Re.atom :=
  Re.lits "var max_port_num = "
  ++ [Re.GroupOpen; Re.Class Re.digit; Re.GroupClose; Re.Lit ";"].

(** r'state:\[([\s\S]*?)\],' *)
Definition re_state : list Re.atom :=
  Re.lits "state:["
  ++ [Re.GroupOpen; Re.LazyStar Re.any; Re.GroupClose] ++ Re.lits "],".

(** r'link_status:\[([\s\S]*?)\],' *)
Definition re_link_status : list Re.atom :=
  Re.lits "link_status:["
  ++ [Re.GroupOpen; Re.LazyStar Re.any; Re.GroupClose] ++ Re.lits "],".

(** r'pkts:\[([\s\S]*?)\]' *)
Definition re_pkts : list Re.atom :=
  Re.lits "pkts:["
  ++ [Re.GroupOpen; Re.LazyStar Re.any; Re.GroupClose] ++ Re.lits "]".

(** [list(map(int, re.search(pat, text).group(1).split(',')))] *)
Definition int_array (pat : list Re.atom) (response_text : string) : result (list Z) :=
  g <- Re.group (Re.search pat response_text) ;;
  mapM Py.int (Py.split "," g).

(** The dict literal built for one port. *)
Definition port_entry (state link_status pkts : list Z) (index : Z) : result port_data :=
  st <- Py.getitem state index ;;
  status <- Py.getitem state_info st ;;
  ls <- Py.getitem link_status index ;;
  link <- Py.getitem link_info ls ;;
  txgood <- Py.getitem pkts (4 * index) ;;
  txbad <- Py.getitem pkts (4 * index + 1) ;;
  rxgood <- Py.getitem pkts (4 * index + 2) ;;
  rxbad <- Py.getitem pkts (4 * index + 3) ;;
  Ok (mk_port_data status link txgood txbad rxgood rxbad).

(** The body of [for index in ...], over the indices still to visit. *)
Fixpoint ports_loop (state link_status pkts : list Z) (indices : list Z)
         (ports_info : list (Z * port_data)) : result (list (Z * port_data)) :=
  match indices with
  | [] => Ok ports_info
  | index :: indices' =>
      let port_id := index + 1 in
      entry <- port_entry state link_status pkts index ;;
      ports_loop state link_status pkts indices'
                 (Py.dict_set Z.eqb ports_info port_id entry)
  end.

Definition parse_ports_info (response_text : string) : result (list (Z * port_data)) :=
  g <- Re.group (Re.search re_max_port_num response_text) ;;
  max_port_num <- Py.int g ;;
  state <- int_array re_state response_text ;;
  link_status <- int_array re_link_status response_text ;;
  pkts <- int_array re_pkts response_text ;;
  ports_loop state link_status pkts (Py.range max_port_num) [].

(** ** The [json] module: values, [loads] and [dumps(..., indent=4)]

    A float is kept as the text of its literal; nothing in the program
    computes with one. *)

Module Json.

Local Open Scope string_scope.

Inductive value : Type :=
| JNull                               (* None *)
| JBool (b : bool)
| JInt (z : Z)
| JFloat (lexeme : string)
| JStr (s : list N)
| JList (l : list value)
| JDict (d : list (list N * value)).

Definition dq : ascii := "034".   (* the double quote *)
Definition bs : ascii := "\".     (* the backslash *)
Definition nl : ascii := "010".   (* the line feed *)

(** *** Decoding *)

Definition is_ws (c : ascii) : bool :=
  (Ascii.eqb c " " || Ascii.eqb c "009" || Ascii.eqb c "010" || Ascii.eqb c "013")%bool.

Fixpoint skip_ws (s : string) : string :=
  match s with
  | String c s' => if is_ws c then skip_ws s' else s
  | EmptyString => EmptyString
  end.

Definition hex_value (c : ascii) : option N :=
  let n := Py.code c in
  if ((48 <=? n) && (n <=? 57))%N then Some (n - 48)%N
  else if ((97 <=? n) && (n <=? 102))%N then Some (n - 87)%N
  else if ((65 <=? n) && (n <=? 70))%N then Some (n - 55)%N
  else None.

Definition hex4 (h1 h2 h3 h4 : ascii) : option N :=
  match hex_value h1, hex_value h2, hex_value h3, hex_value h4 with
  | Some a, Some b, Some c, Some d => Some (((a * 16 + b) * 16 + c) * 16 + d)%N
  | _, _, _, _ => None
  end.

Definition is_high_surrogate (u : N) : bool := ((55296 <=? u) && (u <=? 56319))%N.
Definition is_low_surrogate (u : N) : bool := ((56320 <=? u) && (u <=? 57343))%N.

Definition join_surrogates (hi lo : N) : N :=
  (65536 + (hi - 55296) * 1024 + (lo - 56320))%N.

(** The character a one-letter escape stands for. *)
Definition unescape (e : ascii) : option N :=
  if Ascii.eqb e dq then Some 34%N
  else if Ascii.eqb e bs then Some 92%N
  else if Ascii.eqb e "/" then Some 47%N
  else if Ascii.eqb e "b" then Some 8%N
  else if Ascii.eqb e "f" then Some 12%N
  else if Ascii.eqb e "n" then Some 10%N
  else if Ascii.eqb e "r" then Some 13%N
  else if Ascii.eqb e "t" then Some 9%N
  else None.

Definition push (u : N) (r : result (list N * string)) : result (list N * string) :=
  match r with
  | Ok (cs, rest) => Ok (u :: cs, rest)
  | Raise e => Raise e
  end.

(** [scanstring] in strict mode, called after the opening quote: the
    decoded characters and the text after the closing quote. *)
Fixpoint scanstring (s : string) : result (list N * string) :=
  match s with
  | EmptyString => Raise JSONDecodeError
  | String c s1 =>
      if Ascii.eqb c dq then Ok ([], s1)
      else if Ascii.eqb c bs then
        match s1 with
        | EmptyString => Raise JSONDecodeError
        | String e s2 =>
            if Ascii.eqb e "u" then
              match s2 with
              | String h1 (String h2 (String h3 (String h4 s3))) =>
                  match hex4 h1 h2 h3 h4 with
                  | None => Raise JSONDecodeError
                  | Some u =>
                      if is_high_surrogate u then
                        match s3 with
                        | String b' (String u' (String l1 (String l2 (String l3 (String l4 s4))))) =>
                            if (Ascii.eqb b' bs && Ascii.eqb u' "u")%bool then
                              match hex4 l1 l2 l3 l4 with
                              | None => Raise JSONDecodeError
                              | Some u2 =>
                                  if is_low_surrogate u2
                                  then push (join_surrogates u u2) (scanstring s4)
                                  else push u (scanstring s3)
                              end
                            else push u (scanstring s3)
                        | _ => push u (scanstring s3)
                        end
                      else push u (scanstring s3)
                  end
              | _ => Raise JSONDecodeError
              end
            else
              match unescape e with
              | Some u => push u (scanstring s2)
              | None => Raise JSONDecodeError
              end
        end
      else if (Py.code c <? 32)%N then Raise JSONDecodeError
      else push (Py.code c) (scanstring s1)
  end.

(** The longest prefix of decimal digits, and what follows it. *)
Fixpoint take_digits (s : string) : string * string :=
  match s with
  | String c s' =>
      if Py.is_digit c
      then let r := take_digits s' in (String c (fst r), snd r)
      else (EmptyString, s)
  | EmptyString => (EmptyString, EmptyString)
  end.

Fixpoint digits_value (acc : Z) (ds : string) : Z :=
  match ds with
  | String c ds' => digits_value (10 * acc + Py.digit_value c) ds'
  | EmptyString => acc
  end.

(** The integer part of a number, an optional minus sign then either a
    lone 0 or a non-zero digit and more digits: sign, digits and rest. *)
Definition scan_integer (s : string) : option (bool * string * string) :=
  let neg := match s with String c _ => Ascii.eqb c "-" | EmptyString => false end in
  let s1 := match s with
            | String c r => if Ascii.eqb c "-" then r else s
            | EmptyString => s
            end in
  match s1 with
  | String c s2 =>
      if Ascii.eqb c "0" then Some (neg, "0", s2)
      else if Py.is_digit c then
        let r := take_digits s1 in Some (neg, fst r, snd r)
      else None
  | EmptyString => None
  end.

(** The fraction of a number, a dot and at least one digit, if any. *)
Definition scan_frac (s : string) : string * string :=
  match s with
  | String c (String d s') =>
      if (Ascii.eqb c "." && Py.is_digit d)%bool
      then let r := take_digits (String d s') in (String c (fst r), snd r)
      else (EmptyString, s)
  | _ => (EmptyString, s)
  end.

(** The exponent of a number, e or E, an optional sign and at least one
    digit, if any. *)
Definition scan_exp (s : string) : string * string :=
  match s with
  | String e s1 =>
      if (Ascii.eqb e "e" || Ascii.eqb e "E")%bool then
        match s1 with
        | String g s2 =>
            if (Ascii.eqb g "-" || Ascii.eqb g "+")%bool then
              match s2 with
              | String d _ =>
                  if Py.is_digit d
                  then let r := take_digits s2 in
                       (String e (String g (fst r)), snd r)
                  else (EmptyString, s)
              | EmptyString => (EmptyString, s)
              end
            else if Py.is_digit g
            then let r := take_digits s1 in (String e (fst r), snd r)
            else (EmptyString, s)
        | EmptyString => (EmptyString, s)
        end
      else (EmptyString, s)
  | EmptyString => (EmptyString, s)
  end.

Definition scan_number (s : string) : result (value * string) :=
  match scan_integer s with
  | None => Raise JSONDecodeError
  | Some (neg, ds, s1) =>
      let f := scan_frac s1 in
      let e := scan_exp (snd f) in
      match fst f, fst e with
      | EmptyString, EmptyString =>
          let v := digits_value 0 ds in
          Ok (JInt (if neg then - v else v), s1)
      | _, _ =>
          Ok (JFloat ((if neg then "-" else "") ++ ds ++ fst f ++ fst e), snd e)
      end
  end.

(** A named constant at the start of [s], if any. *)
Definition scan_constant (s : string) : option (value * string) :=
  match Py.strip_prefix "null" s with
  | Some r => Some (JNull, r)
  | None =>
  match Py.strip_prefix "true" s with
  | Some r => Some (JBool true, r)
  | None =>
  match Py.strip_prefix "false" s with
  | Some r => Some (JBool false, r)
  | None =>
  match Py.strip_prefix "NaN" s with
  | Some r => Some (JFloat "NaN", r)
  | None =>
  match Py.strip_prefix "Infinity" s with
  | Some r => Some (JFloat "Infinity", r)
  | None =>
  match Py.strip_prefix "-Infinity" s with
  | Some r => Some (JFloat "-Infinity", r)
  | None => None
  end end end end end end.

(** What follows the character [c] when [s] starts with it. *)
Definition after_char (c : ascii) (s : string) : option string :=
  match s with
  | String c' s' => if Ascii.eqb c' c then Some s' else None
  | EmptyString => None
  end.

(** [scan_once], [JSONObject] and [JSONArray].  [fuel] bounds the depth
    of the calls; [loads] gives more than any document can use
    ([loads_never_out_of_fuel]), so the model follows every nesting (the
    interpreter gives up with [RecursionError] at its recursion limit,
    which is not modelled: the properties that depend on it bound the
    nesting of the page with [bracket_count]). *)
Fixpoint scan_once (fuel : nat) (s : string) {struct fuel} : result (value * string) :=
  match fuel with
  | O => Raise RecursionError
  | S fuel' =>
      match s with
      | EmptyString => Raise JSONDecodeError
      | String c s' =>
          if Ascii.eqb c dq then
            r <- scanstring s' ;; Ok (JStr (fst r), snd r)
          else if Ascii.eqb c "{" then
            match after_char "}" (skip_ws s') with
            | Some s2 => Ok (JDict [], s2)
            | None => object_members fuel' (skip_ws s') []
            end
          else if Ascii.eqb c "[" then
            match after_char "]" (skip_ws s') with
            | Some s2 => Ok (JList [], s2)
            | None => array_items fuel' (skip_ws s') []
            end
          else
            match scan_constant s with
            | Some r => Ok r
            | None => scan_number s
            end
      end
  end

with object_members (fuel : nat) (s : string) (acc : list (list N * value))
     {struct fuel} : result (value * string) :=
  match fuel with
  | O => Raise RecursionError
  | S fuel' =>
      match after_char dq s with
      | None => Raise JSONDecodeError
      | Some s1 =>
          k <- scanstring s1 ;;
          match after_char ":" (skip_ws (snd k)) with
          | None => Raise JSONDecodeError
          | Some s2 =>
              v <- scan_once fuel' (skip_ws s2) ;;
              let acc' := Py.dict_set Py.codes_eqb acc (fst k) (fst v) in
              match after_char "}" (skip_ws (snd v)) with
              | Some s3 => Ok (JDict acc', s3)
              | None =>
                  match after_char "," (skip_ws (snd v)) with
                  | Some s3 => object_members fuel' (skip_ws s3) acc'
                  | None => Raise JSONDecodeError
                  end
              end
          end
      end
  end

with array_items (fuel : nat) (s : string) (acc : list value)
     {struct fuel} : result (value * string) :=
  match fuel with
  | O => Raise RecursionError
  | S fuel' =>
      v <- scan_once fuel' s ;;
      let acc' := (acc ++ [fst v])%list in
      match after_char "]" (skip_ws (snd v)) with
      | Some s3 => Ok (JList acc', s3)
      | None =>
          match after_char "," (skip_ws (snd v)) with
          | Some s3 => array_items fuel' (skip_ws s3) acc'
          | None => Raise JSONDecodeError
          end
      end
  end.

(** [json.loads(s)] *)
Definition loads (s : string) : result value :=
  r <- scan_once (S (2 * String.length s)) (skip_ws s) ;;
  match skip_ws (snd r) with
  | EmptyString => Ok (fst r)
  | _ => Raise JSONDecodeError
  end.

(** *** Encoding with [ensure_ascii] and [indent=4] *)

Definition hex_digit (n : N) : ascii :=
  if (n <? 10)%N then ascii_of_N (48 + n) else ascii_of_N (87 + n).

Definition u_escape (u : N) : string :=
  String bs (String "u"
    (String (hex_digit ((u / 4096) mod 16))
    (String (hex_digit ((u / 256) mod 16))
    (String (hex_digit ((u / 16) mod 16))
    (String (hex_digit (u mod 16)) EmptyString))))).

Definition escape_char (c : N) : string :=
  if (c =? 34)%N then String bs (String dq EmptyString)
  else if (c =? 92)%N then String bs (String bs EmptyString)
  else if (c =? 10)%N then String bs "n"
  else if (c =? 13)%N then String bs "r"
  else if (c =? 9)%N then String bs "t"
  else if (c =? 8)%N then String bs "b"
  else if (c =? 12)%N then String bs "f"
  else if ((32 <=? c) && (c <=? 126))%N then String (ascii_of_N c) EmptyString
  else if (c <? 65536)%N then u_escape c
  else
    let n := (c - 65536)%N in
    u_escape (55296 + (n / 1024) mod 1024) ++ u_escape (56320 + n mod 1024).

Fixpoint escape_chars (cs : list N) : string :=
  match cs with
  | [] => EmptyString
  | c :: cs' => escape_char c ++ escape_chars cs'
  end.

Definition encode_basestring_ascii (cs : list N) : string :=
  String dq (escape_chars cs ++ String dq EmptyString).

Fixpoint spaces (n : nat) : string :=
  match n with
  | O => EmptyString
  | S n' => String " " (spaces n')
  end.

(** '\n' + ' ' * (4 * level) *)
Definition newline_indent (level : nat) : string :=
  String nl (spaces (4 * level)).

Fixpoint dumps_at (level : nat) (v : value) : string :=
  match v with
  | JNull => "null"
  | JBool true => "true"
  | JBool false => "false"
  | JInt z => Py.str_of_int z
  | JFloat lexeme => lexeme
  | JStr s => encode_basestring_ascii s
  | JList [] => "[]"
  | JList (x :: xs) =>
      "[" ++ newline_indent (S level) ++ dumps_at (S level) x
      ++ (fix items (l : list value) : string :=
            match l with
            | [] => EmptyString
            | y :: l' =>
                "," ++ newline_indent (S level) ++ dumps_at (S level) y ++ items l'
            end) xs
      ++ newline_indent level ++ "]"
  | JDict [] => "{}"
  | JDict ((k, x) :: kxs) =>
      "{" ++ newline_indent (S level)
      ++ encode_basestring_ascii k ++ ": " ++ dumps_at (S level) x
      ++ (fix items (l : list (list N * value)) : string :=
            match l with
            | [] => EmptyString
            | (k', y) :: l' =>
                "," ++ newline_indent (S level)
                ++ encode_basestring_ascii k' ++ ": " ++ dumps_at (S level) y
                ++ items l'
            end) kxs
      ++ newline_indent level ++ "}"
  end.

(** The items of a list after the first, and the members of a dict after
    the first, as [dumps_at] writes them. *)
Fixpoint more_items (level : nat) (l : list value) : string :=
  match l with
  | [] => EmptyString
  | y :: l' =>
      "," ++ newline_indent (S level) ++ dumps_at (S level) y ++ more_items level l'
  end.

Fixpoint more_members (level : nat) (l : list (list N * value)) : string :=
  match l with
  | [] => EmptyString
  | (k', y) :: l' =>
      "," ++ newline_indent (S level)
      ++ encode_basestring_ascii k' ++ ": " ++ dumps_at (S level) y
      ++ more_members level l'
  end.

(** [json.dumps(obj, indent=4)] *)
Definition dumps (v : value) : string := dumps_at 0 v.

(** [v[key]] for a [str] key. *)
Definition getitem (v : value) (key : string) : result value :=
  match v with
  | JDict d =>
      match Py.dict_get Py.codes_eqb d (Py.codes key) with
      | Some x => Ok x
      | None => Raise (KeyError key)
      end
  | _ => Raise TypeError
  end.

(** What [dumps] writes after a value: nothing, a comma or a line feed. *)
Definition ends_value (t : string) : bool :=
  match t with
  | EmptyString => true
  | String c _ => Ascii.eqb c "," || Ascii.eqb c nl
  end.

(** *** Values that survive a trip through [dumps] and [loads]

    No float, no key twice in a dict (a Python dict never has one twice),
    and in strings and keys no high surrogate right before a low one:
    [dumps] writes such a pair as it writes the one character they stand
    for in UTF-16.  Code points stop at 0x10FFFF. *)

Fixpoint str_ok (s : list N) : bool :=
  match s with
  | [] => true
  | c :: s' =>
      (c <? 1114112)%N
      && negb (is_high_surrogate c
               && match s' with
                  | c' :: _ => is_low_surrogate c'
                  | [] => false
                  end)
      && str_ok s'
  end.

Fixpoint has_key (k : list N) (d : list (list N * value)) : bool :=
  match d with
  | [] => false
  | (k', _) :: d' => Py.codes_eqb k' k || has_key k d'
  end.

Fixpoint distinct_keys (d : list (list N * value)) : bool :=
  match d with
  | [] => true
  | (k, _) :: d' => negb (has_key k d') && distinct_keys d'
  end.

Fixpoint plain_data (v : value) : bool :=
  match v with
  | JNull | JBool _ | JInt _ => true
  | JFloat _ => false
  | JStr s => str_ok s
  | JList l => forallb plain_data l
  | JDict d =>
      distinct_keys d
      && forallb (fun kv => str_ok (fst kv) && plain_data (snd kv)) d
  end.

(** A bound on the fuel that decoding the text of [v] takes. *)
Fixpoint nodes (v : value) : nat :=
  match v with
  | JList l =>
      S ((fix sum (l : list value) : nat :=
            match l with
            | [] => 1
            | x :: l' => nodes x + sum l'
            end) l)
  | JDict d =>
      S ((fix sum (d : list (list N * value)) : nat :=
            match d with
            | [] => 1
            | (_, x) :: d' => nodes x + sum d'
            end) d)
  | _ => 1
  end%nat.

Fixpoint nodes_items (l : list value) : nat :=
  match l with
  | [] => 1
  | x :: l' => nodes x + nodes_items l'
  end.

Fixpoint nodes_members (d : list (list N * value)) : nat :=
  match d with
  | [] => 1
  | (_, x) :: d' => nodes x + nodes_members d'
  end.

End Json.

(** ** The data model: SwitchTPL and SwitchPort *)

Record SwitchPort : Type := mk_SwitchPort {
  port_num : Z;
  state : string;
  link_status : string;
  txgoodpkt : Z;
  txbadpkt : Z;
  rxgoodpkt : Z;
  rxbadpkt : Z
}.

(** The system-info fields hold whatever the parsed mapping held under
    their key, [None] ([JNull]) before the first load. *)
Record SwitchTPL : Type := mk_SwitchTPL {
  description : Json.value;
  mac_address : Json.value;
  ip_address : Json.value;
  subnet_mask : Json.value;
  gateway : Json.value;
  firmware : Json.value;
  hardware : Json.value;
  port_number : Z;
  ports : list SwitchPort
}.

(** SwitchTPL.__init__ *)
Definition SwitchTPL_init : SwitchTPL :=
  mk_SwitchTPL Json.JNull Json.JNull Json.JNull Json.JNull Json.JNull
               Json.JNull Json.JNull 0 [].

Definition jstr (s : string) : Json.value := Json.JStr (Py.codes s).

(** SwitchPort.to_dict *)
Definition SwitchPort_to_dict (self : SwitchPort) : Json.value :=
  Json.JDict
    [ (Py.codes "port_num", Json.JInt (port_num self));
      (Py.codes "state", jstr (state self));
      (Py.codes "link_status", jstr (link_status self));
      (Py.codes "txgoodpkt", Json.JInt (txgoodpkt self));
      (Py.codes "txbadpkt", Json.JInt (txbadpkt self));
      (Py.codes "rxgoodpkt", Json.JInt (rxgoodpkt self));
      (Py.codes "rxbadpkt", Json.JInt (rxbadpkt self)) ].

(** SwitchTPL.to_dict *)
Definition SwitchTPL_to_dict (self : SwitchTPL) : Json.value :=
  Json.JDict
    [ (Py.codes "description", description self);
      (Py.codes "mac_address", mac_address self);
      (Py.codes "ip_address", ip_address self);
      (Py.codes "subnet_mask", subnet_mask self);
      (Py.codes "gateway", gateway self);
      (Py.codes "firmware", firmware self);
      (Py.codes "hardware", hardware self);
      (Py.codes "ports", Json.JList (map SwitchPort_to_dict (ports self))) ].

(** json.dumps(switch.to_dict(), indent=4), the text the program prints
    and writes to switch_info.json. *)
Definition switch_info_json (switch : SwitchTPL) : string :=
  Json.dumps (SwitchTPL_to_dict switch).

(** ** SwitchTPLParser.parse_system_info *)

(** r'var info_ds = (\{[\s\S]*?\});$' with re.MULTILINE *)
Definition re_info_ds : list Re.atom :=
  Re.lits "var info_ds = "
  ++ [Re.GroupOpen; Re.Lit "{"; Re.LazyStar Re.any; Re.Lit "}"; Re.GroupClose;
      Re.Lit ";"; Re.Eol].

(** r'^(\w+):' with re.MULTILINE *)
Definition re_bare_key : list Re.atom :=
  [Re.Bol; Re.GroupOpen; Re.GreedyPlus Re.word; Re.GroupClose; Re.Lit ":"].

(** The replacement template: the key between double quotes, then a colon. *)
Definition quote_key (m : Re.rmatch) : string :=
  (String Json.dq (Re.group1 m ++ String Json.dq ":"))%string.

Definition parse_system_info (response_text : string) : result Json.value :=
  g <- Re.group (Re.search re_info_ds response_text) ;;
  let json_data := Re.sub re_bare_key quote_key g in
  Json.loads json_data.

(** ** The parser interface *)

Record BaseSwitchParser : Type := mk_parser {
  parser_parse_system_info : string -> result Json.value;
  parser_parse_ports_info : string -> result (list (Z * port_data))
}.

(** The abstract base class. *)
Definition BaseSwitchParser_abstract : BaseSwitchParser :=
  mk_parser (fun _ => Raise NotImplementedError) (fun _ => Raise NotImplementedError).

Definition SwitchTPLParser : BaseSwitchParser :=
  mk_parser parse_system_info parse_ports_info.

(** ** SwitchTPLDAO *)

Record Response : Type := mk_Response {
  status_code : Z;
  text : string
}.

(** A session as the program uses it: [session.get(url)] either raises or
    returns a response. *)
Record Session : Type := mk_Session {
  session_get : string -> result Response
}.

(** The network seen from [logon]: what [requests.Session()] followed by
    [session.post(url, data=data)] produces, the response and the session
    as the request left it. *)
Record Requests : Type := mk_Requests {
  session_post : string -> list (string * string) -> result (Response * Session)
}.

Record SwitchTPLDAO : Type := mk_DAO {
  switch : SwitchTPL;
  parser : BaseSwitchParser;
  url : string;
  username : string;
  password : string
}.

(** SwitchTPLDAO.__init__; the caller then sets url, username, password. *)
Definition SwitchTPLDAO_init (switch_parser : BaseSwitchParser)
           (url username password : string) : SwitchTPLDAO :=
  mk_DAO SwitchTPL_init switch_parser url username password.

Definition get_switch (self : SwitchTPLDAO) : SwitchTPL := switch self.

Definition logon (requests : Requests) (self : SwitchTPLDAO) : result Session :=
  let data := [ ("username", username self);
                ("password", password self);
                ("logon", "Login") ] in
  r <- session_post requests (url self ++ "logon.cgi")%string data ;;
  let response := fst r in
  let session := snd r in
  if status_code response =? 200 then Ok session
  else Raise (Exception ("Login failed. HTTP Status Code: "
                         ++ Py.str_of_int (status_code response))%string).

(** Methods that mutate [self]: the state reached is returned next to the
    outcome, also when an exception is raised. *)
Definition M (A : Type) : Type := SwitchTPLDAO -> result A * SwitchTPLDAO.

Definition ret {A : Type} (a : A) : M A := fun self => (Ok a, self).

Definition bind {A B : Type} (m : M A) (k : A -> M B) : M B :=
  fun self =>
    match m self with
    | (Ok a, self') => k a self'
    | (Raise e, self') => (Raise e, self')
    end.

Definition lift {A : Type} (r : result A) : M A := fun self => (r, self).

Definition read {A : Type} (f : SwitchTPLDAO -> A) : M A :=
  fun self => (Ok (f self), self).

(** [self] with [self.switch] changed by [f]. *)
Definition with_switch (f : SwitchTPL -> SwitchTPL) (self : SwitchTPLDAO) : SwitchTPLDAO :=
  mk_DAO (f (switch self)) (parser self) (url self) (username self) (password self).

Definition update_switch (f : SwitchTPL -> SwitchTPL) : M unit :=
  fun self => (Ok tt, with_switch f self).

Notation "x <~ m ;; k" := (bind m (fun x => k))
  (at level 61, m at next level, right associativity).
Notation "m ;;; k" := (bind m (fun _ => k))
  (at level 61, right associativity).

Definition set_description (v : Json.value) (s : SwitchTPL) : SwitchTPL :=
  mk_SwitchTPL v (mac_address s) (ip_address s) (subnet_mask s) (gateway s)
               (firmware s) (hardware s) (port_number s) (ports s).
Definition set_mac_address (v : Json.value) (s : SwitchTPL) : SwitchTPL :=
  mk_SwitchTPL (description s) v (ip_address s) (subnet_mask s) (gateway s)
               (firmware s) (hardware s) (port_number s) (ports s).
Definition set_ip_address (v : Json.value) (s : SwitchTPL) : SwitchTPL :=
  mk_SwitchTPL (description s) (mac_address s) v (subnet_mask s) (gateway s)
               (firmware s) (hardware s) (port_number s) (ports s).
Definition set_subnet_mask (v : Json.value) (s : SwitchTPL) : SwitchTPL :=
  mk_SwitchTPL (description s) (mac_address s) (ip_address s) v (gateway s)
               (firmware s) (hardware s) (port_number s) (ports s).
Definition set_gateway (v : Json.value) (s : SwitchTPL) : SwitchTPL :=
  mk_SwitchTPL (description s) (mac_address s) (ip_address s) (subnet_mask s) v
               (firmware s) (hardware s) (port_number s) (ports s).
Definition set_firmware (v : Json.value) (s : SwitchTPL) : SwitchTPL :=
  mk_SwitchTPL (description s) (mac_address s) (ip_address s) (subnet_mask s)
               (gateway s) v (hardware s) (port_number s) (ports s).
Definition set_hardware (v : Json.value) (s : SwitchTPL) : SwitchTPL :=
  mk_SwitchTPL (description s) (mac_address s) (ip_address s) (subnet_mask s)
               (gateway s) (firmware s) v (port_number s) (ports s).
Definition set_ports (l : list SwitchPort) (s : SwitchTPL) : SwitchTPL :=
  mk_SwitchTPL (description s) (mac_address s) (ip_address s) (subnet_mask s)
               (gateway s) (firmware s) (hardware s) (port_number s) l.

(** self.switch.<field> = sys_info[key] *)
Definition assign (setter : Json.value -> SwitchTPL -> SwitchTPL)
           (sys_info : Json.value) (key : string) : M unit :=
  v <~ lift (Json.getitem sys_info key) ;;
  update_switch (setter v).

Definition sys_info_loader (session : Session) : M unit :=
  base <~ read url ;;
  response <~ lift (session_get session (base ++ "SystemInfoRpm.htm")%string) ;;
  p <~ read parser ;;
  sys_info <~ lift (parser_parse_system_info p (text response)) ;;
  assign set_description sys_info "descriStr" ;;;
  assign set_mac_address sys_info "macStr" ;;;
  assign set_ip_address sys_info "ipStr" ;;;
  assign set_subnet_mask sys_info "netmaskStr" ;;;
  assign set_gateway sys_info "gatewayStr" ;;;
  assign set_firmware sys_info "firmwareStr" ;;;
  assign set_hardware sys_info "hardwareStr".

(** One round of the loop of ports_info_loader: a fresh SwitchPort is
    filled from the entry and appended to self.switch.ports. *)
Definition make_port (item : Z * port_data) : SwitchPort :=
  let port_id := fst item in
  let data := snd item in
  mk_SwitchPort port_id (pd_status data) (pd_link_status data)
                (pd_txgoodpkt data) (pd_txbadpkt data)
                (pd_rxgoodpkt data) (pd_rxbadpkt data).

Definition append_port (item : Z * port_data) : M unit :=
  update_switch (fun s => set_ports (ports s ++ [make_port item]) s).

Fixpoint append_ports (items : list (Z * port_data)) : M unit :=
  match items with
  | [] => ret tt
  | item :: items' => append_port item ;;; append_ports items'
  end.

Definition ports_info_loader (session : Session) : M unit :=
  base <~ read url ;;
  response <~ lift (session_get session (base ++ "PortStatisticsRpm.htm")%string) ;;
  p <~ read parser ;;
  ports_info <~ lift (parser_parse_ports_info p (text response)) ;;
  update_switch (set_ports []) ;;;
  append_ports ports_info.

(** ** The program *)

(** What a run leaves behind: the text printed and the content of the
    file switch_info.json. *)
Record Output : Type := mk_Output {
  printed : string;
  switch_info_file : string
}.

(** The body of [if __name__ == '__main__'], for a command line that gives
    the three options (argparse leaves None for an option that is not
    given, which this model does not cover); standard output and the file
    are taken to be writable.  No exception is caught: what a step raises
    ends the run before anything is printed.  A float among the values is
    written as the literal it was read from (see [Json.JFloat]), where
    Python writes its shortest repr. *)
Definition main (requests : Requests) (arg_url arg_user arg_password : string)
  : result Output :=
  let def_switch_parser := SwitchTPLParser in
  let stpl := SwitchTPLDAO_init def_switch_parser arg_url arg_user arg_password in
  fst ((s <~ (fun self => (logon requests self, self)) ;;
        sys_info_loader s ;;;
        ports_info_loader s ;;;
        switch <~ read get_switch ;;
        ret (mk_Output (switch_info_json switch ++ String Json.nl EmptyString)
                       (switch_info_json switch)))
         stpl).

(** What [logon] sends. *)
Definition logon_data (user passwd : string) : list (string * string) :=
  [ ("username", user); ("password", passwd); ("logon", "Login") ]%string.

(** The switch that a run has filled: the seven values and the ports. *)
Definition loaded_switch (v1 v2 v3 v4 v5 v6 v7 : Json.value)
           (ports_info : list (Z * port_data)) : SwitchTPL :=
  mk_SwitchTPL v1 v2 v3 v4 v5 v6 v7 0 (map make_port ports_info).

(** ** Pages and fixtures used to state the properties *)

(** What the four patterns of [parse_ports_info] extract from a page: the
    port count [n] and the three integer arrays.  Any layout will do; the
    pages laid out like the fixture have these fields for every count up
    to 9 and all non-empty arrays ([ports_page_fields_rendered]). *)
Definition ports_page_fields (response_text : string) (n : nat)
           (st ls pk : list Z) : Prop :=
  (exists g, Re.group (Re.search re_max_port_num response_text) = Ok g
             /\ Py.int g = Ok (Z.of_nat n))
  /\ int_array re_state response_text = Ok st
  /\ int_array re_link_status response_text = Ok ls
  /\ int_array re_pkts response_text = Ok pk.

(** Every place where the text reads [var max_port_num = ] is followed by
    two decimal digits at least: the count is 10 or more. *)
Fixpoint two_digit_counts (response_text : string) : bool :=
  match response_text with
  | EmptyString => true
  | String _ text' =>
      match Py.strip_prefix "var max_port_num = " response_text with
      | Some (String d1 (String d2 _)) => Py.is_digit d1 && Py.is_digit d2
      | Some _ => false
      | None => true
      end && two_digit_counts text'
  end.

Definition lines (l : list string) : string :=
  String.concat (String Json.nl EmptyString) l.

(** The ports page of the end-to-end scenario, laid out as the switch
    serves it. *)
Definition ports_fixture : string :=
  lines [ "var max_port_num = 2;";
          "var all_info = {";
          "state:[1,0],";
          "link_status:[5,0],";
          "pkts:[10,0,20,1,0,0,0,0]";
          "};" ].

(** A page whose first port reports the state -1. *)
Definition ports_negative_state : string :=
  lines [ "var max_port_num = 1;";
          "var all_info = {";
          "state:[-1],";
          "link_status:[5],";
          "pkts:[10,0,20,1]";
          "};" ].

(** A page of a ten-port switch: ten states, ten link modes and forty
    counters. *)
Definition ports_ten : string :=
  lines [ "var max_port_num = 10;";
          "var all_info = {";
          "state:[" ++ String.concat "," (repeat "1" 10) ++ "],";
          "link_status:[" ++ String.concat "," (repeat "6" 10) ++ "],";
          "pkts:[" ++ String.concat "," (repeat "0" 40) ++ "]";
          "};" ]%string.


(** [','.join(map(str, l))] *)
Definition csv (l : list Z) : string := String.concat "," (map Py.str_of_int l).

Definition eol : string := String Json.nl EmptyString.

(** The ports page the switch serves for the count [n] and the three
    arrays, laid out like the fixture. *)
Definition ports_page (n : Z) (st ls pk : list Z) : string :=
  ("var max_port_num = " ++ Py.str_of_int n ++ ";" ++ eol
   ++ "var all_info = {" ++ eol
   ++ "state:[" ++ csv st ++ "]," ++ eol
   ++ "link_status:[" ++ csv ls ++ "]," ++ eol
   ++ "pkts:[" ++ csv pk ++ "]" ++ eol
   ++ "};")%string.

(** The characters of a rendered integer, and of a rendered array. *)
Definition int_char (c : ascii) : bool := Py.is_digit c || Ascii.eqb c "-".

Definition csv_char (c : ascii) : bool := int_char c || Ascii.eqb c ",".

(** [name] and [s] differ at a place that both have. *)
Fixpoint clash (name s : string) : bool :=
  match name, s with
  | String a name', String b s' => if Ascii.eqb a b then clash name' s' else true
  | _, _ => false
  end.

(** No place of [p] starts a copy of [name], even one running past the
    end of [p]. *)
Fixpoint no_start (name p : string) : bool :=
  match p with
  | EmptyString => true
  | String _ p' => clash name p && no_start name p'
  end.

(** A line feed or a printable ASCII character. *)
Definition json_char (c : ascii) : bool :=
  Ascii.eqb c Json.nl || ((32 <=? Py.code c) && (Py.code c <=? 126))%N.

(** The longest run of word characters at the start of [s], and what
    follows it. *)
Fixpoint word_prefix (s : string) : string * string :=
  match s with
  | String c s' =>
      if Re.word c
      then let r := word_prefix s' in (String c (fst r), snd r)
      else (EmptyString, s)
  | EmptyString => (EmptyString, EmptyString)
  end.

(** The match of [\w*\):] at the start of [s], the group being open. *)
Definition key_tail (s : string) : option Re.rmatch :=
  match snd (word_prefix s) with
  | String d r =>
      if Ascii.eqb d ":"
      then Some (Re.mk_rmatch (fst (word_prefix s) ++ ":") (fst (word_prefix s)) r)
      else None
  | EmptyString => None
  end.

(** A line once the key it starts with, if it starts with one, has been
    put between double quotes: word characters, then a colon. *)
Definition quote_line (l : string) : string :=
  match fst (word_prefix l), snd (word_prefix l) with
  | String c k, String d r =>
      if Ascii.eqb d ":"
      then String Json.dq (String c k ++ String Json.dq (String ":" r))
      else l
  | _, _ => l
  end.

Definition no_newline (s : string) : bool :=
  Py.all_chars (fun c => negb (Re.is_nl c)) s.

(** The number of decimal digits in a text.  The interpreter refuses to
    convert an integer literal of more than 4300 digits (the default of
    [sys.set_int_max_str_digits]): [int] and [json.loads] then raise
    ValueError, which [Py.int] and [Json.loads] do not model.  On a page
    that holds no more than 4300 digits no conversion meets the limit. *)
Fixpoint digit_count (s : string) : nat :=
  match s with
  | EmptyString => O
  | String c s' => if Py.is_digit c then S (digit_count s') else digit_count s'
  end.

(** The number of opening brackets and braces in a text, a bound on how
    deep a JSON document inside it nests.  The interpreter raises
    RecursionError when [json.loads] or [json.dumps] meets nesting close
    to its recursion limit (1000 frames by default), which [Json.loads]
    and [Json.dumps] do not model.  On a page that holds no more than 100
    of these characters no decoding or encoding comes near the limit. *)
Fixpoint bracket_count (s : string) : nat :=
  match s with
  | EmptyString => O
  | String c s' =>
      if Ascii.eqb c "[" || Ascii.eqb c "{"
      then S (bracket_count s') else bracket_count s'
  end.

(** The seven assignments of [sys_info_loader], in program order. *)
Definition system_fields : list (string * (Json.value -> SwitchTPL -> SwitchTPL)) :=
  [ ("descriStr", set_description);
    ("macStr", set_mac_address);
    ("ipStr", set_ip_address);
    ("netmaskStr", set_subnet_mask);
    ("gatewayStr", set_gateway);
    ("firmwareStr", set_firmware);
    ("hardwareStr", set_hardware) ]%string.

(** The switch once the assignments [fs] have run with the values that
    [sys_info] holds under their keys. *)
Fixpoint assigned (sys_info : Json.value)
         (fs : list (string * (Json.value -> SwitchTPL -> SwitchTPL)))
         (s : SwitchTPL) : SwitchTPL :=
  match fs with
  | [] => s
  | (key, setter) :: fs' =>
      match Json.getitem sys_info key with
      | Ok v => assigned sys_info fs' (setter v s)
      | Raise _ => s
      end
  end.

(** The assignments [fs] run one after the other. *)
Fixpoint assign_fields (sys_info : Json.value)
         (fs : list (string * (Json.value -> SwitchTPL -> SwitchTPL))) : M unit :=
  match fs with
  | [] => ret tt
  | (key, setter) :: fs' => assign setter sys_info key ;;; assign_fields sys_info fs'
  end.

(** A system-info page that only defines descriStr. *)
Definition sysinfo_only_description : string :=
  lines [ "<script>";
          "var info_ds = {";
          ("descriStr:" ++ String Json.dq "SW1" ++ String Json.dq "")%string;
          "};";
          "</script>" ].

(** A session that serves [page] for every request. *)
Definition serving (page : string) : Session :=
  mk_Session (fun _ => Ok (mk_Response 200 page)).

(** A repository whose switch was populated by an earlier load. *)
Definition populated_dao : SwitchTPLDAO :=
  mk_DAO (mk_SwitchTPL (jstr "OLD") (jstr "00:11:22:33:44:55") (jstr "10.0.0.2")
                       (jstr "255.255.255.0") (jstr "10.0.0.1") (jstr "1.0.0")
                       (jstr "1.0") 0
                       [mk_SwitchPort 1 "Enabled" "100Full" 10 0 20 1])
         SwitchTPLParser "http://10.0.0.2/" "admin" "secret".

(** A switch that answers the logon request with [code]. *)
Definition answering (code : Z) : Requests :=
  mk_Requests (fun _ _ => Ok (mk_Response code "<html></html>", serving "")).

(** *** Well-formed system-info pages *)

(** A character that stands for itself inside a JSON string literal: not
    a control character, a double quote or a backslash. *)
Definition plain_char (c : ascii) : bool :=
  negb (Py.code c <? 32)%N && negb (Ascii.eqb c Json.dq) && negb (Ascii.eqb c Json.bs).

Definition plain (s : string) : bool := Py.all_chars plain_char s.

(** One line of the object literal, a bare key, a colon and the value
    between double quotes, followed by [rest]. *)
Definition info_field (key value rest : string) : string :=
  (key ++ ":" ++ String Json.dq (value ++ String Json.dq rest))%string.

(** The seven lines between the braces, then [rest]. *)
Definition info_fields (v1 v2 v3 v4 v5 v6 v7 rest : string) : string :=
  let sep := ("," ++ String Json.nl EmptyString)%string in
  info_field "descriStr" v1 (sep ++
  info_field "macStr" v2 (sep ++
  info_field "ipStr" v3 (sep ++
  info_field "netmaskStr" v4 (sep ++
  info_field "gatewayStr" v5 (sep ++
  info_field "firmwareStr" v6 (sep ++
  info_field "hardwareStr" v7 (String Json.nl rest)))))))%string.

(** A system-info page: any text [pre], the assignment with one key per
    line, any text [post]. *)
Definition sysinfo_page (pre v1 v2 v3 v4 v5 v6 v7 post : string) : string :=
  (pre ++ "var info_ds = {" ++ String Json.nl
     (info_fields v1 v2 v3 v4 v5 v6 v7 ("};" ++ post)))%string.

(** The same line once the key has been put between double quotes. *)
Definition quoted_field (key value rest : string) : string :=
  (String Json.dq (key ++ String Json.dq (":" ++ String Json.dq (value ++ String Json.dq rest))))%string.

Definition quoted_fields (v1 v2 v3 v4 v5 v6 v7 rest : string) : string :=
  let sep := ("," ++ String Json.nl EmptyString)%string in
  quoted_field "descriStr" v1 (sep ++
  quoted_field "macStr" v2 (sep ++
  quoted_field "ipStr" v3 (sep ++
  quoted_field "netmaskStr" v4 (sep ++
  quoted_field "gatewayStr" v5 (sep ++
  quoted_field "firmwareStr" v6 (sep ++
  quoted_field "hardwareStr" v7 (String Json.nl rest)))))))%string.

(** The mapping such a page stands for. *)
Definition info_mapping (v1 v2 v3 v4 v5 v6 v7 : string) : Json.value :=
  Json.JDict
    [ (Py.codes "descriStr", jstr v1);
      (Py.codes "macStr", jstr v2);
      (Py.codes "ipStr", jstr v3);
      (Py.codes "netmaskStr", jstr v4);
      (Py.codes "gatewayStr", jstr v5);
      (Py.codes "firmwareStr", jstr v6);
      (Py.codes "hardwareStr", jstr v7) ].

(** The text at [s] closes the object literal: a brace and a semicolon
    at the end of a line. *)
Definition closes (s : string) : bool :=
  match s with
  | String c1 s1 =>
      if Ascii.eqb c1 "}" then
        match s1 with
        | String c2 t => Ascii.eqb c2 ";" && Re.at_eol t
        | EmptyString => false
        end
      else false
  | EmptyString => false
  end.

(** What follows the lazy star in the info_ds pattern. *)
Definition re_info_close : list Re.atom :=
  [Re.Lit "}"; Re.GroupClose; Re.Lit ";"; Re.Eol].

(** The system-info page of the end-to-end scenario, one key per line. *)
Definition sysinfo_fixture : string :=
  sysinfo_page (lines ["<html>"; "<script>"; ""])
               "SW1" "00:11:22:33:44:55" "10.0.0.2" "255.255.255.0"
               "10.0.0.1" "1.0.0" "1.0"
               (lines [""; "var tip = 0;"; "</script>"]).

(** The same assignment written on a single line. *)
Definition sysinfo_one_line : string :=
  ("var info_ds = {descriStr:" ++ String Json.dq "SW1" ++ String Json.dq ","
   ++ "macStr:" ++ String Json.dq "00:11:22:33:44:55" ++ String Json.dq "};")%string.

(** A switch at [base]: it accepts the logon and serves the two fixture
    pages at their addresses, and nothing else. *)
Definition fixture_session (base : string) : Session :=
  mk_Session (fun address =>
    if String.eqb address (base ++ "SystemInfoRpm.htm")
    then Ok (mk_Response 200 sysinfo_fixture)
    else if String.eqb address (base ++ "PortStatisticsRpm.htm")
    then Ok (mk_Response 200 ports_fixture)
    else Raise RequestException).

Definition fixture_switch (base : string) : Requests :=
  mk_Requests (fun address _ =>
    if String.eqb address (base ++ "logon.cgi")
    then Ok (mk_Response 200 "<html></html>", fixture_session base)
    else Raise RequestException).

(** * Properties *)

(** ** Results and list indexing *)

Lemma getitem_nonneg {A : Type} (l : list A) (i : Z) (a : A) :
  0 <= i -> Py.getitem l i = Ok a <-> nth_error l (Z.to_nat i) = Some a.
Proof.
  intros Hi. unfold Py.getitem.
  destruct (i <? 0) eqn:Hneg; [apply Z.ltb_lt in Hneg; lia|].
  destruct (i <? 0) eqn:E1; [discriminate|]. cbn [orb].
  destruct (Z.of_nat (length l) <=? i) eqn:E2.
  - apply Z.leb_le in E2. split; [discriminate|].
    intros H. assert (Z.to_nat i < length l)%nat by (apply nth_error_Some; congruence).
    lia.
  - destruct (nth_error l (Z.to_nat i)); split; congruence.
Qed.

Lemma getitem_raises {A : Type} (l : list A) (i : Z) (e : exn) :
  Py.getitem l i = Raise e -> e = IndexError.
Proof.
  unfold Py.getitem.
  destruct (_ || _); [congruence|].
  destruct (nth_error _ _); congruence.
Qed.

Lemma getitem_out_of_range {A : Type} (l : list A) (i : Z) :
  i < - Z.of_nat (length l) \/ Z.of_nat (length l) <= i ->
  Py.getitem l i = Raise IndexError.
Proof.
  intros H. unfold Py.getitem.
  destruct (i <? 0) eqn:E.
  - apply Z.ltb_lt in E.
    destruct (i + Z.of_nat (length l) <? 0) eqn:E1; [reflexivity|].
    apply Z.ltb_ge in E1. lia.
  - apply Z.ltb_ge in E.
    destruct (i <? 0) eqn:E1; [apply Z.ltb_lt in E1; lia|].
    destruct (Z.of_nat (length l) <=? i) eqn:E2; [reflexivity|].
    apply Z.leb_gt in E2. lia.
Qed.

(** ** The loop of parse_ports_info *)

Lemma port_entry_raises st ls pk i e :
  port_entry st ls pk i = Raise e -> e = IndexError.
Proof.
  unfold port_entry, rbind.
  repeat match goal with
         | |- context [match Py.getitem ?l ?j with _ => _ end] =>
             let E := fresh "E" in
             destruct (Py.getitem l j) eqn:E;
             [| intros H; inversion H; subst; eapply getitem_raises; eassumption]
         end.
  discriminate.
Qed.

Lemma ports_loop_raises st ls pk indices acc e :
  ports_loop st ls pk indices acc = Raise e -> e = IndexError.
Proof.
  revert acc. induction indices as [|i indices IH]; intros acc; cbn.
  - discriminate.
  - destruct (port_entry st ls pk i) eqn:E; cbn.
    + apply IH.
    + intros H. inversion H; subst. eapply port_entry_raises; eassumption.
Qed.

Lemma ports_loop_entries st ls pk indices acc r :
  ports_loop st ls pk indices acc = Ok r ->
  forall i, In i indices -> exists d, port_entry st ls pk i = Ok d.
Proof.
  revert acc. induction indices as [|j indices IH]; intros acc H i Hin.
  - destruct Hin.
  - cbn in H. destruct (port_entry st ls pk j) eqn:E; cbn in H; [|discriminate].
    destruct Hin as [->|Hin]; [eauto|]. eapply IH; eassumption.
Qed.

Lemma rbind_ok {A B : Type} (r : result A) (k : A -> result B) (b : B) :
  rbind r k = Ok b -> exists a, r = Ok a /\ k a = Ok b.
Proof. destruct r; cbn; [eauto | discriminate]. Qed.

Lemma port_entry_inv st ls pk i d :
  port_entry st ls pk i = Ok d ->
  exists s l,
    Py.getitem st i = Ok s /\ Py.getitem state_info s = Ok (pd_status d)
    /\ Py.getitem ls i = Ok l /\ Py.getitem link_info l = Ok (pd_link_status d)
    /\ Py.getitem pk (4 * i) = Ok (pd_txgoodpkt d)
    /\ Py.getitem pk (4 * i + 1) = Ok (pd_txbadpkt d)
    /\ Py.getitem pk (4 * i + 2) = Ok (pd_rxgoodpkt d)
    /\ Py.getitem pk (4 * i + 3) = Ok (pd_rxbadpkt d).
Proof.
  unfold port_entry. intros H.
  repeat match type of H with
         | rbind _ _ = Ok _ =>
             let a := fresh "a" in
             let E := fresh "E" in
             apply rbind_ok in H; destruct H as (a & E & H)
         end.
  inversion H; subst; cbn. eauto 12.
Qed.

Lemma getitem_in_range {A : Type} (l : list A) (i : Z) :
  0 <= i < Z.of_nat (length l) ->
  exists a, Py.getitem l i = Ok a /\ nth_error l (Z.to_nat i) = Some a.
Proof.
  intros Hi.
  destruct (nth_error l (Z.to_nat i)) as [a|] eqn:E.
  - exists a. split; [apply getitem_nonneg; [lia | exact E] | reflexivity].
  - apply nth_error_None in E. lia.
Qed.

Lemma in_range (n i : Z) : In i (Py.range n) <-> 0 <= i < n.
Proof.
  unfold Py.range. rewrite in_map_iff. split.
  - intros (j & <- & Hj). apply in_seq in Hj. lia.
  - intros Hi. exists (Z.to_nat i). split; [lia | apply in_seq; lia].
Qed.

Lemma parse_ports_info_fields (response_text : string) (n : nat) st ls pk :
  ports_page_fields response_text n st ls pk ->
  parse_ports_info response_text
  = ports_loop st ls pk (Py.range (Z.of_nat n)) [].
Proof.
  intros ((g & Hg & Hn) & Hst & Hls & Hpk).
  unfold parse_ports_info. rewrite Hg; cbn [rbind]. rewrite Hn; cbn [rbind].
  rewrite Hst; cbn [rbind]. rewrite Hls; cbn [rbind]. rewrite Hpk. reflexivity.
Qed.

Lemma dict_set_fresh {V : Type} (acc : list (Z * V)) (k : Z) (v : V) :
  (forall key d, In (key, d) acc -> key <> k) ->
  Py.dict_set Z.eqb acc k v = acc ++ [(k, v)].
Proof.
  induction acc as [|[k' v'] acc IH]; intros Hfresh; cbn.
  - reflexivity.
  - destruct (Z.eqb k' k) eqn:E.
    + apply Z.eqb_eq in E. exfalso. eapply Hfresh; [left; reflexivity | exact E].
    + f_equal. apply IH. intros key d Hin. eapply Hfresh. right. exact Hin.
Qed.

Lemma ports_loop_ok st ls pk (k a : nat) (acc : list (Z * port_data)) :
  (forall j, (a <= j < a + k)%nat -> exists d, port_entry st ls pk (Z.of_nat j) = Ok d) ->
  (forall key d, In (key, d) acc -> key <= Z.of_nat a) ->
  exists es,
    ports_loop st ls pk (map Z.of_nat (seq a k)) acc = Ok (acc ++ es)
    /\ Forall2 (fun j e => fst e = Z.of_nat j + 1
                           /\ port_entry st ls pk (Z.of_nat j) = Ok (snd e))
               (seq a k) es.
Proof.
  revert a acc. induction k as [|k IH]; intros a acc Hentries Hkeys; cbn.
  - exists []. rewrite app_nil_r. split; [reflexivity | constructor].
  - destruct (Hentries a) as (d & Hd); [lia|]. rewrite Hd; cbn.
    rewrite dict_set_fresh.
    2:{ intros key d' Hin. apply Hkeys in Hin. lia. }
    destruct (IH (S a) (acc ++ [(Z.of_nat a + 1, d)])) as (es & Hes & Hall).
    + intros j Hj. apply Hentries. lia.
    + intros key d' Hin. apply in_app_or in Hin. destruct Hin as [Hin|[Hin|[]]].
      * apply Hkeys in Hin. lia.
      * inversion Hin; subst. lia.
    + exists ((Z.of_nat a + 1, d) :: es). split.
      * rewrite Hes, <- app_assoc. reflexivity.
      * constructor; [split; [reflexivity | exact Hd] | exact Hall].
Qed.

Lemma port_entry_ok st ls pk (n j : nat) :
  length st = n -> length ls = n -> length pk = (4 * n)%nat ->
  Forall (fun v => 0 <= v <= 1) st -> Forall (fun v => 0 <= v <= 7) ls ->
  (j < n)%nat ->
  exists d, port_entry st ls pk (Z.of_nat j) = Ok d.
Proof.
  intros Hst Hls Hpk Rst Rls Hj. unfold port_entry.
  destruct (getitem_in_range st (Z.of_nat j)) as (s & Es & Ns); [lia|].
  destruct (getitem_in_range ls (Z.of_nat j)) as (l & El & Nl); [lia|].
  assert (Rs : 0 <= s <= 1).
  { rewrite Forall_forall in Rst. apply Rst. eapply nth_error_In; eassumption. }
  assert (Rl : 0 <= l <= 7).
  { rewrite Forall_forall in Rls. apply Rls. eapply nth_error_In; eassumption. }
  destruct (getitem_in_range state_info s) as (sl & Esl & _); [cbn; lia|].
  destruct (getitem_in_range link_info l) as (ll & Ell & _); [cbn; lia|].
  destruct (getitem_in_range pk (4 * Z.of_nat j)) as (p0 & E0 & _); [lia|].
  destruct (getitem_in_range pk (4 * Z.of_nat j + 1)) as (p1 & E1 & _); [lia|].
  destruct (getitem_in_range pk (4 * Z.of_nat j + 2)) as (p2 & E2 & _); [lia|].
  destruct (getitem_in_range pk (4 * Z.of_nat j + 3)) as (p3 & E3 & _); [lia|].
  rewrite Es; cbn [rbind]. rewrite Esl; cbn [rbind].
  rewrite El; cbn [rbind]. rewrite Ell; cbn [rbind].
  rewrite E0; cbn [rbind]. rewrite E1; cbn [rbind].
  rewrite E2; cbn [rbind]. rewrite E3; cbn [rbind].
  eauto.
Qed.

Lemma Forall2_nth_error {A B : Type} (R : A -> B -> Prop) (l : list A) (l' : list B) :
  Forall2 R l l' ->
  forall i a, nth_error l i = Some a -> exists b, nth_error l' i = Some b /\ R a b.
Proof.
  induction 1 as [|x y l l' Hxy Hall IH]; intros i a Hi.
  - destruct i; discriminate.
  - destruct i as [|i]; cbn in *.
    + inversion Hi; subst. eauto.
    + eauto.
Qed.

Lemma Forall2_map_fst (R : nat -> Z * port_data -> Prop) (a k : nat)
      (es : list (Z * port_data)) :
  (forall j e, R j e -> fst e = Z.of_nat j + 1) ->
  Forall2 R (seq a k) es ->
  map fst es = map Z.of_nat (seq (S a) k).
Proof.
  intros HR. revert a es. induction k as [|k IH]; intros a es H; cbn in *.
  - inversion H; reflexivity.
  - inversion H as [|x y l l' Hx Hall]; subst. cbn. f_equal.
    + apply HR in Hx. lia.
    + apply IH. exact Hall.
Qed.

(** ** parse_ports_info on well-formed pages *)

(** C1 (amended).  When the port-count pattern finds the digit [n] in a
    page of no more than 4300 decimal digits, the state and link_status
    arrays hold [n] integers within their lookup tables and the pkts array
    holds [4 * n] integers, then [parse_ports_info] returns [n] records,
    keyed 1..n in ascending order, and the record of port [i] carries the
    four counters found at [pkts[4(i-1)]] .. [pkts[4(i-1)+3]].  The count
    is necessarily a single digit, because that is all the pattern
    matches; the bound on the digits keeps every [int] conversion below
    the interpreter's limit. *)
Theorem parse_ports_info_records (response_text : string) (n : nat)
        (st ls pk : list Z) :
  ports_page_fields response_text n st ls pk ->
  (digit_count response_text <= 4300)%nat ->
  length st = n -> length ls = n -> length pk = (4 * n)%nat ->
  Forall (fun v => 0 <= v <= 1) st ->
  Forall (fun v => 0 <= v <= 7) ls ->
  exists ports_info,
    parse_ports_info response_text = Ok ports_info
    /\ length ports_info = n
    /\ map fst ports_info = map Z.of_nat (seq 1 n)
    /\ forall i, (1 <= i <= n)%nat ->
         exists d,
           nth_error ports_info (i - 1) = Some (Z.of_nat i, d)
           /\ nth_error pk (4 * (i - 1)) = Some (pd_txgoodpkt d)
           /\ nth_error pk (4 * (i - 1) + 1) = Some (pd_txbadpkt d)
           /\ nth_error pk (4 * (i - 1) + 2) = Some (pd_rxgoodpkt d)
           /\ nth_error pk (4 * (i - 1) + 3) = Some (pd_rxbadpkt d).
Proof.
  intros Hfields _ Hst Hls Hpk Rst Rls.
  rewrite (parse_ports_info_fields _ _ _ _ _ Hfields).
  unfold Py.range. rewrite Nat2Z.id.
  destruct (ports_loop_ok st ls pk n 0 []) as (es & Hes & Hall).
  { intros j Hj. eapply port_entry_ok; eauto. lia. }
  { intros key d []. }
  exists es. cbn [app] in Hes. split; [exact Hes|].
  assert (Hlen : length es = n).
  { apply Forall2_length in Hall. rewrite length_seq in Hall. congruence. }
  split; [exact Hlen|].
  split.
  { eapply Forall2_map_fst; [|exact Hall]. intros j e [H _]. exact H. }
  intros i Hi.
  destruct (Forall2_nth_error _ _ _ Hall (i - 1)%nat (i - 1)%nat)
    as ([key d] & Hnth & Hkey & Hentry).
  { rewrite nth_error_nth' with (d := O) by (rewrite length_seq; lia).
    rewrite seq_nth by lia. reflexivity. }
  cbn [fst snd] in Hkey, Hentry.
  apply port_entry_inv in Hentry.
  destruct Hentry as (s & l & _ & _ & _ & _ & H0 & H1 & H2 & H3).
  apply getitem_nonneg in H0; [|lia]. apply getitem_nonneg in H1; [|lia].
  apply getitem_nonneg in H2; [|lia]. apply getitem_nonneg in H3; [|lia].
  exists d. replace (Z.of_nat i) with key by lia.
  split; [exact Hnth|].
  replace (4 * (i - 1))%nat with (Z.to_nat (4 * Z.of_nat (i - 1))) by lia.
  replace (Z.to_nat (4 * Z.of_nat (i - 1)) + 1)%nat
    with (Z.to_nat (4 * Z.of_nat (i - 1) + 1)) by lia.
  replace (Z.to_nat (4 * Z.of_nat (i - 1)) + 2)%nat
    with (Z.to_nat (4 * Z.of_nat (i - 1) + 2)) by lia.
  replace (Z.to_nat (4 * Z.of_nat (i - 1)) + 3)%nat
    with (Z.to_nat (4 * Z.of_nat (i - 1) + 3)) by lia.
  auto.
Qed.

Lemma ports_fixture_fields :
  ports_page_fields ports_fixture 2 [1; 0] [5; 0] [10; 0; 20; 1; 0; 0; 0; 0].
Proof.
  split; [exists "2"; split; vm_compute; reflexivity|].
  repeat split; vm_compute; reflexivity.
Defined.

Lemma parse_ports_info_records_witness :
  exists ports_info,
    parse_ports_info ports_fixture = Ok ports_info
    /\ length ports_info = 2%nat
    /\ map fst ports_info = map Z.of_nat (seq 1 2)
    /\ forall i, (1 <= i <= 2)%nat ->
         exists d,
           nth_error ports_info (i - 1) = Some (Z.of_nat i, d)
           /\ nth_error [10; 0; 20; 1; 0; 0; 0; 0] (4 * (i - 1)) = Some (pd_txgoodpkt d)
           /\ nth_error [10; 0; 20; 1; 0; 0; 0; 0] (4 * (i - 1) + 1) = Some (pd_txbadpkt d)
           /\ nth_error [10; 0; 20; 1; 0; 0; 0; 0] (4 * (i - 1) + 2) = Some (pd_rxgoodpkt d)
           /\ nth_error [10; 0; 20; 1; 0; 0; 0; 0] (4 * (i - 1) + 3) = Some (pd_rxbadpkt d).
Proof.
  apply (parse_ports_info_records ports_fixture 2 [1; 0] [5; 0]
                                  [10; 0; 20; 1; 0; 0; 0; 0]).
  - exact ports_fixture_fields.
  - apply Nat.leb_le. vm_compute. reflexivity.
  - reflexivity.
  - reflexivity.
  - reflexivity.
  - repeat constructor; lia.
  - repeat constructor; lia.
Defined.

(** C1 as stated fails on a ten-port page: the arrays hold 10, 10 and 40
    integers, yet the port-count pattern finds nothing. *)
Lemma ports_ten_not_parsed :
  int_array re_state ports_ten = Ok (repeat 1 10)
  /\ int_array re_link_status ports_ten = Ok (repeat 6 10)
  /\ int_array re_pkts ports_ten = Ok (repeat 0 40)
  /\ parse_ports_info ports_ten = Raise AttributeError.
Proof. repeat split; vm_compute; reflexivity. Qed.

(** C2 (amended).  On a page of no more than 4300 decimal digits, a
    state value below -2 or above 1 at an index below the port count makes
    [parse_ports_info] raise IndexError; the values -1 and -2 are accepted
    and index the state table from its end. *)
Theorem state_out_of_range (response_text : string) (n : nat)
        (st ls pk : list Z) (i : nat) (v : Z) :
  ports_page_fields response_text n st ls pk ->
  (digit_count response_text <= 4300)%nat ->
  (i < n)%nat -> nth_error st i = Some v -> v < -2 \/ 1 < v ->
  parse_ports_info response_text = Raise IndexError
  /\ Py.getitem state_info (-1) = Ok "Enabled"%string
  /\ Py.getitem state_info (-2) = Ok "Disabled"%string.
Proof.
  intros Hfields _ Hi Hv Hout. split; [|split; reflexivity].
  rewrite (parse_ports_info_fields _ _ _ _ _ Hfields).
  destruct (ports_loop st ls pk (Py.range (Z.of_nat n)) []) as [r|e] eqn:E.
  - exfalso.
    destruct (ports_loop_entries _ _ _ _ _ _ E (Z.of_nat i)) as (d & Hd).
    { apply in_range. lia. }
    apply port_entry_inv in Hd. destruct Hd as (s & l & Hs & Hlabel & _).
    apply getitem_nonneg in Hs; [|lia]. rewrite Nat2Z.id in Hs.
    assert (s = v) by congruence. subst s.
    rewrite getitem_out_of_range in Hlabel; [discriminate | cbn; lia].
  - f_equal. eapply ports_loop_raises. exact E.
Qed.

Lemma state_out_of_range_witness :
  parse_ports_info
    (lines ["var max_port_num = 2;"; "state:[1,2],"; "link_status:[5,0],";
            "pkts:[10,0,20,1,0,0,0,0]"])%string
  = Raise IndexError
  /\ Py.getitem state_info (-1) = Ok "Enabled"%string
  /\ Py.getitem state_info (-2) = Ok "Disabled"%string.
Proof.
  apply (state_out_of_range _ 2 [1; 2] [5; 0] [10; 0; 20; 1; 0; 0; 0; 0] 1 2).
  - split; [exists "2"%string; split; vm_compute; reflexivity|].
    repeat split; vm_compute; reflexivity.
  - apply Nat.leb_le. vm_compute. reflexivity.
  - lia.
  - reflexivity.
  - right. lia.
Defined.

(** C2 as stated fails: the state -1 is mapped to the label Enabled. *)
Lemma negative_state_accepted :
  int_array re_state ports_negative_state = Ok [-1]
  /\ parse_ports_info ports_negative_state
     = Ok [(1, mk_port_data "Enabled" "100Full" 10 0 20 1)].
Proof. split; vm_compute; reflexivity. Qed.



(** C7.  The fixture page with two ports yields port 1 = Enabled, 100Full,
    counters 10, 0, 20, 1 and port 2 = Disabled, Link Down, counters all 0. *)
Theorem ports_fixture_parsed :
  parse_ports_info ports_fixture
  = Ok [ (1, mk_port_data "Enabled" "100Full" 10 0 20 1);
         (2, mk_port_data "Disabled" "Link Down" 0 0 0 0) ].
Proof. vm_compute. reflexivity. Qed.

(** ** SwitchTPLDAO *)

(** C5.  Whatever the body of the response to the POST to url + logon.cgi,
    [logon] returns the session exactly when the status code is 200, and
    for any other code raises the exception whose message ends with that
    code. *)
Theorem logon_status (requests : Requests) (self : SwitchTPLDAO)
        (response : Response) (session : Session) :
  session_post requests (url self ++ "logon.cgi")%string
               [ ("username", username self); ("password", password self);
                 ("logon", "Login") ]%string
  = Ok (response, session) ->
  (status_code response = 200 -> logon requests self = Ok session)
  /\ (status_code response <> 200 ->
      logon requests self
      = Raise (Exception ("Login failed. HTTP Status Code: "
                          ++ Py.str_of_int (status_code response))%string))
  /\ ((exists s, logon requests self = Ok s) <-> status_code response = 200).
Proof.
  intros Hpost. unfold logon. rewrite Hpost. cbn [rbind fst snd].
  destruct (status_code response =? 200) eqn:E.
  - apply Z.eqb_eq in E. repeat split; eauto; congruence.
  - apply Z.eqb_neq in E. repeat split; try congruence.
    intros (s & Hs). discriminate.
Qed.

Lemma logon_status_witness :
  (403 = 200 -> logon (answering 403) populated_dao = Ok (serving ""))
  /\ (403 <> 200 ->
      logon (answering 403) populated_dao
      = Raise (Exception "Login failed. HTTP Status Code: 403"))
  /\ ((exists s, logon (answering 403) populated_dao = Ok s) <-> 403 = 200).
Proof.
  apply (logon_status (answering 403) populated_dao
                      (mk_Response 403 "<html></html>") (serving "")).
  reflexivity.
Defined.

Lemma append_ports_spec (items : list (Z * port_data)) (self : SwitchTPLDAO) :
  append_ports items self
  = (Ok tt, with_switch (fun s => set_ports (ports s ++ map make_port items) s) self).
Proof.
  revert self. induction items as [|item items IH]; intros self.
  - cbn. unfold ret, with_switch, set_ports. rewrite app_nil_r.
    destruct self as [[] ? ? ? ?]; reflexivity.
  - cbn [append_ports]. unfold bind, append_port, update_switch.
    rewrite IH. unfold with_switch, set_ports; cbn. rewrite <- app_assoc.
    reflexivity.
Qed.

(** The loader, step by step. *)
Lemma ports_info_loader_steps (session : Session) (self : SwitchTPLDAO) :
  ports_info_loader session self
  = match session_get session (url self ++ "PortStatisticsRpm.htm")%string with
    | Raise e => (Raise e, self)
    | Ok response =>
        match parser_parse_ports_info (parser self) (text response) with
        | Raise e => (Raise e, self)
        | Ok ports_info =>
            (Ok tt,
             mk_DAO (set_ports (map make_port ports_info) (switch self))
                    (parser self) (url self) (username self) (password self))
        end
    end.
Proof.
  unfold ports_info_loader, bind, read, lift.
  destruct (session_get session _) as [response|e]; [|reflexivity].
  destruct (parser_parse_ports_info _ _) as [ports_info|e]; [|reflexivity].
  unfold update_switch. rewrite append_ports_spec.
  unfold with_switch, set_ports; cbn. reflexivity.
Qed.

(** Each port built by the loop carries the number, the two labels and
    the four counters of its entry. *)
Lemma make_port_entries (ports_info : list (Z * port_data)) :
  Forall2 (fun item port =>
             port_num port = fst item
             /\ state port = pd_status (snd item)
             /\ link_status port = pd_link_status (snd item)
             /\ txgoodpkt port = pd_txgoodpkt (snd item)
             /\ txbadpkt port = pd_txbadpkt (snd item)
             /\ rxgoodpkt port = pd_rxgoodpkt (snd item)
             /\ rxbadpkt port = pd_rxbadpkt (snd item))
          ports_info (map make_port ports_info).
Proof.
  induction ports_info as [|item ports_info IH]; cbn [map]; constructor.
  - unfold make_port. cbn. repeat split.
  - exact IH.
Qed.

(** C4.  [ports_info_loader] is all or nothing.  When the fetch or the
    parse raises, the loader raises the same exception and the repository,
    its port list included, is exactly as it was.  When both succeed, the
    loader returns and the port list is the parsed entries and nothing
    else: as many ports as entries, in their order, whatever the list held
    before, each port with the number, the state, the link status and the
    four counters of its entry; the seven system fields, the port count,
    the parser, the address and the credentials are unchanged. *)
Theorem ports_info_loader_atomic (session : Session) (self : SwitchTPLDAO) :
  (forall e,
      session_get session (url self ++ "PortStatisticsRpm.htm")%string = Raise e ->
      ports_info_loader session self = (Raise e, self))
  /\ (forall response e,
         session_get session (url self ++ "PortStatisticsRpm.htm")%string
         = Ok response ->
         parser_parse_ports_info (parser self) (text response) = Raise e ->
         ports_info_loader session self = (Raise e, self))
  /\ (forall response ports_info,
         session_get session (url self ++ "PortStatisticsRpm.htm")%string
         = Ok response ->
         parser_parse_ports_info (parser self) (text response) = Ok ports_info ->
         let after := snd (ports_info_loader session self) in
         fst (ports_info_loader session self) = Ok tt
         /\ Forall2 (fun item port =>
                       port_num port = fst item
                       /\ state port = pd_status (snd item)
                       /\ link_status port = pd_link_status (snd item)
                       /\ txgoodpkt port = pd_txgoodpkt (snd item)
                       /\ txbadpkt port = pd_txbadpkt (snd item)
                       /\ rxgoodpkt port = pd_rxgoodpkt (snd item)
                       /\ rxbadpkt port = pd_rxbadpkt (snd item))
                    ports_info (ports (switch after))
         /\ description (switch after) = description (switch self)
         /\ mac_address (switch after) = mac_address (switch self)
         /\ ip_address (switch after) = ip_address (switch self)
         /\ subnet_mask (switch after) = subnet_mask (switch self)
         /\ gateway (switch after) = gateway (switch self)
         /\ firmware (switch after) = firmware (switch self)
         /\ hardware (switch after) = hardware (switch self)
         /\ port_number (switch after) = port_number (switch self)
         /\ parser after = parser self
         /\ url after = url self
         /\ username after = username self
         /\ password after = password self).
Proof.
  split; [|split].
  - intros e Hget. rewrite ports_info_loader_steps, Hget. reflexivity.
  - intros response e Hget Hparse.
    rewrite ports_info_loader_steps, Hget, Hparse. reflexivity.
  - intros response ports_info Hget Hparse. cbv zeta.
    rewrite ports_info_loader_steps, Hget, Hparse.
    cbn [fst snd switch parser url username password set_ports ports description
         mac_address ip_address subnet_mask gateway firmware hardware port_number].
    split; [reflexivity|]. split; [apply make_port_entries|].
    repeat split.
Qed.

(** On the fixture page the list that held one port holds the two ports
    of the page afterwards. *)
Lemma ports_info_loader_atomic_witness :
  fst (ports_info_loader (serving ports_fixture) populated_dao) = Ok tt
  /\ ports (switch (snd (ports_info_loader (serving ports_fixture) populated_dao)))
     = [ mk_SwitchPort 1 "Enabled" "100Full" 10 0 20 1;
         mk_SwitchPort 2 "Disabled" "Link Down" 0 0 0 0 ]
  /\ Forall2 (fun item port =>
                port_num port = fst item
                /\ state port = pd_status (snd item)
                /\ link_status port = pd_link_status (snd item)
                /\ txgoodpkt port = pd_txgoodpkt (snd item)
                /\ txbadpkt port = pd_txbadpkt (snd item)
                /\ rxgoodpkt port = pd_rxgoodpkt (snd item)
                /\ rxbadpkt port = pd_rxbadpkt (snd item))
             [ (1, mk_port_data "Enabled" "100Full" 10 0 20 1);
               (2, mk_port_data "Disabled" "Link Down" 0 0 0 0) ]
             (ports (switch (snd (ports_info_loader (serving ports_fixture)
                                                    populated_dao)))).
Proof.
  split; [vm_compute; reflexivity|]. split; [vm_compute; reflexivity|].
  apply (proj2 (proj2 (ports_info_loader_atomic (serving ports_fixture) populated_dao))
               (mk_Response 200 ports_fixture)
               [ (1, mk_port_data "Enabled" "100Full" 10 0 20 1);
                 (2, mk_port_data "Disabled" "Link Down" 0 0 0 0) ]).
  - reflexivity.
  - vm_compute. reflexivity.
Defined.

Lemma bind_ret_tt (m : M unit) (self : SwitchTPLDAO) :
  bind m (fun _ => ret tt) self = m self.
Proof.
  unfold bind, ret. destruct (m self) as [[[]|e] self']; reflexivity.
Qed.

Lemma sys_info_loader_fields (session : Session) (self : SwitchTPLDAO)
      (response : Response) (sys_info : Json.value) :
  session_get session (url self ++ "SystemInfoRpm.htm")%string = Ok response ->
  parser_parse_system_info (parser self) (text response) = Ok sys_info ->
  sys_info_loader session self = assign_fields sys_info system_fields self.
Proof.
  intros Hget Hparse.
  unfold sys_info_loader, bind at 1, read at 1. unfold bind at 1, lift at 1.
  rewrite Hget. unfold bind at 1, read at 1. unfold bind at 1, lift at 1.
  rewrite Hparse. cbn [assign_fields system_fields].
  unfold bind.
  repeat match goal with
         | |- context [assign ?f ?i ?k ?s] => destruct (assign f i k s) as [[[]|?] ?]
         end; reflexivity.
Qed.


Lemma assign_fields_all (sys_info : Json.value) fs :
  (forall k f, In (k, f) fs -> exists v, Json.getitem sys_info k = Ok v) ->
  forall self,
    assign_fields sys_info fs self = (Ok tt, with_switch (assigned sys_info fs) self).
Proof.
  intros Hfs. induction fs as [|[k f] fs IH]; intros self.
  - cbn. destruct self as [[] ? ? ? ?]; reflexivity.
  - destruct (Hfs k f) as (v & Hv); [left; reflexivity|].
    cbn [assign_fields assigned]. unfold bind at 1, assign, bind, lift.
    rewrite Hv. unfold update_switch. rewrite IH.
    + reflexivity.
    + intros k' f' Hin. apply (Hfs k' f'). right. exact Hin.
Qed.




(** ** The matcher on literal prefixes *)

Lemma match_here_lits (p : string) (pat : list Re.atom) (ing bol : bool) (s : string) :
  Re.match_here (Re.lits p ++ pat) ing bol s
  = match Py.strip_prefix p s with
    | Some s' =>
        option_map (Re.consume_all ing p)
                   (Re.match_here pat ing (Re.bol_after bol p) s')
    | None => None
    end.
Proof.
  revert bol s. induction p as [|a p IH]; intros bol s.
  - cbn. destruct (Re.match_here pat ing bol s); reflexivity.
  - cbn [Re.lits app Re.match_here Py.strip_prefix Re.bol_after].
    destruct s as [|c s]; [reflexivity|].
    rewrite (Ascii.eqb_sym a c).
    destruct (Ascii.eqb c a) eqn:E; [|reflexivity].
    apply Ascii.eqb_eq in E. subst c.
    rewrite IH. destruct (Py.strip_prefix p s); [|reflexivity].
    destruct (Re.match_here pat ing _ _); reflexivity.
Qed.

Lemma group1_consume_all_outside (p : string) (r : Re.rmatch) :
  Re.group1 (Re.consume_all false p r) = Re.group1 r.
Proof. induction p as [|a p IH]; cbn; [reflexivity | exact IH]. Qed.

Lemma int_of_digit (d : ascii) :
  Py.is_digit d = true ->
  exists v, Py.int (String d EmptyString) = Ok v /\ 0 <= v <= 9.
Proof.
  destruct d as [b0 b1 b2 b3 b4 b5 b6 b7].
  destruct b0, b1, b2, b3, b4, b5, b6, b7; intros Hd;
    try discriminate Hd; eexists; (split; [vm_compute; reflexivity | lia]).
Qed.

(** What the port-count pattern can match: one digit between the literal
    prefix and the semicolon. *)
Lemma count_match_here (bol : bool) (s : string) (r : Re.rmatch) :
  Re.match_here re_max_port_num false bol s = Some r ->
  exists d tail,
    Py.strip_prefix "var max_port_num = " s = Some (String d (String ";" tail))
    /\ Py.is_digit d = true
    /\ Re.group1 r = String d EmptyString.
Proof.
  unfold re_max_port_num. rewrite match_here_lits.
  destruct (Py.strip_prefix "var max_port_num = " s) as [s'|]; [|discriminate].
  cbn [Re.match_here].
  destruct s' as [|d s']; [discriminate|].
  unfold Re.digit.
  destruct (Py.is_digit d) eqn:Hd; [|discriminate].
  destruct s' as [|c tail]; [discriminate|].
  destruct (Ascii.eqb c ";") eqn:Hc; [|discriminate].
  apply Ascii.eqb_eq in Hc. subst c. cbn [option_map].
  intros H. inversion H; subst; clear H.
  exists d, tail. cbn. auto.
Qed.

Lemma count_search (bol : bool) (s : string) (r : Re.rmatch) :
  Re.search_from re_max_port_num bol s = Some r ->
  exists d, Py.is_digit d = true /\ Re.group1 r = String d EmptyString.
Proof.
  revert bol. induction s as [|c s IH]; intros bol; cbn [Re.search_from].
  - destruct (Re.match_here re_max_port_num false bol "") eqn:E.
    + intros H; inversion H; subst.
      apply count_match_here in E. destruct E as (d & tail & _ & Hd & Hg). eauto.
    + discriminate.
  - destruct (Re.match_here re_max_port_num false bol (String c s)) eqn:E.
    + intros H; inversion H; subst.
      apply count_match_here in E. destruct E as (d & tail & _ & Hd & Hg). eauto.
    + apply IH.
Qed.

Lemma count_search_none (bol : bool) (s : string) :
  two_digit_counts s = true ->
  Re.search_from re_max_port_num bol s = None.
Proof.
  revert bol. induction s as [|c s IH]; intros bol Htwo.
  - reflexivity.
  - cbn [two_digit_counts] in Htwo. apply andb_true_iff in Htwo.
    destruct Htwo as [Hhere Htail].
    cbn [Re.search_from].
    destruct (Re.match_here re_max_port_num false bol (String c s)) eqn:E.
    + exfalso. apply count_match_here in E.
      destruct E as (d & tail & Hp & Hd & _). rewrite Hp in Hhere.
      apply andb_true_iff in Hhere. destruct Hhere as [_ Hsemi]. discriminate.
    + apply IH. exact Htail.
Qed.

Lemma dict_set_length {V : Type} (acc : list (Z * V)) (k : Z) (v : V) :
  (length (Py.dict_set Z.eqb acc k v) <= S (length acc))%nat.
Proof.
  induction acc as [|[k' v'] acc IH]; cbn; [lia|].
  destruct (Z.eqb k' k); cbn; lia.
Qed.

Lemma ports_loop_length st ls pk indices acc r :
  ports_loop st ls pk indices acc = Ok r ->
  (length r <= length acc + length indices)%nat.
Proof.
  revert acc. induction indices as [|i indices IH]; intros acc; cbn.
  - intros H; inversion H; subst. lia.
  - destruct (port_entry st ls pk i) as [d|e]; cbn; [|discriminate].
    intros H. apply IH in H.
    pose proof (dict_set_length acc (i + 1) d). lia.
Qed.

(** C10.  The port-count pattern takes exactly one decimal digit: a page
    where every [var max_port_num = ] is followed by two digits or more
    makes [parse_ports_info] fail for want of a match (AttributeError on
    the missing match object), and no page at all is parsed into more than
    nine ports. *)
Theorem max_port_num_single_digit :
  (forall response_text,
      two_digit_counts response_text = true ->
      parse_ports_info response_text = Raise AttributeError)
  /\ (forall response_text ports_info,
      parse_ports_info response_text = Ok ports_info ->
      (length ports_info <= 9)%nat).
Proof.
  split.
  - intros response_text Htwo. unfold parse_ports_info, Re.search.
    rewrite (count_search_none true _ Htwo). reflexivity.
  - intros response_text ports_info. unfold parse_ports_info, Re.search.
    destruct (Re.search_from re_max_port_num true response_text) as [r|] eqn:E;
      [|discriminate].
    apply count_search in E. destruct E as (d & Hd & Hg).
    cbn [Re.group rbind]. rewrite Hg.
    destruct (int_of_digit d Hd) as (v & Hv & Hrange). rewrite Hv. cbn [rbind].
    destruct (int_array re_state response_text); [|discriminate].
    destruct (int_array re_link_status response_text); [|discriminate].
    destruct (int_array re_pkts response_text); [|discriminate].
    cbn [rbind]. intros H. apply ports_loop_length in H.
    unfold Py.range in H. rewrite length_map, length_seq in H. cbn in H. lia.
Qed.

Lemma max_port_num_single_digit_witness :
  parse_ports_info ports_ten = Raise AttributeError.
Proof.
  apply (proj1 max_port_num_single_digit ports_ten).
  vm_compute. reflexivity.
Defined.

(** ** parse_system_info on well-formed pages *)

Lemma strip_prefix_overlap (L b s x : string) :
  Py.strip_prefix L (b ++ s) = Some x ->
  Py.strip_prefix L b = None ->
  exists c s', s = String c s' /\ String.get (String.length b) L = Some c.
Proof.
  revert b. induction L as [|a L IH]; intros b Hsome Hnone.
  - discriminate.
  - destruct b as [|c1 b]; cbn in *.
    + destruct s as [|c s']; [discriminate|].
      destruct (Ascii.eqb a c) eqn:E; [|discriminate].
      apply Ascii.eqb_eq in E. subst. eauto.
    + destruct (Ascii.eqb a c1); [|discriminate]. apply IH; assumption.
Qed.

Lemma info_ds_no_border (k : nat) :
  String.get (S k) "var info_ds = " <> Some "v"%char.
Proof.
  do 14 (destruct k as [|k]; [cbn; discriminate|]). cbn. discriminate.
Qed.

Lemma info_ds_search_skip (pre tail : string) (bol : bool) :
  Py.contains "var info_ds = " pre = false ->
  Re.search_from re_info_ds bol (pre ++ String "v" tail)
  = Re.search_from re_info_ds (Re.bol_after bol pre) (String "v" tail).
Proof.
  revert bol. induction pre as [|c pre IH]; intros bol Hpre.
  - reflexivity.
  - cbn [Py.contains] in Hpre.
    destruct (Py.strip_prefix "var info_ds = " (String c pre)) eqn:Hhere;
      [discriminate|].
    cbn [String.append Re.search_from Re.bol_after].
    assert (Hnone : Re.match_here re_info_ds false bol (String c (pre ++ String "v" tail)) = None).
    { unfold re_info_ds. rewrite match_here_lits.
      destruct (Py.strip_prefix "var info_ds = " (String c (pre ++ String "v" tail)))
        eqn:Hover; [|reflexivity].
      exfalso.
      destruct (strip_prefix_overlap _ (String c pre) _ _ Hover Hhere)
        as (c' & s' & Hs & Hget).
      inversion Hs; subst. exact (info_ds_no_border _ Hget). }
    rewrite Hnone. apply IH. exact Hpre.
Qed.

Lemma close_match_none (ing bol : bool) (s : string) :
  closes s = false -> Re.match_here re_info_close ing bol s = None.
Proof.
  unfold closes, re_info_close. destruct s as [|c1 s1]; [reflexivity|].
  cbn [Re.match_here]. destruct (Ascii.eqb c1 "}"); [|reflexivity].
  destruct s1 as [|c2 t]; [reflexivity|].
  destruct (Ascii.eqb c2 ";"); [|reflexivity].
  cbn [andb]. intros ->. reflexivity.
Qed.

Lemma lazy_skip_char (ing bol : bool) (c : ascii) (s : string) :
  closes (String c s) = false ->
  Re.match_here (Re.LazyStar Re.any :: re_info_close) ing bol (String c s)
  = option_map (Re.consume ing c)
               (Re.match_here (Re.LazyStar Re.any :: re_info_close) ing (Re.is_nl c) s).
Proof.
  intros H. apply (close_match_none ing bol) in H.
  change (Re.match_here (Re.LazyStar Re.any :: re_info_close) ing bol (String c s))
    with (match Re.match_here re_info_close ing bol (String c s) with
          | Some r => Some r
          | None =>
              option_map (Re.consume ing c)
                (Re.match_here (Re.LazyStar Re.any :: re_info_close) ing (Re.is_nl c) s)
          end).
  rewrite H. reflexivity.
Qed.

Lemma plain_char_not_nl (c : ascii) : plain_char c = true -> Re.is_nl c = false.
Proof.
  unfold plain_char, Re.is_nl. intros H.
  destruct (Ascii.eqb c "010") eqn:E; [|reflexivity].
  apply Ascii.eqb_eq in E. subst c. discriminate.
Qed.

Lemma plain_bol_after (v : string) : plain v = true -> Re.bol_after false v = false.
Proof.
  assert (G : forall b, b = false -> plain v = true -> Re.bol_after b v = false).
  { induction v as [|c v IH]; intros b Hb Hv; [exact Hb|].
    cbn in *. apply andb_true_iff in Hv. destruct Hv as [Hc Hv].
    apply IH; [apply plain_char_not_nl; exact Hc | exact Hv]. }
  apply G. reflexivity.
Qed.

Lemma closes_plain (c : ascii) (v t : string) :
  plain v = true -> closes (String c (v ++ String Json.dq t)) = false.
Proof.
  intros Hv. unfold closes. destruct (Ascii.eqb c "}"); [|reflexivity].
  destruct v as [|c2 v]; cbn [String.append].
  - reflexivity.
  - destruct (Ascii.eqb c2 ";"); [|reflexivity]. cbn [andb].
    destruct v as [|c3 v]; cbn [String.append Re.at_eol].
    + reflexivity.
    + apply plain_char_not_nl. cbn in Hv.
      apply andb_true_iff in Hv. destruct Hv as [_ Hv].
      apply andb_true_iff in Hv. destruct Hv as [Hc3 _]. exact Hc3.
Qed.

Lemma lazy_skip_plain (ing bol : bool) (v t : string) :
  plain v = true ->
  Re.match_here (Re.LazyStar Re.any :: re_info_close) ing bol (v ++ String Json.dq t)
  = option_map (Re.consume_all ing v)
      (Re.match_here (Re.LazyStar Re.any :: re_info_close) ing
                     (Re.bol_after bol v) (String Json.dq t)).
Proof.
  revert bol. induction v as [|c v IH]; intros bol Hv.
  - cbn [String.append Re.consume_all Re.bol_after].
    destruct (Re.match_here _ _ _ _); reflexivity.
  - cbn [String.append Re.consume_all Re.bol_after].
    assert (Hv' : plain v = true).
    { cbn in Hv. apply andb_true_iff in Hv. tauto. }
    rewrite lazy_skip_char by (apply closes_plain; exact Hv').
    rewrite IH by exact Hv'.
    destruct (Re.match_here _ _ _ _); reflexivity.
Qed.

Lemma group1_consume_all_inside (w : string) (r : Re.rmatch) :
  Re.group1 (Re.consume_all true w r) = (w ++ Re.group1 r)%string.
Proof. induction w as [|c w IH]; cbn; [reflexivity | rewrite IH; reflexivity]. Qed.

Lemma lazy_stop (ing bol : bool) (post : string) :
  Re.at_eol post = true ->
  Re.match_here (Re.LazyStar Re.any :: re_info_close) ing bol
                (String "}" (String ";" post))
  = Some (Re.consume ing "}" (Re.consume false ";" (Re.mk_rmatch "" "" post))).
Proof.
  intros Hpost.
  change (Re.match_here (Re.LazyStar Re.any :: re_info_close) ing bol
                        (String "}" (String ";" post)))
    with (match Re.match_here re_info_close ing bol (String "}" (String ";" post)) with
          | Some r => Some r
          | None =>
              option_map (Re.consume ing "}")
                (Re.match_here (Re.LazyStar Re.any :: re_info_close) ing
                               (Re.is_nl "}") (String ";" post))
          end).
  unfold re_info_close. cbn [Re.match_here]. cbn [Ascii.eqb Bool.eqb].
  rewrite Hpost. reflexivity.
Qed.

Ltac lazy_chars :=
  repeat (rewrite lazy_skip_char by reflexivity).

Lemma match_here_group_open (pat : list Re.atom) (ing bol : bool) (s : string) :
  Re.match_here (Re.GroupOpen :: pat) ing bol s = Re.match_here pat true bol s.
Proof. reflexivity. Qed.

Lemma match_here_lit (c : ascii) (pat : list Re.atom) (ing bol : bool) (s : string) :
  Re.match_here (Re.Lit c :: pat) ing bol (String c s)
  = option_map (Re.consume ing c) (Re.match_here pat ing (Re.is_nl c) s).
Proof. cbn [Re.match_here]. rewrite Ascii.eqb_refl. reflexivity. Qed.

Lemma search_from_here (pat : list Re.atom) (bol : bool) (s : string) (r : Re.rmatch) :
  Re.match_here pat false bol s = Some r -> Re.search_from pat bol s = Some r.
Proof. intros H. destruct s; cbn [Re.search_from]; rewrite H; reflexivity. Qed.

Lemma info_ds_match_here (bol : bool) (v1 v2 v3 v4 v5 v6 v7 post : string) :
  plain v1 = true -> plain v2 = true -> plain v3 = true -> plain v4 = true ->
  plain v5 = true -> plain v6 = true -> plain v7 = true ->
  Re.at_eol post = true ->
  exists r,
    Re.match_here re_info_ds false bol
      ("var info_ds = {" ++ String Json.nl
         (info_fields v1 v2 v3 v4 v5 v6 v7 ("};" ++ post)))%string = Some r
    /\ Re.group1 r = String "{" (String Json.nl (info_fields v1 v2 v3 v4 v5 v6 v7 "}")).
Proof.
  intros H1 H2 H3 H4 H5 H6 H7 Hpost.
  unfold re_info_ds. rewrite match_here_lits.
  cbn [String.append Py.strip_prefix Ascii.eqb Bool.eqb].
  rewrite match_here_group_open, match_here_lit.
  fold re_info_close.
  unfold info_fields, info_field. cbn [String.append].
  lazy_chars. rewrite (lazy_skip_plain _ _ v1) by exact H1.
  lazy_chars. rewrite (lazy_skip_plain _ _ v2) by exact H2.
  lazy_chars. rewrite (lazy_skip_plain _ _ v3) by exact H3.
  lazy_chars. rewrite (lazy_skip_plain _ _ v4) by exact H4.
  lazy_chars. rewrite (lazy_skip_plain _ _ v5) by exact H5.
  lazy_chars. rewrite (lazy_skip_plain _ _ v6) by exact H6.
  lazy_chars. rewrite (lazy_skip_plain _ _ v7) by exact H7.
  lazy_chars. rewrite lazy_stop by exact Hpost.
  cbn [option_map]. eexists. split; [reflexivity|].
  rewrite group1_consume_all_outside.
  cbn [Re.group1 Re.consume].
  repeat (rewrite group1_consume_all_inside; cbn [Re.group1 Re.consume]).
  reflexivity.
Qed.

Lemma info_ds_group (pre v1 v2 v3 v4 v5 v6 v7 post : string) :
  Py.contains "var info_ds = " pre = false ->
  plain v1 = true -> plain v2 = true -> plain v3 = true -> plain v4 = true ->
  plain v5 = true -> plain v6 = true -> plain v7 = true ->
  Re.at_eol post = true ->
  Re.group (Re.search re_info_ds (sysinfo_page pre v1 v2 v3 v4 v5 v6 v7 post))
  = Ok (String "{" (String Json.nl (info_fields v1 v2 v3 v4 v5 v6 v7 "}"))).
Proof.
  intros Hpre H1 H2 H3 H4 H5 H6 H7 Hpost.
  destruct (info_ds_match_here (Re.bol_after true pre) v1 v2 v3 v4 v5 v6 v7 post)
    as (r & Hr & Hg); try assumption.
  unfold sysinfo_page, Re.search.
  change ("var info_ds = {" ++ String Json.nl
            (info_fields v1 v2 v3 v4 v5 v6 v7 ("};" ++ post)))%string
    with (String "v" ("ar info_ds = {" ++ String Json.nl
            (info_fields v1 v2 v3 v4 v5 v6 v7 ("};" ++ post))))%string in Hr |- *.
  rewrite info_ds_search_skip by exact Hpre.
  rewrite (search_from_here _ _ _ _ Hr). cbn [Re.group]. rewrite Hg. reflexivity.
Qed.

Lemma sub_char (c : ascii) (s : string) (bol : bool) :
  bol && Re.word c = false ->
  Re.sub_from re_bare_key quote_key 0 bol (String c s)
  = String c (Re.sub_from re_bare_key quote_key 0 (Re.is_nl c) s).
Proof.
  intros H. cbn [Re.sub_from].
  assert (Hnone : Re.match_here re_bare_key false bol (String c s) = None).
  { unfold re_bare_key. cbn [Re.match_here].
    destruct bol; [|reflexivity]. cbn [andb] in H. rewrite H. reflexivity. }
  rewrite Hnone. reflexivity.
Qed.

Lemma sub_plain (v t : string) :
  plain v = true ->
  Re.sub_from re_bare_key quote_key 0 false (v ++ t)
  = (v ++ Re.sub_from re_bare_key quote_key 0 false t)%string.
Proof.
  induction v as [|c v IH]; intros Hv; [reflexivity|].
  cbn in Hv. apply andb_true_iff in Hv. destruct Hv as [Hc Hv].
  cbn [String.append]. rewrite sub_char by reflexivity.
  rewrite (plain_char_not_nl c Hc). rewrite IH by exact Hv. reflexivity.
Qed.

Lemma sub_skip_string (pat : list Re.atom) (repl : Re.rmatch -> string)
      (w t : string) (bol : bool) :
  Re.sub_from pat repl (String.length w) bol (w ++ t)
  = Re.sub_from pat repl 0 (Re.bol_after bol w) t.
Proof.
  revert bol. induction w as [|c w IH]; intros bol.
  - cbn [String.length String.append Re.bol_after]. reflexivity.
  - cbn [String.length String.append Re.bol_after Re.sub_from]. apply IH.
Qed.

Lemma sub_match_string (pat : list Re.atom) (repl : Re.rmatch -> string)
      (c : ascii) (w t : string) (bol : bool) (r : Re.rmatch) :
  Re.match_here pat false bol (String c w ++ t) = Some r ->
  Re.matched r = String c w ->
  Re.sub_from pat repl 0 bol (String c w ++ t)
  = (repl r ++ Re.sub_from pat repl 0 (Re.bol_after bol (String c w)) t)%string.
Proof.
  intros Hm Hw. cbn [String.append] in *. cbn [Re.sub_from]. rewrite Hm, Hw.
  cbn [String.length Re.bol_after]. rewrite sub_skip_string. reflexivity.
Qed.

Ltac sub_chars := repeat (rewrite sub_char by reflexivity).

Ltac drop_chars n s :=
  lazymatch n with
  | O => s
  | S ?n' => lazymatch s with String _ ?s' => drop_chars n' s' end
  end.

Ltac sub_key key :=
  lazymatch goal with
  | |- context [Re.sub_from re_bare_key quote_key 0 ?b (String ?c ?s)] =>
      let n := eval compute in (String.length key) in
      let t := drop_chars n s in
      let kw := eval compute in (key ++ ":")%string in
      lazymatch kw with
      | String _ ?w =>
          let H := fresh "Hkey" in
          assert (H : Re.match_here re_bare_key false b (String c w ++ t)
                      = Some (Re.mk_rmatch (String c w) key t))
            by (vm_compute; reflexivity);
          change (String c s) with (String c w ++ t)%string;
          rewrite (sub_match_string re_bare_key quote_key c w t b _ H eq_refl);
          clear H
      end
  end.

Lemma info_sub (v1 v2 v3 v4 v5 v6 v7 : string) :
  plain v1 = true -> plain v2 = true -> plain v3 = true -> plain v4 = true ->
  plain v5 = true -> plain v6 = true -> plain v7 = true ->
  Re.sub re_bare_key quote_key
         (String "{" (String Json.nl (info_fields v1 v2 v3 v4 v5 v6 v7 "}")))
  = String "{" (String Json.nl (quoted_fields v1 v2 v3 v4 v5 v6 v7 "}")).
Proof.
  intros H1 H2 H3 H4 H5 H6 H7.
  unfold Re.sub, info_fields, info_field, quoted_fields, quoted_field.
  cbn [String.append].
  sub_chars.
  sub_key "descriStr"%string. cbn [quote_key Re.group1 String.append].
  sub_chars. change (Re.is_nl Json.dq) with false. rewrite sub_plain by exact H1.
  sub_chars.
  sub_key "macStr"%string. cbn [quote_key Re.group1 String.append].
  sub_chars. change (Re.is_nl Json.dq) with false. rewrite sub_plain by exact H2.
  sub_chars.
  sub_key "ipStr"%string. cbn [quote_key Re.group1 String.append].
  sub_chars. change (Re.is_nl Json.dq) with false. rewrite sub_plain by exact H3.
  sub_chars.
  sub_key "netmaskStr"%string. cbn [quote_key Re.group1 String.append].
  sub_chars. change (Re.is_nl Json.dq) with false. rewrite sub_plain by exact H4.
  sub_chars.
  sub_key "gatewayStr"%string. cbn [quote_key Re.group1 String.append].
  sub_chars. change (Re.is_nl Json.dq) with false. rewrite sub_plain by exact H5.
  sub_chars.
  sub_key "firmwareStr"%string. cbn [quote_key Re.group1 String.append].
  sub_chars. change (Re.is_nl Json.dq) with false. rewrite sub_plain by exact H6.
  sub_chars.
  sub_key "hardwareStr"%string. cbn [quote_key Re.group1 String.append].
  sub_chars. change (Re.is_nl Json.dq) with false. rewrite sub_plain by exact H7.
  sub_chars.
  reflexivity.
Qed.

(** ** The decoder *)

Lemma scan_once_eq (f : nat) (c : ascii) (s' : string) :
  Json.scan_once (S f) (String c s')
  = if Ascii.eqb c Json.dq then
      r <- Json.scanstring s' ;; Ok (Json.JStr (fst r), snd r)
    else if Ascii.eqb c "{" then
      match Json.after_char "}" (Json.skip_ws s') with
      | Some s2 => Ok (Json.JDict [], s2)
      | None => Json.object_members f (Json.skip_ws s') []
      end
    else if Ascii.eqb c "[" then
      match Json.after_char "]" (Json.skip_ws s') with
      | Some s2 => Ok (Json.JList [], s2)
      | None => Json.array_items f (Json.skip_ws s') []
      end
    else
      match Json.scan_constant (String c s') with
      | Some r => Ok r
      | None => Json.scan_number (String c s')
      end.
Proof. reflexivity. Qed.

Lemma object_members_eq (f : nat) (s : string) (acc : list (list N * Json.value)) :
  Json.object_members (S f) s acc
  = match Json.after_char Json.dq s with
    | None => Raise JSONDecodeError
    | Some s1 =>
        k <- Json.scanstring s1 ;;
        match Json.after_char ":" (Json.skip_ws (snd k)) with
        | None => Raise JSONDecodeError
        | Some s2 =>
            v <- Json.scan_once f (Json.skip_ws s2) ;;
            match Json.after_char "}" (Json.skip_ws (snd v)) with
            | Some s3 =>
                Ok (Json.JDict (Py.dict_set Py.codes_eqb acc (fst k) (fst v)), s3)
            | None =>
                match Json.after_char "," (Json.skip_ws (snd v)) with
                | Some s3 =>
                    Json.object_members f (Json.skip_ws s3)
                      (Py.dict_set Py.codes_eqb acc (fst k) (fst v))
                | None => Raise JSONDecodeError
                end
            end
        end
    end.
Proof. reflexivity. Qed.

Lemma array_items_eq (f : nat) (s : string) (acc : list Json.value) :
  Json.array_items (S f) s acc
  = (v <- Json.scan_once f s ;;
     match Json.after_char "]" (Json.skip_ws (snd v)) with
     | Some s3 => Ok (Json.JList (acc ++ [fst v]), s3)
     | None =>
         match Json.after_char "," (Json.skip_ws (snd v)) with
         | Some s3 => Json.array_items f (Json.skip_ws s3) (acc ++ [fst v])
         | None => Raise JSONDecodeError
         end
     end).
Proof. reflexivity. Qed.

Lemma scan_fuel_step (f : nat) :
  (forall s r, Json.scan_once f s = Ok r -> Json.scan_once (S f) s = Ok r)
  /\ (forall s acc r, Json.object_members f s acc = Ok r ->
                      Json.object_members (S f) s acc = Ok r)
  /\ (forall s acc r, Json.array_items f s acc = Ok r ->
                      Json.array_items (S f) s acc = Ok r).
Proof.
  induction f as [|f (IHs & IHo & IHa)].
  - repeat split; intros; discriminate.
  - repeat split.
    + intros s r H. destruct s as [|c s']; [discriminate|].
      rewrite scan_once_eq in H |- *.
      destruct (Ascii.eqb c Json.dq); [exact H|].
      destruct (Ascii.eqb c "{").
      { destruct (Json.after_char "}" (Json.skip_ws s')); [exact H|].
        apply IHo. exact H. }
      destruct (Ascii.eqb c "[").
      { destruct (Json.after_char "]" (Json.skip_ws s')); [exact H|].
        apply IHa. exact H. }
      exact H.
    + intros s acc r H. rewrite object_members_eq in H |- *.
      destruct (Json.after_char Json.dq s) as [s1|]; [|discriminate].
      destruct (Json.scanstring s1) as [k|]; [|discriminate]. cbn [rbind] in H |- *.
      destruct (Json.after_char ":" (Json.skip_ws (snd k))) as [s2|]; [|discriminate].
      destruct (Json.scan_once f (Json.skip_ws s2)) as [v|] eqn:Ev; [|discriminate].
      rewrite (IHs _ _ Ev). cbn [rbind] in H |- *.
      destruct (Json.after_char "}" (Json.skip_ws (snd v))); [exact H|].
      destruct (Json.after_char "," (Json.skip_ws (snd v))); [|discriminate].
      apply IHo. exact H.
    + intros s acc r H. rewrite array_items_eq in H |- *.
      destruct (Json.scan_once f s) as [v|] eqn:Ev; [|discriminate].
      rewrite (IHs _ _ Ev). cbn [rbind] in H |- *.
      destruct (Json.after_char "]" (Json.skip_ws (snd v))); [exact H|].
      destruct (Json.after_char "," (Json.skip_ws (snd v))); [|discriminate].
      apply IHa. exact H.
Qed.

Lemma scan_once_fuel (f f' : nat) (s : string) (r : Json.value * string) :
  Json.scan_once f s = Ok r -> (f <= f')%nat -> Json.scan_once f' s = Ok r.
Proof.
  intros H Hle. induction Hle as [|f' Hle IH]; [exact H|].
  apply scan_fuel_step. exact IH.
Qed.

Lemma scanstring_plain (v t : string) :
  plain v = true ->
  Json.scanstring (v ++ String Json.dq t) = Ok (Py.codes v, t).
Proof.
  induction v as [|c v IH]; intros Hv.
  - reflexivity.
  - cbn in Hv. apply andb_true_iff in Hv. destruct Hv as [Hc Hv].
    unfold plain_char in Hc.
    apply andb_true_iff in Hc. destruct Hc as [Hc Hbs].
    apply andb_true_iff in Hc. destruct Hc as [Hctl Hdq].
    apply negb_true_iff in Hctl, Hdq, Hbs.
    cbn [String.append Json.scanstring]. rewrite Hdq, Hbs, Hctl.
    rewrite IH by exact Hv. reflexivity.
Qed.

Lemma after_char_hit (c : ascii) (s : string) :
  Json.after_char c (String c s) = Some s.
Proof. cbn. rewrite Ascii.eqb_refl. reflexivity. Qed.

Lemma after_char_miss (c c' : ascii) (s : string) :
  Ascii.eqb c' c = false -> Json.after_char c (String c' s) = None.
Proof. intros H. cbn. rewrite H. reflexivity. Qed.

Lemma skip_ws_more (c : ascii) (s : string) :
  Json.is_ws c = true -> Json.skip_ws (String c s) = Json.skip_ws s.
Proof. intros H. cbn. rewrite H. reflexivity. Qed.

Lemma skip_ws_stop (c : ascii) (s : string) :
  Json.is_ws c = false -> Json.skip_ws (String c s) = String c s.
Proof. intros H. cbn. rewrite H. reflexivity. Qed.

Ltac json_step :=
  repeat first
    [ rewrite after_char_hit
    | rewrite after_char_miss by reflexivity
    | rewrite skip_ws_more by reflexivity
    | rewrite skip_ws_stop by reflexivity
    | progress cbn [rbind fst snd] ].

(** One member of an object whose value is a plain string, followed by a
    comma and another member. *)
Lemma member_plain_more (f : nat) (key v key' v' rest : string)
      (acc : list (list N * Json.value)) :
  plain key = true -> plain v = true ->
  Json.object_members (S (S f))
    (quoted_field key v (("," ++ String Json.nl "") ++ quoted_field key' v' rest)) acc
  = Json.object_members (S f) (quoted_field key' v' rest)
      (Py.dict_set Py.codes_eqb acc (Py.codes key) (jstr v)).
Proof.
  intros Hkey Hv. rewrite object_members_eq. unfold quoted_field.
  cbn [String.append]. json_step.
  rewrite scanstring_plain by exact Hkey. json_step.
  rewrite scan_once_eq, Ascii.eqb_refl.
  rewrite scanstring_plain by exact Hv. json_step.
  reflexivity.
Qed.

(** The last member, followed by the closing brace on the next line. *)
Lemma member_plain_last (f : nat) (key v t : string)
      (acc : list (list N * Json.value)) :
  plain key = true -> plain v = true ->
  Json.object_members (S (S f)) (quoted_field key v (String Json.nl (String "}" t))) acc
  = Ok (Json.JDict (Py.dict_set Py.codes_eqb acc (Py.codes key) (jstr v)), t).
Proof.
  intros Hkey Hv. rewrite object_members_eq. unfold quoted_field.
  cbn [String.append]. json_step.
  rewrite scanstring_plain by exact Hkey. json_step.
  rewrite scan_once_eq, Ascii.eqb_refl.
  rewrite scanstring_plain by exact Hv. json_step.
  reflexivity.
Qed.

Lemma length_append (a b : string) :
  String.length (a ++ b) = (String.length a + String.length b)%nat.
Proof. induction a as [|c a IH]; cbn; [reflexivity | rewrite IH; reflexivity]. Qed.

Lemma info_loads (v1 v2 v3 v4 v5 v6 v7 : string) :
  plain v1 = true -> plain v2 = true -> plain v3 = true -> plain v4 = true ->
  plain v5 = true -> plain v6 = true -> plain v7 = true ->
  Json.loads (String "{" (String Json.nl (quoted_fields v1 v2 v3 v4 v5 v6 v7 "}")))
  = Ok (info_mapping v1 v2 v3 v4 v5 v6 v7).
Proof.
  intros H1 H2 H3 H4 H5 H6 H7.
  assert (Hscan : Json.scan_once 9
            (String "{" (String Json.nl (quoted_fields v1 v2 v3 v4 v5 v6 v7 "}")))
          = Ok (info_mapping v1 v2 v3 v4 v5 v6 v7, EmptyString)).
  { rewrite scan_once_eq. cbn [Ascii.eqb Bool.eqb Json.dq].
    unfold quoted_fields. cbv zeta.
    rewrite skip_ws_more by reflexivity.
    change (Json.skip_ws (quoted_field ?k ?v ?r)) with (quoted_field k v r).
    change (Json.after_char "}" (quoted_field ?k ?v ?r)) with (@None string).
    cbv iota.
    do 6 (rewrite member_plain_more by (reflexivity || assumption)).
    rewrite member_plain_last by (reflexivity || assumption).
    reflexivity. }
  unfold Json.loads. rewrite skip_ws_stop by reflexivity.
  rewrite (scan_once_fuel _ _ _ _ Hscan).
  - reflexivity.
  - unfold quoted_fields, quoted_field. cbn [String.length String.append]. lia.
Qed.

(** C8.  On a page that holds the assignment with the seven bare keys,
    one per line, each followed by a string literal made of plain
    characters, [parse_system_info] returns the mapping with exactly these
    seven keys, and each value is, character for character, the text between
    the quotes: quoting the keys leaves the values alone.  The page may hold
    any text before the assignment, provided it does not read
    [var info_ds = ] earlier, and any text after the line that closes it. *)
Theorem parse_system_info_well_formed (pre v1 v2 v3 v4 v5 v6 v7 post : string) :
  Py.contains "var info_ds = " pre = false ->
  plain v1 = true -> plain v2 = true -> plain v3 = true -> plain v4 = true ->
  plain v5 = true -> plain v6 = true -> plain v7 = true ->
  Re.at_eol post = true ->
  parse_system_info (sysinfo_page pre v1 v2 v3 v4 v5 v6 v7 post)
  = Ok (Json.JDict
          [ (Py.codes "descriStr", Json.JStr (Py.codes v1));
            (Py.codes "macStr", Json.JStr (Py.codes v2));
            (Py.codes "ipStr", Json.JStr (Py.codes v3));
            (Py.codes "netmaskStr", Json.JStr (Py.codes v4));
            (Py.codes "gatewayStr", Json.JStr (Py.codes v5));
            (Py.codes "firmwareStr", Json.JStr (Py.codes v6));
            (Py.codes "hardwareStr", Json.JStr (Py.codes v7)) ]).
Proof.
  intros Hpre H1 H2 H3 H4 H5 H6 H7 Hpost. unfold parse_system_info.
  rewrite info_ds_group by assumption. cbn [rbind].
  rewrite info_sub by assumption.
  rewrite info_loads by assumption. reflexivity.
Qed.

Lemma parse_system_info_well_formed_witness :
  parse_system_info sysinfo_fixture
  = Ok (Json.JDict
          [ (Py.codes "descriStr", Json.JStr (Py.codes "SW1"));
            (Py.codes "macStr", Json.JStr (Py.codes "00:11:22:33:44:55"));
            (Py.codes "ipStr", Json.JStr (Py.codes "10.0.0.2"));
            (Py.codes "netmaskStr", Json.JStr (Py.codes "255.255.255.0"));
            (Py.codes "gatewayStr", Json.JStr (Py.codes "10.0.0.1"));
            (Py.codes "firmwareStr", Json.JStr (Py.codes "1.0.0"));
            (Py.codes "hardwareStr", Json.JStr (Py.codes "1.0")) ]).
Proof.
  apply (parse_system_info_well_formed
           (lines ["<html>"; "<script>"; ""])
           "SW1" "00:11:22:33:44:55" "10.0.0.2" "255.255.255.0"
           "10.0.0.1" "1.0.0" "1.0"
           (lines [""; "var tip = 0;"; "</script>"])); reflexivity.
Defined.

(** Off the one-key-per-line layout the keys stay bare: no key but the
    first of a line is at the start of a line, and on a single line the
    first one comes after the brace.  The decoder then refuses the text. *)
Example sysinfo_one_line_refused :
  parse_system_info sysinfo_one_line = Raise JSONDecodeError.
Proof. vm_compute. reflexivity. Qed.

(** ** Encoding then decoding *)

Lemma append_assoc (a b c : string) : ((a ++ b) ++ c = a ++ (b ++ c))%string.
Proof. induction a as [|x a IH]; cbn; [reflexivity | rewrite IH; reflexivity]. Qed.

Lemma scanstring_escape_char (c : ascii) (t : string) :
  Json.scanstring (Json.escape_char (Py.code c) ++ t)
  = Json.push (Py.code c) (Json.scanstring t).
Proof.
  destruct c as [b0 b1 b2 b3 b4 b5 b6 b7].
  destruct b0, b1, b2, b3, b4, b5, b6, b7; reflexivity.
Qed.

Lemma hex_digit_value (k : N) :
  (k < 16)%N -> Json.hex_value (Json.hex_digit k) = Some k.
Proof.
  intros Hk.
  assert (H : (k = 0 \/ k = 1 \/ k = 2 \/ k = 3 \/ k = 4 \/ k = 5 \/ k = 6 \/ k = 7
               \/ k = 8 \/ k = 9 \/ k = 10 \/ k = 11 \/ k = 12 \/ k = 13
               \/ k = 14 \/ k = 15)%N) by lia.
  repeat (destruct H as [H|H]; [subst k; reflexivity|]). subst k; reflexivity.
Qed.

Lemma hex4_escape (u : N) :
  (u < 65536)%N ->
  Json.hex4 (Json.hex_digit ((u / 4096) mod 16)) (Json.hex_digit ((u / 256) mod 16))
            (Json.hex_digit ((u / 16) mod 16)) (Json.hex_digit (u mod 16))
  = Some u.
Proof.
  intros Hu. unfold Json.hex4.
  rewrite !hex_digit_value by (apply N.mod_lt; lia).
  f_equal.
  pose proof (N.div_mod u 4096). pose proof (N.div_mod u 256).
  pose proof (N.div_mod u 16).
  pose proof (N.mod_lt u 16). pose proof (N.mod_lt u 256). pose proof (N.mod_lt u 4096).
  pose proof (N.div_mod (u / 4096) 16). pose proof (N.mod_lt (u / 4096) 16).
  pose proof (N.div_mod (u / 256) 16). pose proof (N.mod_lt (u / 256) 16).
  pose proof (N.div_mod (u / 16) 16). pose proof (N.mod_lt (u / 16) 16).
  assert (u / 4096 < 16)%N by (apply N.Div0.div_lt_upper_bound; lia).
  assert (u / 256 / 16 = u / 4096)%N by (rewrite N.Div0.div_div; reflexivity).
  assert (u / 16 / 16 = u / 256)%N by (rewrite N.Div0.div_div; reflexivity).
  assert (u / 4096 / 16 = 0)%N by (apply N.div_small; lia).
  lia.
Qed.

(** What [scanstring] does with an escape written by [u_escape]. *)
Lemma scanstring_u_escape (u : N) (s3 : string) :
  (u < 65536)%N -> Json.is_high_surrogate u = false ->
  Json.scanstring (Json.u_escape u ++ s3) = Json.push u (Json.scanstring s3).
Proof.
  intros Hu Hhigh. unfold Json.u_escape. cbn [String.append Json.scanstring].
  change (Ascii.eqb Json.bs Json.dq) with false.
  change (Ascii.eqb Json.bs Json.bs) with true.
  change (Ascii.eqb "u" "u") with true. cbv iota.
  rewrite hex4_escape by exact Hu. rewrite Hhigh. reflexivity.
Qed.

(** A high surrogate that is not followed by the escape of a low one is
    decoded on its own. *)
Lemma scanstring_lone_high (u : N) (s3 : string) :
  (u < 65536)%N ->
  (forall l1 l2 l3 l4 s4,
      s3 = String Json.bs (String "u" (String l1 (String l2 (String l3 (String l4 s4))))) ->
      exists u2, Json.hex4 l1 l2 l3 l4 = Some u2 /\ Json.is_low_surrogate u2 = false) ->
  Json.scanstring (Json.u_escape u ++ s3) = Json.push u (Json.scanstring s3).
Proof.
  intros Hu Hnext. unfold Json.u_escape. cbn [String.append Json.scanstring].
  change (Ascii.eqb Json.bs Json.dq) with false.
  change (Ascii.eqb Json.bs Json.bs) with true.
  change (Ascii.eqb "u" "u") with true. cbv iota.
  rewrite hex4_escape by exact Hu.
  destruct (Json.is_high_surrogate u); [|reflexivity].
  destruct s3 as [|b' [|u' [|l1 [|l2 [|l3 [|l4 s4]]]]]]; try reflexivity.
  destruct (Ascii.eqb b' Json.bs) eqn:Eb; [|reflexivity].
  destruct (Ascii.eqb u' "u") eqn:Eu; [|reflexivity].
  apply Ascii.eqb_eq in Eb, Eu. subst b' u'. cbn [andb].
  destruct (Hnext l1 l2 l3 l4 s4 eq_refl) as (u2 & Hhex & Hlow).
  rewrite Hhex, Hlow. reflexivity.
Qed.

(** The escape of a character outside the Basic Multilingual Plane is
    decoded as that character. *)
Lemma scanstring_astral (c : N) (t : string) :
  (65536 <= c < 1114112)%N ->
  Json.scanstring (Json.escape_char c ++ t) = Json.push c (Json.scanstring t).
Proof.
  intros Hc. unfold Json.escape_char.
  repeat match goal with
         | |- context [(c =? ?k)%N] =>
             destruct (N.eqb_spec c k); [lia|]
         end.
  destruct ((32 <=? c) && (c <=? 126))%N eqn:E1.
  { apply andb_true_iff in E1. destruct E1 as [_ E1]. apply N.leb_le in E1. lia. }
  destruct (c <? 65536)%N eqn:E2; [apply N.ltb_lt in E2; lia|].
  cbv zeta. remember (c - 65536)%N as m eqn:Em.
  assert (Hm : (m < 1048576)%N) by lia.
  assert (Hq : (m / 1024 < 1024)%N) by (apply N.Div0.div_lt_upper_bound; lia).
  assert (Hr : (m mod 1024 < 1024)%N) by (apply N.mod_lt; lia).
  rewrite (N.mod_small (m / 1024)) by exact Hq.
  pose proof (N.div_mod m 1024) as Hdm.
  remember (m / 1024)%N as q eqn:Eq. remember (m mod 1024)%N as r eqn:Er.
  assert (Hhi16 : (55296 + q < 65536)%N) by lia.
  assert (Hlo16 : (56320 + r < 65536)%N) by lia.
  rewrite append_assoc.
  unfold Json.u_escape at 1. cbn [String.append Json.scanstring].
  change (Ascii.eqb Json.bs Json.dq) with false.
  change (Ascii.eqb Json.bs Json.bs) with true.
  change (Ascii.eqb "u" "u") with true. cbv iota.
  rewrite (hex4_escape _ Hhi16).
  assert (Hhi : Json.is_high_surrogate (55296 + q) = true).
  { unfold Json.is_high_surrogate. apply andb_true_iff.
    split; apply N.leb_le; lia. }
  rewrite Hhi. unfold Json.u_escape. cbn [String.append].
  rewrite Ascii.eqb_refl. change (Ascii.eqb "u" "u") with true. cbn [andb].
  rewrite (hex4_escape _ Hlo16).
  assert (Hlo : Json.is_low_surrogate (56320 + r) = true).
  { unfold Json.is_low_surrogate. apply andb_true_iff.
    split; apply N.leb_le; lia. }
  rewrite Hlo. f_equal. unfold Json.join_surrogates. lia.
Qed.

Lemma escape_char_other (c : N) :
  (c < 32 \/ 127 <= c)%N -> (c < 65536)%N ->
  c <> 10%N -> c <> 13%N -> c <> 9%N -> c <> 8%N -> c <> 12%N ->
  Json.escape_char c = Json.u_escape c.
Proof.
  intros Hc Hbmp H10 H13 H9 H8 H12. unfold Json.escape_char.
  repeat match goal with
         | |- context [(c =? ?k)%N] =>
             destruct (N.eqb_spec c k); [lia|]
         end.
  destruct ((32 <=? c) && (c <=? 126))%N eqn:E1.
  { apply andb_true_iff in E1. destruct E1 as [E0 E1].
    apply N.leb_le in E0, E1. lia. }
  destruct (c <? 65536)%N eqn:E2; [reflexivity | apply N.ltb_ge in E2; lia].
Qed.

Lemma escape_char_bmp (c : N) :
  (127 <= c < 65536)%N -> Json.escape_char c = Json.u_escape c.
Proof. intros Hc. apply escape_char_other; lia. Qed.

Lemma escape_char_printable (c : N) :
  (32 <= c <= 126)%N -> c <> 34%N -> c <> 92%N ->
  Json.escape_char c = String (ascii_of_N c) EmptyString.
Proof.
  intros Hc H34 H92. unfold Json.escape_char.
  repeat match goal with
         | |- context [(c =? ?k)%N] =>
             destruct (N.eqb_spec c k); [lia|]
         end.
  destruct ((32 <=? c) && (c <=? 126))%N eqn:E1; [reflexivity|].
  apply andb_false_iff in E1. destruct E1 as [E1|E1];
    [apply N.leb_gt in E1 | apply N.leb_gt in E1]; lia.
Qed.

Lemma low_surrogate_not_high (u : N) :
  Json.is_high_surrogate u = true -> Json.is_low_surrogate u = false.
Proof.
  unfold Json.is_high_surrogate, Json.is_low_surrogate. intros H.
  apply andb_true_iff in H. destruct H as [_ H]. apply N.leb_le in H.
  apply andb_false_iff. left. apply N.leb_gt. lia.
Qed.

Lemma u_escape_inv (u : N) (rest : string) (l1 l2 l3 l4 : ascii) (s4 : string) :
  (u < 65536)%N ->
  (Json.u_escape u ++ rest)%string
  = String Json.bs (String "u" (String l1 (String l2 (String l3 (String l4 s4))))) ->
  Json.hex4 l1 l2 l3 l4 = Some u.
Proof.
  intros Hu Heq. unfold Json.u_escape in Heq. cbn [String.append] in Heq.
  inversion Heq; subst. apply hex4_escape. exact Hu.
Qed.

(** The text of a string whose first character is not a low surrogate
    does not start with the escape of one. *)
Lemma escape_chars_not_low (cs : list N) (t : string) :
  Json.str_ok cs = true ->
  match cs with
  | c :: _ => Json.is_low_surrogate c = false
  | [] => True
  end ->
  forall l1 l2 l3 l4 s4,
    (Json.escape_chars cs ++ String Json.dq t)%string
    = String Json.bs (String "u" (String l1 (String l2 (String l3 (String l4 s4))))) ->
    exists u2, Json.hex4 l1 l2 l3 l4 = Some u2 /\ Json.is_low_surrogate u2 = false.
Proof.
  intros Hok Hhead l1 l2 l3 l4 s4 Heq.
  destruct cs as [|c cs]; [discriminate Heq|].
  cbn [Json.str_ok] in Hok. apply andb_true_iff in Hok. destruct Hok as [Hok _].
  apply andb_true_iff in Hok. destruct Hok as [Hc _]. apply N.ltb_lt in Hc.
  cbn [Json.escape_chars] in Heq. rewrite append_assoc in Heq.
  assert (Hspecial : forall k e, c = k ->
            Json.escape_char k = String Json.bs (String e EmptyString) ->
            Ascii.eqb e "u" = false -> False).
  { intros k e -> He Hne. rewrite He in Heq. cbn [String.append] in Heq.
    inversion Heq; subst. discriminate Hne. }
  destruct (N.eq_dec c 34) as [E|N34]; [exact (False_ind _ (Hspecial _ _ E eq_refl eq_refl))|].
  destruct (N.eq_dec c 92) as [E|N92]; [exact (False_ind _ (Hspecial _ _ E eq_refl eq_refl))|].
  destruct (N.eq_dec c 10) as [E|N10]; [exact (False_ind _ (Hspecial _ _ E eq_refl eq_refl))|].
  destruct (N.eq_dec c 13) as [E|N13]; [exact (False_ind _ (Hspecial _ _ E eq_refl eq_refl))|].
  destruct (N.eq_dec c 9) as [E|N9]; [exact (False_ind _ (Hspecial _ _ E eq_refl eq_refl))|].
  destruct (N.eq_dec c 8) as [E|N8]; [exact (False_ind _ (Hspecial _ _ E eq_refl eq_refl))|].
  destruct (N.eq_dec c 12) as [E|N12]; [exact (False_ind _ (Hspecial _ _ E eq_refl eq_refl))|].
  clear Hspecial.
  destruct (N.le_gt_cases 32 c) as [H32|H32];
    [destruct (N.le_gt_cases c 126) as [H126|H126]|].
  - exfalso. rewrite escape_char_printable in Heq by lia.
    cbn [String.append] in Heq. inversion Heq as [[Hbs Hrest]].
    apply (f_equal N_of_ascii) in Hbs. rewrite N_ascii_embedding in Hbs by lia.
    cbn in Hbs. lia.
  - destruct (N.lt_ge_cases c 65536) as [Hbmp|Hastral].
    + rewrite escape_char_other in Heq by lia.
      exists c. split; [exact (u_escape_inv _ _ _ _ _ _ _ Hbmp Heq) | exact Hhead].
    + unfold Json.escape_char in Heq.
      repeat match type of Heq with
             | context [(c =? ?k)%N] =>
                 destruct (N.eqb_spec c k); [lia|]
             end.
      destruct ((32 <=? c) && (c <=? 126))%N eqn:E1.
      { apply andb_true_iff in E1. destruct E1 as [_ E1]. apply N.leb_le in E1. lia. }
      destruct (c <? 65536)%N eqn:E2; [apply N.ltb_lt in E2; lia|].
      cbv zeta in Heq. remember (c - 65536)%N as m eqn:Em.
      assert (Hq : (m / 1024 < 1024)%N) by (apply N.Div0.div_lt_upper_bound; lia).
      rewrite (N.mod_small (m / 1024)) in Heq by exact Hq.
      remember (m / 1024)%N as q eqn:Eq.
      remember (55296 + q)%N as hi eqn:Ehi.
      assert (Hhi : (55296 <= hi <= 56319)%N) by lia.
      clear Ehi Eq Hq Em Hc E1 E2.
      rewrite append_assoc in Heq.
      exists hi. split; [eapply u_escape_inv; [|exact Heq]; lia|].
      apply low_surrogate_not_high. unfold Json.is_high_surrogate.
      apply andb_true_iff. split; apply N.leb_le; lia.
  - rewrite escape_char_other in Heq by lia.
    exists c. split; [eapply u_escape_inv; [|exact Heq]; lia | exact Hhead].
Qed.

Lemma scanstring_escape (cs : list N) (t : string) :
  Json.str_ok cs = true ->
  Json.scanstring (Json.escape_chars cs ++ String Json.dq t) = Ok (cs, t).
Proof.
  induction cs as [|c cs IH]; intros Hok.
  - reflexivity.
  - pose proof Hok as Hall.
    cbn [Json.str_ok] in Hok. apply andb_true_iff in Hok. destruct Hok as [Hok Hcs].
    apply andb_true_iff in Hok. destruct Hok as [Hc Hpair]. apply N.ltb_lt in Hc.
    cbn [Json.escape_chars]. rewrite append_assoc.
    assert (Hstep : Json.scanstring
                      (Json.escape_char c ++ Json.escape_chars cs ++ String Json.dq t)
                    = Json.push c (Json.scanstring
                                     (Json.escape_chars cs ++ String Json.dq t))).
    { destruct (N.lt_ge_cases c 256) as [Hsmall|Hbig].
      - rewrite <- (N_ascii_embedding c Hsmall).
        change (N_of_ascii (ascii_of_N c)) with (Py.code (ascii_of_N c)).
        apply scanstring_escape_char.
      - destruct (N.lt_ge_cases c 65536) as [Hbmp|Hastral].
        + rewrite escape_char_bmp by lia.
          destruct (Json.is_high_surrogate c) eqn:Hhigh.
          * apply scanstring_lone_high; [exact Hbmp|].
            apply escape_chars_not_low; [exact Hcs|].
            destruct cs as [|c' cs']; [exact I|].
            cbn [andb] in Hpair. apply negb_true_iff in Hpair. exact Hpair.
          * apply scanstring_u_escape; assumption.
        + apply scanstring_astral. lia. }
    rewrite Hstep, IH by exact Hcs. reflexivity.
Qed.

Lemma str_ok_codes (s : string) : Json.str_ok (Py.codes s) = true.
Proof.
  unfold Py.codes. induction s as [|c s IH]; [reflexivity|].
  cbn [list_ascii_of_string map Json.str_ok]. rewrite IH, andb_true_r.
  pose proof (N_ascii_bounded c) as Hc. unfold Py.code.
  apply andb_true_iff. split; [apply N.ltb_lt; lia|].
  apply negb_true_iff. apply andb_false_iff. left.
  unfold Json.is_high_surrogate. apply andb_false_iff. left.
  apply N.leb_gt. lia.
Qed.

Lemma encode_append (cs : list N) (t : string) :
  (Json.encode_basestring_ascii cs ++ t
   = String Json.dq (Json.escape_chars cs ++ String Json.dq t))%string.
Proof.
  unfold Json.encode_basestring_ascii. cbn [String.append].
  rewrite append_assoc. reflexivity.
Qed.

(** *** Integers *)

Lemma digit_char (k : N) :
  (k < 10)%N ->
  Py.is_digit (ascii_of_N (48 + k)) = true
  /\ Py.digit_value (ascii_of_N (48 + k)) = Z.of_N k
  /\ (Ascii.eqb (ascii_of_N (48 + k)) "0" = true -> k = 0%N).
Proof.
  intros Hk.
  assert (H : (k = 0 \/ k = 1 \/ k = 2 \/ k = 3 \/ k = 4 \/ k = 5 \/ k = 6
               \/ k = 7 \/ k = 8 \/ k = 9)%N) by lia.
  repeat (destruct H as [H|H]; [subst k; repeat split; cbn; congruence|]).
  subst k; repeat split; cbn; congruence.
Qed.

Lemma digits_value_app (a : Z) (x y : string) :
  Json.digits_value a (x ++ y) = Json.digits_value (Json.digits_value a x) y.
Proof.
  revert a. induction x as [|c x IH]; intros a; cbn; [reflexivity | apply IH].
Qed.

Lemma all_digits_app (x y : string) :
  Py.all_chars Py.is_digit (x ++ y)
  = Py.all_chars Py.is_digit x && Py.all_chars Py.is_digit y.
Proof.
  induction x as [|c x IH]; cbn; [reflexivity|].
  rewrite IH, andb_assoc. reflexivity.
Qed.

Lemma digits_of_pos_eq (f : nat) (n : N) (acc : string) :
  Py.digits_of_pos (S f) n acc
  = if (n <? 10)%N then String (ascii_of_N (48 + n mod 10)) acc
    else Py.digits_of_pos f (n / 10) (String (ascii_of_N (48 + n mod 10)) acc).
Proof. reflexivity. Qed.

(** The digits [digits_of_pos] puts in front of [acc]: all decimal, at
    least one, worth [n], and starting with a zero only for [n = 0]. *)
Lemma digits_of_pos_spec (f : nat) :
  forall (n : N) (acc : string),
    (n < 2 ^ N.of_nat (S f))%N ->
    exists d ds,
      Py.digits_of_pos (S f) n acc = (String d ds ++ acc)%string
      /\ Py.all_chars Py.is_digit (String d ds) = true
      /\ (forall a, Json.digits_value a (String d ds)
                    = a * 10 ^ Z.of_nat (String.length (String d ds)) + Z.of_N n)
      /\ (Ascii.eqb d "0" = true -> n = 0%N /\ ds = EmptyString).
Proof.
  induction f as [|f IH]; intros n acc Hn.
  - assert (Hlt : (n < 10)%N) by (cbn in Hn; lia).
    destruct (digit_char (n mod 10)) as (Hd & Hv & Hz); [apply N.mod_lt; lia|].
    rewrite N.mod_small in Hd, Hv, Hz by exact Hlt.
    rewrite digits_of_pos_eq. rewrite N.mod_small by exact Hlt.
    apply N.ltb_lt in Hlt. rewrite Hlt.
    exists (ascii_of_N (48 + n)), EmptyString. split; [|split; [|split]].
    + reflexivity.
    + cbn [Py.all_chars]. rewrite Hd. reflexivity.
    + intros a. cbn [Json.digits_value String.length]. rewrite Hv.
      change (10 ^ Z.of_nat 1) with 10. lia.
    + auto.
  - rewrite (digits_of_pos_eq (S f)).
    destruct (digit_char (n mod 10)) as (Hd & Hv & Hz); [apply N.mod_lt; lia|].
    destruct (n <? 10)%N eqn:Hlt.
    + apply N.ltb_lt in Hlt. rewrite N.mod_small in * by exact Hlt.
      exists (ascii_of_N (48 + n)), EmptyString. split; [|split; [|split]].
      * reflexivity.
      * cbn [Py.all_chars]. rewrite Hd. reflexivity.
      * intros a. cbn [Json.digits_value String.length]. rewrite Hv.
        change (10 ^ Z.of_nat 1) with 10. lia.
      * auto.
    + apply N.ltb_ge in Hlt.
      destruct (IH (n / 10)%N (String (ascii_of_N (48 + n mod 10)) acc))
        as (d & ds & Heq & Hall & Hval & Hzero).
      { assert (n / 10 <= n / 2)%N.
        { apply N.div_le_compat_l. lia. }
        assert (n / 2 < 2 ^ N.of_nat (S f))%N.
        { apply N.Div0.div_lt_upper_bound.
          replace (N.of_nat (S (S f))) with (N.succ (N.of_nat (S f))) in Hn by lia.
          rewrite N.pow_succ_r' in Hn. lia. }
        lia. }
      exists d, (ds ++ String (ascii_of_N (48 + n mod 10)) EmptyString)%string.
      split; [|split; [|split]].
      * rewrite Heq. cbn [String.append]. f_equal.
        rewrite append_assoc. reflexivity.
      * change (String d (ds ++ String (ascii_of_N (48 + n mod 10)) ""))%string
          with (String d ds ++ String (ascii_of_N (48 + n mod 10)) "")%string.
        rewrite all_digits_app, Hall. cbn [Py.all_chars andb]. rewrite Hd. reflexivity.
      * intros a.
        change (String d (ds ++ String (ascii_of_N (48 + n mod 10)) ""))%string
          with (String d ds ++ String (ascii_of_N (48 + n mod 10)) "")%string.
        rewrite digits_value_app, Hval. cbn [Json.digits_value].
        rewrite Hv.
        assert (Hlen : String.length (String d ds ++ String (ascii_of_N (48 + n mod 10)) "")
                       = S (String.length (String d ds))).
        { rewrite length_append. cbn [String.length]. lia. }
        rewrite Hlen, Nat2Z.inj_succ, Z.pow_succ_r by lia.
        pose proof (N.div_mod n 10). 
        assert (Z.of_N n = 10 * Z.of_N (n / 10) + Z.of_N (n mod 10)) by lia.
        lia.
      * intros Hd0. destruct (Hzero Hd0) as [Hn0 _].
        exfalso. assert (n < 10)%N; [|lia].
        destruct (N.lt_ge_cases n 10) as [|Hge]; [assumption|].
        assert (1 <= n / 10)%N by (apply N.div_le_lower_bound; lia). lia.
Qed.

Lemma append_nil (a : string) : (a ++ "")%string = a.
Proof. induction a as [|x a IH]; cbn; [reflexivity | rewrite IH; reflexivity]. Qed.

Lemma scan_constant_digit (d : ascii) (s : string) :
  Py.is_digit d = true ->
  Json.scan_constant (String d s) = None
  /\ Json.scan_constant (String "-" (String d s)) = None
  /\ Ascii.eqb d Json.dq = false /\ Ascii.eqb d "{" = false
  /\ Ascii.eqb d "[" = false /\ Ascii.eqb d "-" = false.
Proof.
  destruct d as [b0 b1 b2 b3 b4 b5 b6 b7].
  destruct b0, b1, b2, b3, b4, b5, b6, b7; intros Hd; try discriminate Hd;
    repeat split; reflexivity.
Qed.

Lemma ends_value_head (c : ascii) (t : string) :
  Json.ends_value (String c t) = true ->
  Py.is_digit c = false /\ Ascii.eqb c "." = false
  /\ Ascii.eqb c "e" = false /\ Ascii.eqb c "E" = false.
Proof.
  cbn [Json.ends_value]. intros H. apply orb_true_iff in H.
  destruct H as [H|H]; apply Ascii.eqb_eq in H; subst c; repeat split; reflexivity.
Qed.

Lemma take_digits_all (ds t : string) :
  Py.all_chars Py.is_digit ds = true -> Json.ends_value t = true ->
  Json.take_digits (ds ++ t) = (ds, t).
Proof.
  intros Hds Ht. induction ds as [|c ds IH].
  - cbn [String.append]. destruct t as [|c t]; [reflexivity|].
    apply ends_value_head in Ht. destruct Ht as (Hd & _).
    cbn [Json.take_digits]. rewrite Hd. reflexivity.
  - cbn in Hds. apply andb_true_iff in Hds. destruct Hds as [Hc Hds].
    cbn [String.append Json.take_digits]. rewrite Hc, (IH Hds). reflexivity.
Qed.

Lemma scan_frac_end (t : string) :
  Json.ends_value t = true -> Json.scan_frac t = (EmptyString, t).
Proof.
  intros Ht. destruct t as [|c t]; [reflexivity|].
  apply ends_value_head in Ht. destruct Ht as (_ & Hdot & _).
  unfold Json.scan_frac. destruct t as [|d t]; [reflexivity|].
  rewrite Hdot. reflexivity.
Qed.

Lemma scan_exp_end (t : string) :
  Json.ends_value t = true -> Json.scan_exp t = (EmptyString, t).
Proof.
  intros Ht. destruct t as [|c t]; [reflexivity|].
  apply ends_value_head in Ht. destruct Ht as (_ & _ & He & HE).
  unfold Json.scan_exp. rewrite He, HE. reflexivity.
Qed.

(** The decimal digits of [str_of_int]. *)
Lemma str_of_int_digits (z : Z) :
  exists d ds,
    Py.str_of_int z
    = (if z <? 0 then String "-" (String d ds) else String d ds)
    /\ Py.all_chars Py.is_digit (String d ds) = true
    /\ Json.digits_value 0 (String d ds) = Z.abs z
    /\ (Ascii.eqb d "0" = true -> z = 0 /\ ds = EmptyString).
Proof.
  unfold Py.str_of_int.
  destruct (digits_of_pos_spec (N.to_nat (N.log2 (Z.abs_N z))) (Z.abs_N z) EmptyString)
    as (d & ds & Heq & Hall & Hval & Hzero).
  { rewrite Nat2N.inj_succ, N2Nat.id.
    destruct (N.eq_dec (Z.abs_N z) 0) as [E|E].
    - rewrite E. cbn. lia.
    - apply N.log2_spec. lia. }
  exists d, ds. rewrite Heq, append_nil. split; [reflexivity|].
  split; [exact Hall|]. split.
  - rewrite Hval. lia.
  - intros H. destruct (Hzero H) as [Hn Hds]. split; [lia | exact Hds].
Qed.

Lemma scan_number_int (z : Z) (t : string) :
  Json.ends_value t = true ->
  Json.scan_number (Py.str_of_int z ++ t) = Ok (Json.JInt z, t).
Proof.
  intros Ht.
  destruct (str_of_int_digits z) as (d & ds & Heq & Hall & Hval & Hzero).
  assert (Hd : Py.is_digit d = true).
  { cbn in Hall. apply andb_true_iff in Hall. tauto. }
  destruct (scan_constant_digit d EmptyString Hd) as (_ & _ & _ & _ & _ & Hminus).
  assert (Hint : Json.scan_integer (Py.str_of_int z ++ t)
                 = Some (z <? 0, String d ds, t)).
  { rewrite Heq. unfold Json.scan_integer.
    destruct (z <? 0) eqn:Hneg; cbn [String.append].
    - change (Ascii.eqb "-" "-") with true. cbv iota.
      destruct (Ascii.eqb d "0") eqn:Hz.
      + destruct (Hzero eq_refl) as [Hz0 _]. subst z. discriminate.
      + rewrite Hd.
        change (String d (ds ++ t)) with (String d ds ++ t)%string.
        rewrite take_digits_all by assumption. reflexivity.
    - rewrite Hminus.
      destruct (Ascii.eqb d "0") eqn:Hz.
      + destruct (Hzero eq_refl) as [_ Hds]. subst ds.
        apply Ascii.eqb_eq in Hz. subst d. reflexivity.
      + rewrite Hd.
        change (String d (ds ++ t)) with (String d ds ++ t)%string.
        rewrite take_digits_all by assumption. reflexivity. }
  unfold Json.scan_number. rewrite Hint.
  rewrite scan_frac_end by exact Ht. cbn [fst snd].
  rewrite scan_exp_end by exact Ht. cbn [fst snd].
  rewrite Hval. f_equal. f_equal. f_equal.
  destruct (z <? 0) eqn:Hneg; [apply Z.ltb_lt in Hneg | apply Z.ltb_ge in Hneg]; lia.
Qed.

Lemma scan_once_int (f : nat) (z : Z) (t : string) :
  Json.ends_value t = true ->
  Json.scan_once (S f) (Py.str_of_int z ++ t) = Ok (Json.JInt z, t).
Proof.
  intros Ht. rewrite <- (scan_number_int z t Ht).
  destruct (str_of_int_digits z) as (d & ds & Heq & Hall & _ & _).
  assert (Hd : Py.is_digit d = true).
  { cbn in Hall. apply andb_true_iff in Hall. tauto. }
  rewrite Heq.
  destruct (z <? 0); cbn [String.append]; rewrite scan_once_eq.
  - destruct (scan_constant_digit d (ds ++ t) Hd) as (_ & Hc & _).
    rewrite Hc. reflexivity.
  - destruct (scan_constant_digit d (ds ++ t) Hd) as (Hc & _ & H1 & H2 & H3 & _).
    rewrite H1, H2, H3, Hc. reflexivity.
Qed.

Lemma scan_once_str (f : nat) (cs : list N) (t : string) :
  Json.str_ok cs = true ->
  Json.scan_once (S f) (Json.encode_basestring_ascii cs ++ t) = Ok (Json.JStr cs, t).
Proof.
  intros Hok. rewrite encode_append, scan_once_eq, Ascii.eqb_refl.
  rewrite scanstring_escape by exact Hok. reflexivity.
Qed.

(** *** Lists and dicts *)

Lemma value_ind_nested (P : Json.value -> Prop) :
  P Json.JNull ->
  (forall b, P (Json.JBool b)) ->
  (forall z, P (Json.JInt z)) ->
  (forall x, P (Json.JFloat x)) ->
  (forall s, P (Json.JStr s)) ->
  (forall l, Forall P l -> P (Json.JList l)) ->
  (forall d, Forall (fun kv => P (snd kv)) d -> P (Json.JDict d)) ->
  forall v, P v.
Proof.
  intros Hnull Hbool Hint Hfloat Hstr Hlist Hdict.
  fix IH 1. intros [| b | z | x | s | l | d].
  - exact Hnull.
  - apply Hbool.
  - apply Hint.
  - apply Hfloat.
  - apply Hstr.
  - apply Hlist. induction l as [|v l IHl]; constructor; [apply IH | exact IHl].
  - apply Hdict. induction d as [|[k v] d IHd]; constructor; [apply IH | exact IHd].
Qed.

Lemma dumps_list_eq (level : nat) (x : Json.value) (xs : list Json.value) :
  Json.dumps_at level (Json.JList (x :: xs))
  = ("[" ++ Json.newline_indent (S level) ++ Json.dumps_at (S level) x
     ++ Json.more_items level xs ++ Json.newline_indent level ++ "]")%string.
Proof.
  cbn [Json.dumps_at].
  match goal with
  | |- context [(?F xs ++ _)%string] =>
      assert (HF : forall l, F l = Json.more_items level l)
  end.
  { induction l as [|y l IHl]; [reflexivity|].
    cbn [Json.more_items]. rewrite <- IHl. reflexivity. }
  rewrite HF. reflexivity.
Qed.

Lemma dumps_dict_eq (level : nat) (k : list N) (x : Json.value)
      (kxs : list (list N * Json.value)) :
  Json.dumps_at level (Json.JDict ((k, x) :: kxs))
  = ("{" ++ Json.newline_indent (S level)
     ++ Json.encode_basestring_ascii k ++ ": " ++ Json.dumps_at (S level) x
     ++ Json.more_members level kxs ++ Json.newline_indent level ++ "}")%string.
Proof.
  cbn [Json.dumps_at].
  match goal with
  | |- context [(?F kxs ++ _)%string] =>
      assert (HF : forall l, F l = Json.more_members level l)
  end.
  { induction l as [|[k' y] l IHl]; [reflexivity|].
    cbn [Json.more_members]. rewrite <- IHl. reflexivity. }
  rewrite HF. reflexivity.
Qed.

Lemma nodes_list_eq (l : list Json.value) :
  Json.nodes (Json.JList l) = S (Json.nodes_items l).
Proof. reflexivity. Qed.

Lemma nodes_dict_eq (d : list (list N * Json.value)) :
  Json.nodes (Json.JDict d) = S (Json.nodes_members d).
Proof. reflexivity. Qed.

Lemma nodes_pos (v : Json.value) : (1 <= Json.nodes v)%nat.
Proof. destruct v; cbn [Json.nodes]; lia. Qed.

Lemma nodes_items_pos (l : list Json.value) : (1 <= Json.nodes_items l)%nat.
Proof. destruct l; cbn [Json.nodes_items]; [lia | pose proof (nodes_pos v); lia]. Qed.

Lemma nodes_members_pos (d : list (list N * Json.value)) :
  (1 <= Json.nodes_members d)%nat.
Proof.
  destruct d as [|[k v] d]; cbn [Json.nodes_members];
    [lia | pose proof (nodes_pos v); lia].
Qed.

Lemma skip_ws_spaces (n : nat) (s : string) :
  Json.skip_ws (Json.spaces n ++ s) = Json.skip_ws s.
Proof. induction n as [|n IH]; [reflexivity | exact IH]. Qed.

Lemma skip_ws_indent (level : nat) (s : string) :
  Json.skip_ws (Json.newline_indent level ++ s) = Json.skip_ws s.
Proof.
  unfold Json.newline_indent. cbn [String.append].
  rewrite skip_ws_more by reflexivity. apply skip_ws_spaces.
Qed.

(** The text of a value starts with a character that is neither white
    space nor a closing bracket. *)
Lemma dumps_head (level : nat) (v : Json.value) :
  Json.plain_data v = true ->
  exists c s, Json.dumps_at level v = String c s
              /\ Json.is_ws c = false /\ Ascii.eqb c "]" = false.
Proof.
  destruct v as [| [|] | z | x | cs | [|x l] | [|[k x] d]]; intros Hv;
    try discriminate Hv;
    try (cbn [Json.dumps_at]; eexists; eexists; repeat split; reflexivity).
  cbn [Json.dumps_at].
  destruct (str_of_int_digits z) as (d & ds & Heq & Hall & _ & _).
  assert (Hd : Py.is_digit d = true).
  { cbn in Hall. apply andb_true_iff in Hall. tauto. }
  rewrite Heq. destruct (z <? 0).
  - eexists; eexists; repeat split; reflexivity.
  - exists d, ds. split; [reflexivity|]. clear - Hd.
    destruct d as [b0 b1 b2 b3 b4 b5 b6 b7].
    destruct b0, b1, b2, b3, b4, b5, b6, b7; try discriminate Hd;
      split; reflexivity.
Qed.

Lemma skip_ws_dumps (level : nat) (v : Json.value) (t : string) :
  Json.plain_data v = true ->
  Json.skip_ws (Json.dumps_at level v ++ t) = (Json.dumps_at level v ++ t)%string
  /\ Json.after_char "]" (Json.dumps_at level v ++ t) = None.
Proof.
  intros Hv. destruct (dumps_head level v Hv) as (c & s & Heq & Hws & Hclose).
  rewrite Heq. cbn [String.append]. split.
  - apply skip_ws_stop. exact Hws.
  - apply after_char_miss. exact Hclose.
Qed.

Lemma codes_eqb_eq (a b : list N) : Py.codes_eqb a b = true <-> a = b.
Proof.
  revert b. induction a as [|x a IH]; intros [|y b]; cbn; try (split; congruence).
  rewrite andb_true_iff, N.eqb_eq, IH. split.
  - intros [-> ->]. reflexivity.
  - intros H. inversion H. auto.
Qed.

Lemma codes_eqb_sym (a b : list N) : Py.codes_eqb a b = Py.codes_eqb b a.
Proof.
  destruct (Py.codes_eqb a b) eqn:E1, (Py.codes_eqb b a) eqn:E2; try reflexivity.
  - apply codes_eqb_eq in E1. subst. 
    assert (Py.codes_eqb b b = true) by (apply codes_eqb_eq; reflexivity). congruence.
  - apply codes_eqb_eq in E2. subst.
    assert (Py.codes_eqb a a = true) by (apply codes_eqb_eq; reflexivity). congruence.
Qed.

Lemma has_key_app (k : list N) (a b : list (list N * Json.value)) :
  Json.has_key k (a ++ b) = Json.has_key k a || Json.has_key k b.
Proof.
  induction a as [|[k' v] a IH]; cbn; [reflexivity|].
  rewrite IH, orb_assoc. reflexivity.
Qed.

(** Setting a key that the dict does not hold appends the entry. *)
Lemma dict_set_new (acc : list (list N * Json.value)) (k : list N)
      (x : Json.value) (rest : list (list N * Json.value)) :
  Json.distinct_keys (acc ++ (k, x) :: rest) = true ->
  Py.dict_set Py.codes_eqb acc k x = acc ++ [(k, x)].
Proof.
  induction acc as [|[k' v'] acc IH]; intros Hd; [reflexivity|].
  cbn in Hd. apply andb_true_iff in Hd. destruct Hd as [Hk Hd].
  apply negb_true_iff in Hk. rewrite has_key_app in Hk.
  apply orb_false_iff in Hk. destruct Hk as [_ Hk].
  cbn in Hk. apply orb_false_iff in Hk. destruct Hk as [Hk _].
  cbn [Py.dict_set app]. rewrite codes_eqb_sym, Hk. f_equal. apply IH. exact Hd.
Qed.

Lemma array_items_dumps (xs : list Json.value) :
  forall (x : Json.value) (level f : nat) (t : string) (acc : list Json.value),
    Forall (fun y => Json.plain_data y = true ->
                     forall level f t,
                       (Json.nodes y <= f)%nat -> Json.ends_value t = true ->
                       Json.scan_once f (Json.dumps_at level y ++ t) = Ok (y, t))
           (x :: xs) ->
    forallb Json.plain_data (x :: xs) = true ->
    (Json.nodes_items (x :: xs) <= f)%nat ->
    Json.array_items f
      (Json.dumps_at (S level) x ++ Json.more_items level xs
       ++ Json.newline_indent level ++ "]" ++ t) acc
    = Ok (Json.JList (acc ++ x :: xs), t).
Proof.
  induction xs as [|y ys IH]; intros x level f t acc Hall Hplain Hf.
  - inversion Hall as [|? ? Hx _]; subst.
    cbn in Hplain. apply andb_true_iff in Hplain. destruct Hplain as [Px _].
    cbn [Json.nodes_items] in Hf.
    destruct f as [|f]; [lia|]. rewrite array_items_eq.
    cbn [Json.more_items String.append].
    rewrite (Hx Px (S level) f); [|lia|reflexivity].
    cbn [rbind fst snd]. rewrite skip_ws_indent.
    rewrite skip_ws_stop by reflexivity. rewrite after_char_hit. reflexivity.
  - inversion Hall as [|? ? Hx Hrest]; subst.
    cbn [forallb] in Hplain. apply andb_true_iff in Hplain.
    destruct Hplain as [Px Prest].
    assert (Py' : Json.plain_data y = true).
    { cbn [forallb] in Prest. apply andb_true_iff in Prest. tauto. }
    cbn [Json.nodes_items] in Hf.
    pose proof (nodes_pos x). pose proof (nodes_pos y).
    pose proof (nodes_items_pos ys).
    destruct f as [|f]; [lia|]. rewrite array_items_eq.
    cbn [Json.more_items]. rewrite !append_assoc. cbn [String.append].
    rewrite (Hx Px (S level) f); [|lia|reflexivity].
    cbn [rbind fst snd].
    rewrite skip_ws_stop by reflexivity.
    rewrite after_char_miss by reflexivity. rewrite after_char_hit.
    rewrite skip_ws_indent.
    rewrite (proj1 (skip_ws_dumps _ _ _ Py')).
    change (String "]" t) with ("]" ++ t)%string. rewrite IH.
    + rewrite <- app_assoc. reflexivity.
    + exact Hrest.
    + exact Prest.
    + cbn [Json.nodes_items]. lia.
Qed.

Lemma object_members_dumps (kxs : list (list N * Json.value)) :
  forall (k : list N) (x : Json.value) (level f : nat) (t : string)
         (acc : list (list N * Json.value)),
    Forall (fun kv => Json.plain_data (snd kv) = true ->
                      forall level f t,
                        (Json.nodes (snd kv) <= f)%nat -> Json.ends_value t = true ->
                        Json.scan_once f (Json.dumps_at level (snd kv) ++ t)
                        = Ok (snd kv, t))
           ((k, x) :: kxs) ->
    forallb (fun kv => Json.str_ok (fst kv) && Json.plain_data (snd kv))
            ((k, x) :: kxs) = true ->
    Json.distinct_keys (acc ++ (k, x) :: kxs) = true ->
    (Json.nodes_members ((k, x) :: kxs) <= f)%nat ->
    Json.object_members f
      (Json.encode_basestring_ascii k ++ ": " ++ Json.dumps_at (S level) x
       ++ Json.more_members level kxs ++ Json.newline_indent level ++ "}" ++ t) acc
    = Ok (Json.JDict (acc ++ (k, x) :: kxs), t).
Proof.
  induction kxs as [|[k' y] kys IH]; intros k x level f t acc Hall Hplain Hkeys Hf.
  - inversion Hall as [|? ? Hx _]; subst. cbn [snd] in Hx.
    cbn in Hplain. apply andb_true_iff in Hplain. destruct Hplain as [Pk _].
    apply andb_true_iff in Pk. destruct Pk as [Pk Px].
    cbn [Json.nodes_members] in Hf.
    destruct f as [|f]; [lia|]. rewrite object_members_eq.
    rewrite encode_append, after_char_hit.
    rewrite scanstring_escape by exact Pk. cbn [rbind fst snd String.append].
    rewrite skip_ws_stop by reflexivity. rewrite after_char_hit.
    rewrite skip_ws_more by reflexivity.
    rewrite (proj1 (skip_ws_dumps _ _ _ Px)).
    cbn [Json.more_members String.append].
    rewrite (Hx Px (S level) f); [|lia|reflexivity].
    cbn [rbind fst snd]. rewrite skip_ws_indent.
    rewrite skip_ws_stop by reflexivity. rewrite after_char_hit.
    rewrite (dict_set_new _ _ _ _ Hkeys). reflexivity.
  - inversion Hall as [|? ? Hx Hrest]; subst. cbn [snd] in Hx.
    cbn [forallb fst snd] in Hplain. apply andb_true_iff in Hplain.
    destruct Hplain as [Pk Prest].
    apply andb_true_iff in Pk. destruct Pk as [Pk Px].
    cbn [Json.nodes_members] in Hf.
    pose proof (nodes_pos x). pose proof (nodes_pos y).
    pose proof (nodes_members_pos kys).
    destruct f as [|f]; [lia|]. rewrite object_members_eq.
    rewrite encode_append, after_char_hit.
    rewrite scanstring_escape by exact Pk. cbn [rbind fst snd String.append].
    rewrite skip_ws_stop by reflexivity. rewrite after_char_hit.
    rewrite skip_ws_more by reflexivity.
    rewrite (proj1 (skip_ws_dumps _ _ _ Px)).
    cbn [Json.more_members]. rewrite !append_assoc.
    cbn [String.append].
    rewrite (Hx Px (S level) f); [|lia|reflexivity].
    cbn [rbind fst snd].
    rewrite skip_ws_stop by reflexivity.
    rewrite after_char_miss by reflexivity. rewrite after_char_hit.
    rewrite skip_ws_indent.
    rewrite (dict_set_new _ _ _ _ Hkeys).
    rewrite encode_append. rewrite skip_ws_stop by reflexivity.
    rewrite <- encode_append.
    change (String ":" (String " " ?s)) with (": " ++ s)%string.
    change (String "}" t) with ("}" ++ t)%string.
    rewrite IH.
    + rewrite <- app_assoc. reflexivity.
    + exact Hrest.
    + exact Prest.
    + rewrite <- app_assoc. exact Hkeys.
    + cbn [Json.nodes_members]. lia.
Qed.

(** Decoding the text of a value gives the value back and stops right
    after it. *)
Lemma scan_once_dumps (v : Json.value) :
  Json.plain_data v = true ->
  forall (level f : nat) (t : string),
    (Json.nodes v <= f)%nat -> Json.ends_value t = true ->
    Json.scan_once f (Json.dumps_at level v ++ t) = Ok (v, t).
Proof.
  induction v as [| b | z | x | cs | l IHl | d IHd] using value_ind_nested;
    intros Hv level f t Hf Ht.
  - destruct f as [|f]; [cbn in Hf; lia | reflexivity].
  - destruct f as [|f]; [cbn in Hf; lia | destruct b; reflexivity].
  - destruct f as [|f]; [cbn in Hf; lia|]. apply scan_once_int. exact Ht.
  - discriminate Hv.
  - destruct f as [|f]; [cbn in Hf; lia|]. apply scan_once_str. exact Hv.
  - rewrite nodes_list_eq in Hf. destruct f as [|f]; [lia|].
    destruct l as [|x xs]; [reflexivity|].
    rewrite dumps_list_eq, !append_assoc. cbn [String.append].
    rewrite scan_once_eq. cbn [Ascii.eqb Bool.eqb Json.dq].
    rewrite skip_ws_indent.
    assert (Px : Json.plain_data x = true).
    { cbn in Hv. apply andb_true_iff in Hv. tauto. }
    rewrite (proj1 (skip_ws_dumps _ _ _ Px)), (proj2 (skip_ws_dumps _ _ _ Px)).
    change (String "]" t) with ("]" ++ t)%string.
    rewrite array_items_dumps; [reflexivity | exact IHl | exact Hv | lia].
  - rewrite nodes_dict_eq in Hf. destruct f as [|f]; [lia|].
    destruct d as [|[k x] kxs]; [reflexivity|].
    cbn [Json.plain_data] in Hv. apply andb_true_iff in Hv.
    destruct Hv as [Hkeys Hv].
    rewrite dumps_dict_eq, !append_assoc. cbn [String.append].
    rewrite scan_once_eq. cbn [Ascii.eqb Bool.eqb Json.dq].
    rewrite skip_ws_indent.
    rewrite encode_append. rewrite skip_ws_stop by reflexivity.
    rewrite after_char_miss by reflexivity.
    rewrite <- encode_append.
    change (String ":" (String " " ?s)) with (": " ++ s)%string.
    change (String "}" t) with ("}" ++ t)%string.
    rewrite object_members_dumps; [reflexivity | exact IHd | exact Hv | exact Hkeys | lia].
Qed.

Lemma nodes_le_length (v : Json.value) :
  forall level, (Json.nodes v <= S (String.length (Json.dumps_at level v)))%nat.
Proof.
  induction v as [| b | z | x | cs | l IHl | d IHd] using value_ind_nested;
    intros level; try (cbn [Json.nodes]; lia).
  - rewrite nodes_list_eq. destruct l as [|x xs]; [cbn; lia|].
    rewrite dumps_list_eq. rewrite !length_append.
    inversion IHl as [|? ? Hx Hxs]; subst.
    assert (Hmore : forall lv, (Json.nodes_items xs
                                <= S (String.length (Json.more_items lv xs)))%nat).
    { clear - Hxs. intros lv. induction Hxs as [|y ys Hy _ IH]; [cbn; lia|].
      cbn [Json.nodes_items Json.more_items]. rewrite !length_append.
      specialize (Hy (S lv)). cbn [String.length]. lia. }
    specialize (Hx (S level)). specialize (Hmore level).
    cbn [Json.nodes_items String.length Json.newline_indent]. lia.
  - rewrite nodes_dict_eq. destruct d as [|[k x] kxs]; [cbn; lia|].
    rewrite dumps_dict_eq. rewrite !length_append.
    inversion IHd as [|? ? Hx Hxs]; subst. cbn [snd] in Hx.
    assert (Hmore : forall lv, (Json.nodes_members kxs
                                <= S (String.length (Json.more_members lv kxs)))%nat).
    { clear - Hxs. intros lv. induction Hxs as [|[k' y] ys Hy _ IH]; [cbn; lia|].
      cbn [Json.nodes_members Json.more_members]. rewrite !length_append.
      cbn [snd] in Hy. specialize (Hy (S lv)). cbn [String.length]. lia. }
    specialize (Hx (S level)). specialize (Hmore level).
    cbn [Json.nodes_members String.length Json.newline_indent]. lia.
Qed.

(** [json.loads(json.dumps(v, indent=4))] is [v]. *)
Lemma loads_dumps (v : Json.value) :
  Json.plain_data v = true -> Json.loads (Json.dumps v) = Ok v.
Proof.
  intros Hv. unfold Json.loads, Json.dumps.
  pose proof (skip_ws_dumps 0 v EmptyString Hv) as [Hskip _].
  rewrite append_nil in Hskip. rewrite Hskip.
  pose proof (scan_once_dumps v Hv 0 (S (2 * String.length (Json.dumps_at 0 v)))
                              EmptyString) as Hscan.
  rewrite append_nil in Hscan. rewrite Hscan.
  - reflexivity.
  - pose proof (nodes_le_length v 0). lia.
  - reflexivity.
Qed.

Lemma port_plain_data (p : SwitchPort) :
  Json.plain_data (SwitchPort_to_dict p) = true.
Proof.
  unfold SwitchPort_to_dict, jstr. cbn [Json.plain_data forallb fst snd].
  rewrite !str_ok_codes. reflexivity.
Qed.

Lemma switch_plain_data (self : SwitchTPL) :
  Json.plain_data (description self) = true ->
  Json.plain_data (mac_address self) = true ->
  Json.plain_data (ip_address self) = true ->
  Json.plain_data (subnet_mask self) = true ->
  Json.plain_data (gateway self) = true ->
  Json.plain_data (firmware self) = true ->
  Json.plain_data (hardware self) = true ->
  Json.plain_data (SwitchTPL_to_dict self) = true.
Proof.
  intros H1 H2 H3 H4 H5 H6 H7.
  unfold SwitchTPL_to_dict. cbn [Json.plain_data forallb fst snd].
  rewrite H1, H2, H3, H4, H5, H6, H7.
  assert (Hports : forallb Json.plain_data (map SwitchPort_to_dict (ports self)) = true).
  { induction (ports self) as [|p l IH]; [reflexivity|].
    cbn [map forallb]. rewrite port_plain_data, IH. reflexivity. }
  rewrite Hports. reflexivity.
Qed.

(** C9.  Dumping a switch as the program does and reading the text back
    gives the tree of [to_dict] again: the seven system-info fields read
    back equal, and each port reads back with its number, state, link
    status and four counters, the counters as integers.  The fields may
    hold any value made of None, booleans, integers, strings, lists and
    dicts, provided no string holds a high surrogate right before a low
    one (no string decoded by [json.loads] does). *)
Theorem switch_info_json_round_trip (self : SwitchTPL) :
  Json.plain_data (description self) = true ->
  Json.plain_data (mac_address self) = true ->
  Json.plain_data (ip_address self) = true ->
  Json.plain_data (subnet_mask self) = true ->
  Json.plain_data (gateway self) = true ->
  Json.plain_data (firmware self) = true ->
  Json.plain_data (hardware self) = true ->
  exists tree port_trees,
    Json.loads (switch_info_json self) = Ok tree
    /\ Json.getitem tree "description" = Ok (description self)
    /\ Json.getitem tree "mac_address" = Ok (mac_address self)
    /\ Json.getitem tree "ip_address" = Ok (ip_address self)
    /\ Json.getitem tree "subnet_mask" = Ok (subnet_mask self)
    /\ Json.getitem tree "gateway" = Ok (gateway self)
    /\ Json.getitem tree "firmware" = Ok (firmware self)
    /\ Json.getitem tree "hardware" = Ok (hardware self)
    /\ Json.getitem tree "ports" = Ok (Json.JList port_trees)
    /\ Forall2 (fun port port_tree =>
                  Json.getitem port_tree "port_num" = Ok (Json.JInt (port_num port))
                  /\ Json.getitem port_tree "state" = Ok (jstr (state port))
                  /\ Json.getitem port_tree "link_status" = Ok (jstr (link_status port))
                  /\ Json.getitem port_tree "txgoodpkt" = Ok (Json.JInt (txgoodpkt port))
                  /\ Json.getitem port_tree "txbadpkt" = Ok (Json.JInt (txbadpkt port))
                  /\ Json.getitem port_tree "rxgoodpkt" = Ok (Json.JInt (rxgoodpkt port))
                  /\ Json.getitem port_tree "rxbadpkt" = Ok (Json.JInt (rxbadpkt port)))
               (ports self) port_trees.
Proof.
  intros H1 H2 H3 H4 H5 H6 H7.
  exists (SwitchTPL_to_dict self), (map SwitchPort_to_dict (ports self)).
  split.
  { unfold switch_info_json. apply loads_dumps. apply switch_plain_data; assumption. }
  repeat (split; [reflexivity|]).
  induction (ports self) as [|p l IH]; constructor.
  - repeat split; reflexivity.
  - exact IH.
Qed.

Lemma switch_info_json_round_trip_witness :
  exists tree port_trees,
    Json.loads (switch_info_json (switch populated_dao)) = Ok tree
    /\ Json.getitem tree "description" = Ok (jstr "OLD")
    /\ Json.getitem tree "mac_address" = Ok (jstr "00:11:22:33:44:55")
    /\ Json.getitem tree "ip_address" = Ok (jstr "10.0.0.2")
    /\ Json.getitem tree "subnet_mask" = Ok (jstr "255.255.255.0")
    /\ Json.getitem tree "gateway" = Ok (jstr "10.0.0.1")
    /\ Json.getitem tree "firmware" = Ok (jstr "1.0.0")
    /\ Json.getitem tree "hardware" = Ok (jstr "1.0")
    /\ Json.getitem tree "ports" = Ok (Json.JList port_trees)
    /\ Forall2 (fun port port_tree =>
                  Json.getitem port_tree "port_num" = Ok (Json.JInt (port_num port))
                  /\ Json.getitem port_tree "state" = Ok (jstr (state port))
                  /\ Json.getitem port_tree "link_status" = Ok (jstr (link_status port))
                  /\ Json.getitem port_tree "txgoodpkt" = Ok (Json.JInt (txgoodpkt port))
                  /\ Json.getitem port_tree "txbadpkt" = Ok (Json.JInt (txbadpkt port))
                  /\ Json.getitem port_tree "rxgoodpkt" = Ok (Json.JInt (rxgoodpkt port))
                  /\ Json.getitem port_tree "rxbadpkt" = Ok (Json.JInt (rxbadpkt port)))
               [mk_SwitchPort 1 "Enabled" "100Full" 10 0 20 1] port_trees.
Proof.
  apply (switch_info_json_round_trip (switch populated_dao)); reflexivity.
Defined.

(** ** The decoder never runs out of fuel, and what it decodes

    Every successful scan consumes at least one character, so the fuel
    that [Json.loads] starts with is never exhausted: [RecursionError]
    is not an outcome of the model.  The strings it decodes are those that
    [Json.str_ok] describes. *)


(** *** The decoder never runs out of fuel *)

Lemma skip_ws_length (s : string) :
  (String.length (Json.skip_ws s) <= String.length s)%nat.
Proof.
  induction s as [|c s IH]; [cbn; lia|].
  cbn [Json.skip_ws]. destruct (Json.is_ws c); cbn [String.length]; lia.
Qed.

Lemma after_char_length (c : ascii) (s s' : string) :
  Json.after_char c s = Some s' -> String.length s = S (String.length s').
Proof.
  destruct s as [|c' s0]; [discriminate|]. cbn [Json.after_char].
  destruct (Ascii.eqb c' c); [|discriminate]. intros H; inversion H; reflexivity.
Qed.

Lemma push_ok (u : N) (r : result (list N * string)) (cs : list N) (rest : string) :
  Json.push u r = Ok (cs, rest) ->
  exists cs', cs = u :: cs' /\ r = Ok (cs', rest).
Proof.
  destruct r as [[cs' rest']|e]; cbn; [|discriminate].
  intros H; inversion H; subst. eauto.
Qed.

(** [scanstring] consumes at least the closing quote. *)
Lemma scanstring_length (n : nat) :
  forall s cs rest,
    (String.length s <= n)%nat ->
    Json.scanstring s = Ok (cs, rest) ->
    (String.length rest < String.length s)%nat.
Proof.
  induction n as [|n IH]; intros s cs rest Hn Hs.
  - destruct s; [discriminate Hs | cbn in Hn; lia].
  - destruct s as [|c s1]; [discriminate Hs|].
    cbn [String.length] in Hn |- *. cbn [Json.scanstring] in Hs.
    destruct (Ascii.eqb c Json.dq).
    { inversion Hs; subst. lia. }
    destruct (Ascii.eqb c Json.bs).
    + destruct s1 as [|e s2]; [discriminate Hs|].
      cbn [String.length] in Hn |- *.
      destruct (Ascii.eqb e "u").
      * destruct s2 as [|h1 [|h2 [|h3 [|h4 s3]]]]; try discriminate Hs.
        cbn [String.length] in Hn |- *.
        destruct (Json.hex4 h1 h2 h3 h4) as [u|]; [|discriminate Hs].
        assert (Hplain : forall cs0, Json.push u (Json.scanstring s3) = Ok (cs0, rest) ->
                                     (String.length rest < String.length s3)%nat).
        { intros cs0 H. apply push_ok in H. destruct H as (cs' & _ & H).
          eapply IH; [|exact H]. lia. }
        destruct (Json.is_high_surrogate u); [|apply Hplain in Hs; lia].
        destruct s3 as [|b' [|u' [|l1 [|l2 [|l3 [|l4 s4]]]]]];
          try (apply Hplain in Hs; cbn [String.length] in Hs; lia).
        destruct (Ascii.eqb b' Json.bs && Ascii.eqb u' "u");
          [|apply Hplain in Hs; cbn [String.length] in Hs |- *; lia].
        destruct (Json.hex4 l1 l2 l3 l4) as [u2|]; [|discriminate Hs].
        destruct (Json.is_low_surrogate u2);
          [|apply Hplain in Hs; cbn [String.length] in Hs |- *; lia].
        apply push_ok in Hs. destruct Hs as (cs' & _ & H).
        apply IH in H; [|cbn [String.length] in Hn; lia].
        cbn [String.length]. lia.
      * destruct (Json.unescape e) as [u|]; [|discriminate Hs].
        apply push_ok in Hs. destruct Hs as (cs' & _ & H).
        apply IH in H; lia.
    + destruct (Py.code c <? 32)%N; [discriminate Hs|].
      apply push_ok in Hs. destruct Hs as (cs' & _ & H).
      apply IH in H; lia.
Qed.

Lemma take_digits_length (s : string) :
  (String.length (snd (Json.take_digits s)) <= String.length s)%nat.
Proof.
  induction s as [|c s IH]; [cbn; lia|].
  cbn [Json.take_digits]. destruct (Py.is_digit c); cbn [snd String.length]; lia.
Qed.

Lemma strip_prefix_length (p s r : string) :
  Py.strip_prefix p s = Some r ->
  String.length s = (String.length p + String.length r)%nat.
Proof.
  revert s. induction p as [|a p IH]; intros s H.
  - inversion H; reflexivity.
  - destruct s as [|b s]; [discriminate|]. cbn in H.
    destruct (Ascii.eqb a b); [|discriminate].
    apply IH in H. cbn [String.length]. lia.
Qed.

Lemma scan_constant_length (s : string) (v : Json.value) (r : string) :
  Json.scan_constant s = Some (v, r) -> (String.length r < String.length s)%nat.
Proof.
  unfold Json.scan_constant.
  repeat match goal with
         | |- context [Py.strip_prefix ?p s] =>
             let E := fresh "E" in
             destruct (Py.strip_prefix p s) eqn:E;
             [ intros H; inversion H; subst;
               apply strip_prefix_length in E; cbn [String.length] in E; lia |]
         end.
  discriminate.
Qed.

Lemma scan_number_length (s : string) (v : Json.value) (r : string) :
  Json.scan_number s = Ok (v, r) -> (String.length r < String.length s)%nat.
Proof.
  unfold Json.scan_number.
  destruct (Json.scan_integer s) as [[[neg ds] s1]|] eqn:Hint; [|discriminate].
  assert (H1 : (String.length s1 < String.length s)%nat).
  { unfold Json.scan_integer in Hint.
    destruct s as [|c s0]; [discriminate|].
    destruct (Ascii.eqb c "-").
    - destruct s0 as [|c1 s2]; [discriminate|].
      destruct (Ascii.eqb c1 "0"); [inversion Hint; subst; cbn; lia|].
      destruct (Py.is_digit c1) eqn:Hd; [|discriminate].
      inversion Hint; subst. cbn [Json.take_digits]. rewrite Hd. cbn [snd].
      pose proof (take_digits_length s2). cbn [String.length]. lia.
    - destruct (Ascii.eqb c "0"); [inversion Hint; subst; cbn; lia|].
      destruct (Py.is_digit c) eqn:Hd; [|discriminate].
      inversion Hint; subst. cbn [Json.take_digits]. rewrite Hd. cbn [snd].
      pose proof (take_digits_length s0). cbn [String.length]. lia. }
  assert (H2 : (String.length (snd (Json.scan_frac s1)) <= String.length s1)%nat).
  { unfold Json.scan_frac. destruct s1 as [|c [|d s']]; cbn [snd]; try lia.
    destruct (Ascii.eqb c "." && Py.is_digit d) eqn:E; cbn [snd]; [|lia].
    pose proof (take_digits_length (String d s')). cbn [String.length] in *. lia. }
  assert (H3 : forall t, (String.length (snd (Json.scan_exp t)) <= String.length t)%nat).
  { intros t. unfold Json.scan_exp. destruct t as [|e t1]; cbn [snd]; [lia|].
    destruct (Ascii.eqb e "e" || Ascii.eqb e "E"); cbn [snd]; [|lia].
    destruct t1 as [|g t2]; cbn [snd]; [lia|].
    destruct (Ascii.eqb g "-" || Ascii.eqb g "+").
    - destruct t2 as [|d t3]; cbn [snd]; [lia|].
      destruct (Py.is_digit d); cbn [snd]; [|lia].
      pose proof (take_digits_length (String d t3)). cbn [String.length] in *. lia.
    - destruct (Py.is_digit g); cbn [snd]; [|lia].
      pose proof (take_digits_length (String g t2)). cbn [String.length] in *. lia. }
  specialize (H3 (snd (Json.scan_frac s1))).
  destruct (fst (Json.scan_frac s1)); [destruct (fst (Json.scan_exp _))|];
    intros H; inversion H; subst; lia.
Qed.

Lemma push_raise (u : N) (r : result (list N * string)) (e : exn) :
  Json.push u r = Raise e -> r = Raise e.
Proof. destruct r as [[cs rest]|e']; cbn; [discriminate | auto]. Qed.

Lemma scanstring_raises (n : nat) :
  forall s e,
    (String.length s <= n)%nat ->
    Json.scanstring s = Raise e -> e = JSONDecodeError.
Proof.
  induction n as [|n IH]; intros s e Hn Hs.
  - destruct s; [inversion Hs; reflexivity | cbn in Hn; lia].
  - destruct s as [|c s1]; [inversion Hs; reflexivity|].
    cbn [String.length] in Hn. cbn [Json.scanstring] in Hs.
    destruct (Ascii.eqb c Json.dq); [discriminate Hs|].
    destruct (Ascii.eqb c Json.bs).
    + destruct s1 as [|e0 s2]; [inversion Hs; reflexivity|].
      cbn [String.length] in Hn.
      destruct (Ascii.eqb e0 "u").
      * destruct s2 as [|h1 [|h2 [|h3 [|h4 s3]]]];
          try (inversion Hs; reflexivity).
        cbn [String.length] in Hn.
        destruct (Json.hex4 h1 h2 h3 h4) as [u|]; [|inversion Hs; reflexivity].
        assert (Hplain : Json.push u (Json.scanstring s3) = Raise e ->
                         e = JSONDecodeError).
        { intros H. apply push_raise in H. eapply IH; [|exact H]. lia. }
        destruct (Json.is_high_surrogate u); [|exact (Hplain Hs)].
        destruct s3 as [|b' [|u' [|l1 [|l2 [|l3 [|l4 s4]]]]]];
          try exact (Hplain Hs).
        destruct (Ascii.eqb b' Json.bs && Ascii.eqb u' "u"); [|exact (Hplain Hs)].
        destruct (Json.hex4 l1 l2 l3 l4) as [u2|]; [|inversion Hs; reflexivity].
        destruct (Json.is_low_surrogate u2); [|exact (Hplain Hs)].
        apply push_raise in Hs. eapply IH; [|exact Hs].
        cbn [String.length] in Hn. lia.
      * destruct (Json.unescape e0) as [u|]; [|inversion Hs; reflexivity].
        apply push_raise in Hs. eapply IH; [|exact Hs]. lia.
    + destruct (Py.code c <? 32)%N; [inversion Hs; reflexivity|].
      apply push_raise in Hs. eapply IH; [|exact Hs]. lia.
Qed.

Lemma scan_number_raises (s : string) (e : exn) :
  Json.scan_number s = Raise e -> e = JSONDecodeError.
Proof.
  unfold Json.scan_number.
  destruct (Json.scan_integer s) as [[[neg ds] s1]|]; [|intros H; inversion H; reflexivity].
  destruct (fst (Json.scan_frac s1)); [destruct (fst (Json.scan_exp _))|]; discriminate.
Qed.

(** Every successful scan consumes at least one character. *)
Lemma scan_consumes (f : nat) :
  (forall s v r, Json.scan_once f s = Ok (v, r) ->
                 (String.length r < String.length s)%nat)
  /\ (forall s acc v r, Json.object_members f s acc = Ok (v, r) ->
                        (String.length r < String.length s)%nat)
  /\ (forall s acc v r, Json.array_items f s acc = Ok (v, r) ->
                        (String.length r < String.length s)%nat).
Proof.
  induction f as [|f (IHs & IHo & IHa)].
  - repeat split; intros; discriminate.
  - split; [|split].
    + intros s v r H. destruct s as [|c s']; [discriminate|].
      rewrite scan_once_eq in H. cbn [String.length].
      pose proof (skip_ws_length s') as Hws.
      destruct (Ascii.eqb c Json.dq).
      { destruct (Json.scanstring s') as [[cs rest]|] eqn:E; [|discriminate].
        cbn in H. inversion H; subst.
        apply (scanstring_length _ _ _ _ (le_n _)) in E. lia. }
      destruct (Ascii.eqb c "{").
      { destruct (Json.after_char "}" (Json.skip_ws s')) as [s2|] eqn:E.
        - inversion H; subst. apply after_char_length in E. lia.
        - apply IHo in H. lia. }
      destruct (Ascii.eqb c "[").
      { destruct (Json.after_char "]" (Json.skip_ws s')) as [s2|] eqn:E.
        - inversion H; subst. apply after_char_length in E. lia.
        - apply IHa in H. lia. }
      destruct (Json.scan_constant (String c s')) as [[v0 r0]|] eqn:E.
      { inversion H; subst. apply scan_constant_length in E.
        cbn [String.length] in E. lia. }
      apply scan_number_length in H. cbn [String.length] in H. lia.
    + intros s acc v r H. rewrite object_members_eq in H.
      destruct (Json.after_char Json.dq s) as [s1|] eqn:E1; [|discriminate].
      apply after_char_length in E1.
      destruct (Json.scanstring s1) as [[k rest]|] eqn:E2; [|discriminate].
      apply (scanstring_length _ _ _ _ (le_n _)) in E2. cbn [rbind fst snd] in H.
      pose proof (skip_ws_length rest) as Hws.
      destruct (Json.after_char ":" (Json.skip_ws rest)) as [s2|] eqn:E3; [|discriminate].
      apply after_char_length in E3. pose proof (skip_ws_length s2) as Hws2.
      destruct (Json.scan_once f (Json.skip_ws s2)) as [[x rest2]|] eqn:E4; [|discriminate].
      apply IHs in E4. cbn [rbind fst snd] in H.
      pose proof (skip_ws_length rest2) as Hws3.
      destruct (Json.after_char "}" (Json.skip_ws rest2)) as [s3|] eqn:E5.
      { inversion H; subst. apply after_char_length in E5. lia. }
      destruct (Json.after_char "," (Json.skip_ws rest2)) as [s3|] eqn:E6; [|discriminate].
      apply after_char_length in E6. pose proof (skip_ws_length s3).
      apply IHo in H. lia.
    + intros s acc v r H. rewrite array_items_eq in H.
      destruct (Json.scan_once f s) as [[x rest]|] eqn:E1; [|discriminate].
      apply IHs in E1. cbn [rbind fst snd] in H.
      pose proof (skip_ws_length rest) as Hws.
      destruct (Json.after_char "]" (Json.skip_ws rest)) as [s3|] eqn:E2.
      { inversion H; subst. apply after_char_length in E2. lia. }
      destruct (Json.after_char "," (Json.skip_ws rest)) as [s3|] eqn:E3; [|discriminate].
      apply after_char_length in E3. pose proof (skip_ws_length s3).
      apply IHa in H. lia.
Qed.

(** With twice the length of the text as fuel, and a little more, no scan
    gives up. *)
Lemma scan_enough_fuel (f : nat) :
  (forall s, (2 * String.length s + 1 <= f)%nat ->
             Json.scan_once f s <> Raise RecursionError)
  /\ (forall s acc, (2 * String.length s + 2 <= f)%nat ->
                    Json.object_members f s acc <> Raise RecursionError)
  /\ (forall s acc, (2 * String.length s + 2 <= f)%nat ->
                    Json.array_items f s acc <> Raise RecursionError).
Proof.
  induction f as [|f (IHs & IHo & IHa)].
  - repeat split; intros; lia.
  - split; [|split].
    + intros s Hf. destruct s as [|c s']; [discriminate|].
      rewrite scan_once_eq. cbn [String.length] in Hf.
      pose proof (skip_ws_length s') as Hws.
      destruct (Ascii.eqb c Json.dq).
      { destruct (Json.scanstring s') as [[cs rest]|e] eqn:E; [discriminate|].
        apply (scanstring_raises _ _ _ (le_n _)) in E. subst e. discriminate. }
      destruct (Ascii.eqb c "{").
      { destruct (Json.after_char "}" (Json.skip_ws s')); [discriminate|].
        apply IHo. lia. }
      destruct (Ascii.eqb c "[").
      { destruct (Json.after_char "]" (Json.skip_ws s')); [discriminate|].
        apply IHa. lia. }
      destruct (Json.scan_constant (String c s')); [discriminate|].
      intros H. apply scan_number_raises in H. discriminate.
    + intros s acc Hf. rewrite object_members_eq.
      destruct (Json.after_char Json.dq s) as [s1|] eqn:E1; [|discriminate].
      apply after_char_length in E1.
      destruct (Json.scanstring s1) as [[k rest]|e] eqn:E2.
      2:{ apply (scanstring_raises _ _ _ (le_n _)) in E2. subst e. discriminate. }
      apply (scanstring_length _ _ _ _ (le_n _)) in E2. cbn [rbind fst snd].
      pose proof (skip_ws_length rest) as Hws.
      destruct (Json.after_char ":" (Json.skip_ws rest)) as [s2|] eqn:E3; [|discriminate].
      apply after_char_length in E3. pose proof (skip_ws_length s2) as Hws2.
      destruct (Json.scan_once f (Json.skip_ws s2)) as [[x rest2]|e] eqn:E4.
      2:{ cbn [rbind]. intros H. inversion H; subst.
          apply (IHs (Json.skip_ws s2)); [lia | exact E4]. }
      apply (proj1 (scan_consumes f)) in E4. cbn [rbind fst snd].
      pose proof (skip_ws_length rest2) as Hws3.
      destruct (Json.after_char "}" (Json.skip_ws rest2)) as [s3|] eqn:E5; [discriminate|].
      destruct (Json.after_char "," (Json.skip_ws rest2)) as [s3|] eqn:E6; [|discriminate].
      apply after_char_length in E6. pose proof (skip_ws_length s3).
      apply IHo. lia.
    + intros s acc Hf. rewrite array_items_eq.
      destruct (Json.scan_once f s) as [[x rest]|e] eqn:E1.
      2:{ cbn [rbind]. intros H. inversion H; subst.
          apply (IHs s); [lia | exact E1]. }
      apply (proj1 (scan_consumes f)) in E1. cbn [rbind fst snd].
      pose proof (skip_ws_length rest) as Hws.
      destruct (Json.after_char "]" (Json.skip_ws rest)) as [s3|] eqn:E2; [discriminate|].
      destruct (Json.after_char "," (Json.skip_ws rest)) as [s3|] eqn:E3; [|discriminate].
      apply after_char_length in E3. pose proof (skip_ws_length s3).
      apply IHa. lia.
Qed.

(** [loads] never stops for want of fuel. *)
Lemma loads_never_out_of_fuel (s : string) :
  Json.loads s <> Raise RecursionError.
Proof.
  unfold Json.loads.
  destruct (Json.scan_once (S (2 * String.length s)) (Json.skip_ws s)) as [r|e] eqn:E.
  - cbn [rbind]. destruct (Json.skip_ws (snd r)); discriminate.
  - cbn [rbind]. intros H. inversion H; subst.
    apply (proj1 (scan_enough_fuel (S (2 * String.length s))) (Json.skip_ws s));
      [|exact E].
    pose proof (skip_ws_length s). lia.
Qed.

Lemma hex_value_bound (c : ascii) (v : N) :
  Json.hex_value c = Some v -> (v < 16)%N.
Proof.
  unfold Json.hex_value.
  destruct ((48 <=? Py.code c) && (Py.code c <=? 57))%N eqn:E1.
  { apply andb_true_iff in E1. destruct E1 as [_ E1]. apply N.leb_le in E1.
    intros H; inversion H; lia. }
  destruct ((97 <=? Py.code c) && (Py.code c <=? 102))%N eqn:E2.
  { apply andb_true_iff in E2. destruct E2 as [_ E2]. apply N.leb_le in E2.
    intros H; inversion H; lia. }
  destruct ((65 <=? Py.code c) && (Py.code c <=? 70))%N eqn:E3; [|discriminate].
  apply andb_true_iff in E3. destruct E3 as [_ E3]. apply N.leb_le in E3.
  intros H; inversion H; lia.
Qed.

Lemma hex4_bound (h1 h2 h3 h4 : ascii) (u : N) :
  Json.hex4 h1 h2 h3 h4 = Some u -> (u < 65536)%N.
Proof.
  unfold Json.hex4.
  destruct (Json.hex_value h1) as [a|] eqn:E1; [|discriminate].
  destruct (Json.hex_value h2) as [b|] eqn:E2; [|discriminate].
  destruct (Json.hex_value h3) as [c|] eqn:E3; [|discriminate].
  destruct (Json.hex_value h4) as [d|] eqn:E4; [|discriminate].
  apply hex_value_bound in E1, E2, E3, E4. intros H; inversion H. lia.
Qed.

Lemma unescape_small (e : ascii) (u : N) :
  Json.unescape e = Some u -> (u < 256)%N.
Proof.
  unfold Json.unescape.
  repeat match goal with
         | |- context [Ascii.eqb e ?c] => destruct (Ascii.eqb e c);
                                          [intros H; inversion H; lia|]
         end.
  discriminate.
Qed.

Lemma small_not_surrogate (u : N) :
  (u < 256)%N ->
  Json.is_high_surrogate u = false /\ Json.is_low_surrogate u = false.
Proof.
  intros Hu. unfold Json.is_high_surrogate, Json.is_low_surrogate.
  split; apply andb_false_iff; left; apply N.leb_gt; lia.
Qed.

(** A decoded string that starts with a low surrogate comes from a text
    that starts with its escape. *)
Lemma scanstring_head_low (s : string) (c : N) (cs : list N) (rest : string) :
  Json.scanstring s = Ok (c :: cs, rest) ->
  Json.is_low_surrogate c = true ->
  exists l1 l2 l3 l4 s4,
    s = String Json.bs (String "u" (String l1 (String l2 (String l3 (String l4 s4)))))
    /\ Json.hex4 l1 l2 l3 l4 = Some c.
Proof.
  intros Hs Hlow. destruct s as [|c0 s1]; [discriminate Hs|].
  cbn [Json.scanstring] in Hs.
  destruct (Ascii.eqb c0 Json.dq) eqn:Edq; [discriminate Hs|].
  destruct (Ascii.eqb c0 Json.bs) eqn:Ebs.
  - apply Ascii.eqb_eq in Ebs. subst c0.
    destruct s1 as [|e s2]; [discriminate Hs|].
    destruct (Ascii.eqb e "u") eqn:Eu.
    + apply Ascii.eqb_eq in Eu. subst e.
      destruct s2 as [|h1 [|h2 [|h3 [|h4 s3]]]]; try discriminate Hs.
      destruct (Json.hex4 h1 h2 h3 h4) as [u|] eqn:Hhex; [|discriminate Hs].
      assert (Hplain : Json.push u (Json.scanstring s3) = Ok (c :: cs, rest) ->
                       exists l1 l2 l3 l4 s4,
                         String Json.bs (String "u" (String h1 (String h2 (String h3 (String h4 s3)))))
                         = String Json.bs (String "u" (String l1 (String l2 (String l3 (String l4 s4)))))
                         /\ Json.hex4 l1 l2 l3 l4 = Some c).
      { intros H. apply push_ok in H. destruct H as (cs' & Hc & _).
        inversion Hc; subst. exists h1, h2, h3, h4, s3. auto. }
      destruct (Json.is_high_surrogate u) eqn:Hhigh; [|exact (Hplain Hs)].
      destruct s3 as [|b' [|u' [|l1 [|l2 [|l3 [|l4 s4]]]]]]; try exact (Hplain Hs).
      destruct (Ascii.eqb b' Json.bs && Ascii.eqb u' "u"); [|exact (Hplain Hs)].
      destruct (Json.hex4 l1 l2 l3 l4) as [u2|] eqn:Hhex2; [|discriminate Hs].
      destruct (Json.is_low_surrogate u2) eqn:Hlow2; [|exact (Hplain Hs)].
      exfalso. apply push_ok in Hs. destruct Hs as (cs' & Hc & _).
      inversion Hc; subst c.
      apply hex4_bound in Hhex, Hhex2.
      unfold Json.is_low_surrogate, Json.join_surrogates in Hlow.
      unfold Json.is_high_surrogate in Hhigh. unfold Json.is_low_surrogate in Hlow2.
      apply andb_true_iff in Hlow, Hhigh, Hlow2.
      destruct Hlow as [_ Hlow], Hhigh as [Hh1 Hh2], Hlow2 as [Hl1 Hl2].
      apply N.leb_le in Hlow, Hh1, Hh2, Hl1, Hl2. lia.
    + exfalso. destruct (Json.unescape e) as [u|] eqn:Hun; [|discriminate Hs].
      apply push_ok in Hs. destruct Hs as (cs' & Hc & _). inversion Hc; subst.
      apply unescape_small in Hun. apply small_not_surrogate in Hun.
      destruct Hun as [_ Hun]. congruence.
  - exfalso. destruct (Py.code c0 <? 32)%N; [discriminate Hs|].
    apply push_ok in Hs. destruct Hs as (cs' & Hc & _). inversion Hc; subst.
    pose proof (N_ascii_bounded c0) as Hb.
    apply small_not_surrogate in Hb. destruct Hb as [_ Hb].
    unfold Py.code in Hlow. congruence.
Qed.

Lemma str_ok_cons_lone (u : N) (s3 : string) (cs : list N) (rest : string) :
  Json.scanstring s3 = Ok (cs, rest) ->
  Json.str_ok cs = true ->
  (u < 65536)%N ->
  (forall l1 l2 l3 l4 s4 u2,
      s3 = String Json.bs (String "u" (String l1 (String l2 (String l3 (String l4 s4))))) ->
      Json.hex4 l1 l2 l3 l4 = Some u2 -> Json.is_low_surrogate u2 = false) ->
  Json.str_ok (u :: cs) = true.
Proof.
  intros Hs Hcs Hu Hnext. cbn [Json.str_ok]. rewrite Hcs, andb_true_r.
  apply andb_true_iff. split; [apply N.ltb_lt; lia|].
  apply negb_true_iff. apply andb_false_iff.
  destruct cs as [|c cs']; [right; reflexivity|].
  destruct (Json.is_low_surrogate c) eqn:Hlow; [|right; reflexivity].
  exfalso. destruct (scanstring_head_low _ _ _ _ Hs Hlow)
    as (l1 & l2 & l3 & l4 & s4 & Heq & Hhex).
  rewrite (Hnext _ _ _ _ _ _ Heq Hhex) in Hlow. discriminate.
Qed.

Lemma str_ok_cons_other (u : N) (cs : list N) :
  (u < 1114112)%N -> Json.is_high_surrogate u = false ->
  Json.str_ok cs = true -> Json.str_ok (u :: cs) = true.
Proof.
  intros Hu Hhigh Hcs. cbn [Json.str_ok]. rewrite Hcs, Hhigh, andb_true_r.
  cbn [andb negb]. rewrite andb_true_r. apply N.ltb_lt. exact Hu.
Qed.

(** Every string that [scanstring] decodes is one that [dumps] and [loads]
    carry unchanged. *)
Lemma scanstring_str_ok (n : nat) :
  forall s cs rest,
    (String.length s <= n)%nat ->
    Json.scanstring s = Ok (cs, rest) ->
    Json.str_ok cs = true.
Proof.
  induction n as [|n IH]; intros s cs rest Hn Hs.
  - destruct s; [discriminate Hs | cbn in Hn; lia].
  - destruct s as [|c s1]; [discriminate Hs|].
    cbn [String.length] in Hn. cbn [Json.scanstring] in Hs.
    destruct (Ascii.eqb c Json.dq). { inversion Hs; reflexivity. }
    destruct (Ascii.eqb c Json.bs).
    + destruct s1 as [|e s2]; [discriminate Hs|].
      cbn [String.length] in Hn.
      destruct (Ascii.eqb e "u").
      * destruct s2 as [|h1 [|h2 [|h3 [|h4 s3]]]]; try discriminate Hs.
        cbn [String.length] in Hn.
        destruct (Json.hex4 h1 h2 h3 h4) as [u|] eqn:Hhex; [|discriminate Hs].
        pose proof (hex4_bound _ _ _ _ _ Hhex) as Hu.
        assert (Hlone : (forall l1 l2 l3 l4 s4 u2,
                            s3 = String Json.bs (String "u" (String l1 (String l2
                                   (String l3 (String l4 s4))))) ->
                            Json.hex4 l1 l2 l3 l4 = Some u2 ->
                            Json.is_low_surrogate u2 = false) ->
                        Json.push u (Json.scanstring s3) = Ok (cs, rest) ->
                        Json.str_ok cs = true).
        { intros Hnext H. apply push_ok in H. destruct H as (cs' & -> & H).
          eapply str_ok_cons_lone; [exact H | | exact Hu | exact Hnext].
          eapply IH; [|exact H]. lia. }
        destruct (Json.is_high_surrogate u) eqn:Hhigh.
        2:{ apply push_ok in Hs. destruct Hs as (cs' & -> & H).
            apply str_ok_cons_other; [lia | exact Hhigh |].
            eapply IH; [|exact H]. lia. }
        destruct s3 as [|b' [|u' [|l1 [|l2 [|l3 [|l4 s4]]]]]];
          try (apply Hlone; [intros ? ? ? ? ? ? Heq; discriminate Heq | exact Hs]).
        destruct (Ascii.eqb b' Json.bs) eqn:Eb.
        2:{ apply Hlone; [|exact Hs]. intros ? ? ? ? ? ? Heq. inversion Heq; subst.
            rewrite Ascii.eqb_refl in Eb. discriminate. }
        destruct (Ascii.eqb u' "u") eqn:Eu.
        2:{ apply Hlone; [|exact Hs]. intros ? ? ? ? ? ? Heq. inversion Heq; subst.
            discriminate Eu. }
        cbn [andb] in Hs.
        destruct (Json.hex4 l1 l2 l3 l4) as [u2|] eqn:Hhex2; [|discriminate Hs].
        destruct (Json.is_low_surrogate u2) eqn:Hlow2.
        2:{ apply Hlone; [|exact Hs]. intros ? ? ? ? ? ? Heq Hh. inversion Heq; subst.
            congruence. }
        apply push_ok in Hs. destruct Hs as (cs' & -> & H).
        pose proof (hex4_bound _ _ _ _ _ Hhex2) as Hu2.
        unfold Json.is_high_surrogate in Hhigh. unfold Json.is_low_surrogate in Hlow2.
        apply andb_true_iff in Hhigh, Hlow2.
        destruct Hhigh as [Hh1 Hh2], Hlow2 as [Hl1 Hl2].
        apply N.leb_le in Hh1, Hh2, Hl1, Hl2.
        apply str_ok_cons_other.
        -- unfold Json.join_surrogates. lia.
        -- unfold Json.is_high_surrogate, Json.join_surrogates.
           apply andb_false_iff. right. apply N.leb_gt. lia.
        -- eapply IH; [|exact H]. cbn [String.length] in Hn. lia.
      * destruct (Json.unescape e) as [u|] eqn:Hun; [|discriminate Hs].
        apply push_ok in Hs. destruct Hs as (cs' & -> & H).
        apply unescape_small in Hun.
        apply str_ok_cons_other; [lia | apply small_not_surrogate; exact Hun |].
        eapply IH; [|exact H]. lia.
    + destruct (Py.code c <? 32)%N; [discriminate Hs|].
      apply push_ok in Hs. destruct Hs as (cs' & -> & H).
      pose proof (N_ascii_bounded c) as Hb. unfold Py.code.
      apply str_ok_cons_other; [lia | apply small_not_surrogate; exact Hb |].
      eapply IH; [|exact H]. lia.
Qed.

(** ** Rendered ports pages

    Every count from 0 to 9 and every three non-empty arrays of integers,
    laid out like the fixture, make a page on which the four patterns
    find exactly what was laid out. *)

(** *** int and str *)

Lemma all_chars_app (q : ascii -> bool) (x y : string) :
  Py.all_chars q (x ++ y) = Py.all_chars q x && Py.all_chars q y.
Proof.
  induction x as [|c x IH]; cbn; [reflexivity|].
  rewrite IH, andb_assoc. reflexivity.
Qed.

Lemma all_chars_weaken (q q' : ascii -> bool) (s : string) :
  (forall c, q c = true -> q' c = true) ->
  Py.all_chars q s = true -> Py.all_chars q' s = true.
Proof.
  intros Hq. induction s as [|c s IH]; cbn; [reflexivity|].
  intros H. apply andb_true_iff in H. destruct H as [Hc Hs].
  rewrite (Hq _ Hc), (IH Hs). reflexivity.
Qed.

Lemma int_char_not_space (c : ascii) :
  int_char c = true -> Py.is_int_space c = false.
Proof.
  destruct c as [b0 b1 b2 b3 b4 b5 b6 b7].
  destruct b0, b1, b2, b3, b4, b5, b6, b7; intros H;
    try discriminate H; reflexivity.
Qed.

Lemma rstrip_int_chars (s : string) :
  Py.all_chars int_char s = true -> Py.rstrip s = s.
Proof.
  induction s as [|c s IH]; [reflexivity|].
  cbn [Py.all_chars Py.rstrip]. intros H.
  apply andb_true_iff in H. destruct H as [Hc Hs].
  rewrite (IH Hs). destruct s; [|reflexivity].
  rewrite (int_char_not_space _ Hc). reflexivity.
Qed.

Lemma lstrip_int_chars (c : ascii) (s : string) :
  int_char c = true -> Py.lstrip (String c s) = String c s.
Proof. intros Hc. cbn [Py.lstrip]. rewrite (int_char_not_space _ Hc). reflexivity. Qed.

Lemma int_digits_value (ds : string) :
  forall (acc : Z) (after_digit : bool),
    Py.all_chars Py.is_digit ds = true ->
    (ds <> EmptyString \/ after_digit = true) ->
    Py.int_digits acc after_digit ds = Some (Json.digits_value acc ds).
Proof.
  induction ds as [|c ds IH]; intros acc after_digit Hall Hne.
  - destruct Hne as [Hne | ->]; [contradiction Hne; reflexivity | reflexivity].
  - cbn [Py.all_chars] in Hall. apply andb_true_iff in Hall.
    destruct Hall as [Hc Hds].
    cbn [Py.int_digits Json.digits_value]. rewrite Hc.
    apply IH; [exact Hds | right; reflexivity].
Qed.

Lemma digit_unsigned {A : Type} (d : ascii) (ds : string) (f g : string -> A) (h : A) :
  Py.is_digit d = true ->
  match String d ds with
  | String "-" r => f r
  | String "+" r => g r
  | _ => h
  end = h.
Proof.
  destruct d as [b0 b1 b2 b3 b4 b5 b6 b7].
  destruct b0, b1, b2, b3, b4, b5, b6, b7; intros H;
    try discriminate H; reflexivity.
Qed.

(** [int(str(z)) == z] *)
Lemma int_str_of_int (z : Z) : Py.int (Py.str_of_int z) = Ok z.
Proof.
  destruct (str_of_int_digits z) as (d & ds & Heq & Hall & Hval & _).
  assert (Hint : Py.all_chars int_char (String d ds) = true).
  { apply (all_chars_weaken Py.is_digit); [|exact Hall].
    intros c Hc. unfold int_char. rewrite Hc. reflexivity. }
  assert (Hd : Py.is_digit d = true).
  { cbn [Py.all_chars] in Hall. apply andb_true_iff in Hall. tauto. }
  assert (Hdigits : Py.int_digits 0 false (String d ds) = Some (Z.abs z)).
  { rewrite int_digits_value; [rewrite Hval; reflexivity | exact Hall |].
    left. discriminate. }
  rewrite Heq. unfold Py.int. destruct (z <? 0) eqn:Hneg.
  - rewrite lstrip_int_chars by reflexivity.
    rewrite rstrip_int_chars
      by (cbn [Py.all_chars]; cbn [Py.all_chars] in Hint; rewrite Hint; reflexivity).
    cbn [fst snd]. rewrite Hdigits. apply Z.ltb_lt in Hneg. f_equal. lia.
  - rewrite lstrip_int_chars
      by (unfold int_char; rewrite Hd; reflexivity).
    rewrite rstrip_int_chars by exact Hint.
    rewrite (digit_unsigned d ds (fun r => (true, r)) (fun r => (false, r))
                            (false, String d ds) Hd).
    cbn [fst snd]. rewrite Hdigits. apply Z.ltb_ge in Hneg. f_equal. lia.
Qed.

Lemma str_of_int_chars (z : Z) : Py.all_chars int_char (Py.str_of_int z) = true.
Proof.
  destruct (str_of_int_digits z) as (d & ds & Heq & Hall & _).
  assert (Hint : Py.all_chars int_char (String d ds) = true).
  { apply (all_chars_weaken Py.is_digit); [|exact Hall].
    intros c Hc. unfold int_char. rewrite Hc. reflexivity. }
  rewrite Heq. destruct (z <? 0); [|exact Hint].
  cbn [Py.all_chars]. cbn [Py.all_chars] in Hint. rewrite Hint. reflexivity.
Qed.

(** *** split and join *)

Lemma split_not_nil (sep : ascii) (s : string) : Py.split sep s <> [].
Proof.
  destruct s as [|c s]; cbn; [discriminate|].
  destruct (Ascii.eqb c sep); [discriminate|].
  destruct (Py.split sep s); discriminate.
Qed.

Lemma split_piece (x t : string) :
  Py.all_chars int_char x = true ->
  Py.split "," (x ++ String "," t) = x :: Py.split "," t.
Proof.
  induction x as [|c x IH]; intros H.
  - reflexivity.
  - cbn [Py.all_chars] in H. apply andb_true_iff in H. destruct H as [Hc Hx].
    cbn [String.append Py.split]. rewrite (IH Hx).
    destruct (Ascii.eqb c ",") eqn:E; [|reflexivity].
    apply Ascii.eqb_eq in E. subst c. discriminate Hc.
Qed.

Lemma split_last (x : string) :
  Py.all_chars int_char x = true -> Py.split "," x = [x].
Proof.
  induction x as [|c x IH]; intros H.
  - reflexivity.
  - cbn [Py.all_chars] in H. apply andb_true_iff in H. destruct H as [Hc Hx].
    cbn [Py.split]. rewrite (IH Hx).
    destruct (Ascii.eqb c ",") eqn:E; [|reflexivity].
    apply Ascii.eqb_eq in E. subst c. discriminate Hc.
Qed.

Lemma split_csv (l : list Z) :
  l <> [] -> Py.split "," (csv l) = map Py.str_of_int l.
Proof.
  unfold csv. induction l as [|z l IH]; intros Hne; [contradiction Hne; reflexivity|].
  destruct l as [|z' l].
  - cbn [map String.concat]. apply split_last. apply str_of_int_chars.
  - change (String.concat "," (map Py.str_of_int (z :: z' :: l)))
      with (Py.str_of_int z ++ String "," (String.concat "," (map Py.str_of_int (z' :: l))))%string.
    rewrite split_piece by apply str_of_int_chars.
    rewrite IH by discriminate. reflexivity.
Qed.

Lemma mapM_int_str (l : list Z) : mapM Py.int (map Py.str_of_int l) = Ok l.
Proof.
  induction l as [|z l IH]; [reflexivity|].
  cbn [map mapM]. rewrite int_str_of_int. cbn [rbind]. rewrite IH. reflexivity.
Qed.

Lemma csv_chars (l : list Z) : Py.all_chars csv_char (csv l) = true.
Proof.
  unfold csv. induction l as [|z l IH]; [reflexivity|].
  assert (Hz : Py.all_chars csv_char (Py.str_of_int z) = true).
  { apply (all_chars_weaken int_char); [|apply str_of_int_chars].
    intros c Hc. unfold csv_char. rewrite Hc. reflexivity. }
  destruct l as [|z' l]; [exact Hz|].
  change (String.concat "," (map Py.str_of_int (z :: z' :: l)))
    with (Py.str_of_int z ++ String "," (String.concat "," (map Py.str_of_int (z' :: l))))%string.
  rewrite all_chars_app, Hz. cbn [Py.all_chars andb]. exact IH.
Qed.

(** *** Searching a rendered page *)

Lemma strip_prefix_app (p t : string) : Py.strip_prefix p (p ++ t) = Some t.
Proof.
  induction p as [|a p IH]; [reflexivity|].
  cbn [String.append Py.strip_prefix]. rewrite Ascii.eqb_refl. exact IH.
Qed.

Lemma clash_strip_prefix (name p t : string) :
  clash name p = true -> Py.strip_prefix name (p ++ t) = None.
Proof.
  revert p. induction name as [|a name IH]; intros p H; [discriminate H|].
  destruct p as [|b p]; [discriminate H|].
  cbn [clash] in H. cbn [String.append Py.strip_prefix].
  destruct (Ascii.eqb a b); [apply IH; exact H | reflexivity].
Qed.

Lemma search_skip_lits (name : string) (pat : list Re.atom) (p t : string) (bol : bool) :
  no_start name p = true ->
  Re.search_from (Re.lits name ++ pat) bol (p ++ t)
  = Re.search_from (Re.lits name ++ pat) (Re.bol_after bol p) t.
Proof.
  revert bol. induction p as [|c p IH]; intros bol H; [reflexivity|].
  cbn [no_start] in H. apply andb_true_iff in H. destruct H as [Hc Hp].
  cbn [String.append Re.search_from Re.bol_after].
  rewrite match_here_lits.
  change (String c (p ++ t)) with (String c p ++ t)%string.
  rewrite (clash_strip_prefix _ _ _ Hc). apply IH. exact Hp.
Qed.

Lemma search_none_lits (name : string) (pat : list Re.atom) (p : string) (bol : bool) :
  no_start name p = true -> name <> EmptyString ->
  Re.search_from (Re.lits name ++ pat) bol p = None.
Proof.
  intros H Hname. rewrite <- (append_nil p), search_skip_lits by exact H.
  destruct name as [|a name]; [contradiction Hname; reflexivity|]. reflexivity.
Qed.

Lemma no_start_class (q : ascii -> bool) (c0 : ascii) (name w : string) :
  q c0 = false -> Py.all_chars q w = true -> no_start (String c0 name) w = true.
Proof.
  intros Hq. induction w as [|c w IH]; intros H; [reflexivity|].
  cbn [Py.all_chars] in H. apply andb_true_iff in H. destruct H as [Hc Hw].
  cbn [no_start clash]. rewrite (IH Hw), andb_true_r.
  destruct (Ascii.eqb c0 c) eqn:E; [|reflexivity].
  apply Ascii.eqb_eq in E. subst c. congruence.
Qed.

Lemma lazy_stop_here (pat : list Re.atom) (ing bol : bool) (s : string) (r : Re.rmatch) :
  Re.match_here pat ing bol s = Some r ->
  Re.match_here (Re.LazyStar Re.any :: pat) ing bol s = Some r.
Proof. intros H. destruct s; cbn [Re.match_here]; rewrite H; reflexivity. Qed.

Lemma lazy_skip_class (q : ascii -> bool) (stop : ascii) (pat : list Re.atom)
      (w t : string) (bol : bool) :
  q stop = false -> Py.all_chars q w = true ->
  Re.match_here (Re.LazyStar Re.any :: Re.GroupClose :: Re.Lit stop :: pat) true bol (w ++ t)
  = option_map (Re.consume_all true w)
      (Re.match_here (Re.LazyStar Re.any :: Re.GroupClose :: Re.Lit stop :: pat) true
                     (Re.bol_after bol w) t).
Proof.
  intros Hq. revert bol. induction w as [|c w IH]; intros bol H.
  - cbn [String.append Re.consume_all Re.bol_after].
    destruct (Re.match_here _ _ _ _); reflexivity.
  - cbn [Py.all_chars] in H. apply andb_true_iff in H. destruct H as [Hc Hw].
    cbn [String.append Re.bol_after].
    assert (Hnone : Re.match_here (Re.GroupClose :: Re.Lit stop :: pat) true bol
                                  (String c (w ++ t)) = None).
    { cbn [Re.match_here].
      destruct (Ascii.eqb c stop) eqn:E; [|reflexivity].
      apply Ascii.eqb_eq in E. subst c. congruence. }
    change (Re.match_here (Re.LazyStar Re.any :: Re.GroupClose :: Re.Lit stop :: pat)
                          true bol (String c (w ++ t)))
      with (match Re.match_here (Re.GroupClose :: Re.Lit stop :: pat) true bol
                                (String c (w ++ t)) with
            | Some r => Some r
            | None =>
                option_map (Re.consume true c)
                  (Re.match_here (Re.LazyStar Re.any :: Re.GroupClose :: Re.Lit stop :: pat)
                                 true (Re.is_nl c) (w ++ t))
            end).
    rewrite Hnone, IH by exact Hw. clear Hnone.
    destruct (Re.match_here _ _ _ _); reflexivity.
Qed.

(** One array of the page: the name and the opening bracket, the rendered
    integers, the closing bracket and what the pattern wants after it. *)
Lemma match_array (name more : string) (w t : string) (bol : bool) :
  Py.all_chars csv_char w = true ->
  Re.match_here
    (Re.lits name ++ [Re.GroupOpen; Re.LazyStar Re.any; Re.GroupClose]
       ++ Re.lits (String "]" more))
    false bol (name ++ w ++ String "]" more ++ t)
  = Some (Re.consume_all false name
            (Re.consume_all true w
               (Re.consume_all false (String "]" more) (Re.mk_rmatch "" "" t)))).
Proof.
  intros Hw. rewrite match_here_lits, strip_prefix_app.
  cbn [app Re.lits]. rewrite match_here_group_open.
  rewrite (lazy_skip_class csv_char) by (reflexivity || exact Hw).
  rewrite (lazy_stop_here _ _ _ _
             (Re.consume_all false (String "]" more) (Re.mk_rmatch "" "" t))).
  - reflexivity.
  - change (Re.match_here (Re.GroupClose :: Re.Lit "]" :: Re.lits more) true
              (Re.bol_after (Re.bol_after bol name) w) (String "]" more ++ t))
      with (Re.match_here (Re.Lit "]" :: Re.lits more) false
              (Re.bol_after (Re.bol_after bol name) w) (String "]" (more ++ t))).
    rewrite match_here_lit, <- (app_nil_r (Re.lits more)).
    rewrite match_here_lits, strip_prefix_app. reflexivity.
Qed.

Lemma group1_array (name more w t : string) :
  Re.group1 (Re.consume_all false name
               (Re.consume_all true w
                  (Re.consume_all false (String "]" more) (Re.mk_rmatch "" "" t))))
  = w.
Proof.
  rewrite group1_consume_all_outside, group1_consume_all_inside,
    group1_consume_all_outside.
  apply append_nil.
Qed.

Lemma int_array_csv (pat : list Re.atom) (text : string) (r : Re.rmatch) (l : list Z) :
  Re.search pat text = Some r -> Re.group1 r = csv l -> l <> [] ->
  int_array pat text = Ok l.
Proof.
  intros Hs Hg Hl. unfold int_array. rewrite Hs. cbn [Re.group rbind].
  rewrite Hg, split_csv by exact Hl. apply mapM_int_str.
Qed.

(** *** The page *)

Lemma str_of_int_digit (n : Z) :
  0 <= n <= 9 ->
  exists d, Py.str_of_int n = String d EmptyString /\ Py.is_digit d = true.
Proof.
  intros Hn. rewrite <- (Z2Nat.id n) by lia.
  assert (Hk : (Z.to_nat n <= 9)%nat) by lia.
  revert Hk. generalize (Z.to_nat n). intros k Hk.
  do 10 (destruct k as [|k]; [eexists; split; reflexivity|]). lia.
Qed.

Ltac skip_segments :=
  repeat (rewrite search_skip_lits
           by first [ reflexivity
                    | apply (no_start_class int_char);
                      [reflexivity | apply str_of_int_chars]
                    | apply (no_start_class csv_char);
                      [reflexivity | apply csv_chars] ]).

Lemma ports_page_count (n : Z) (st ls pk : list Z) :
  0 <= n <= 9 ->
  exists g, Re.group (Re.search re_max_port_num (ports_page n st ls pk)) = Ok g
            /\ Py.int g = Ok n.
Proof.
  intros Hn. destruct (str_of_int_digit n Hn) as (d & Hstr & Hd).
  exists (String d EmptyString). split; [|rewrite <- Hstr; apply int_str_of_int].
  unfold Re.search, ports_page. rewrite Hstr.
  erewrite search_from_here; cycle 1.
  - unfold re_max_port_num. rewrite match_here_lits, strip_prefix_app.
    cbn [String.append app Re.match_here]. unfold Re.digit. rewrite Hd.
    cbn [Ascii.eqb Bool.eqb option_map]. reflexivity.
  - cbn [Re.group]. rewrite group1_consume_all_outside. reflexivity.
Qed.

Lemma ports_page_state (n : Z) (st ls pk : list Z) :
  st <> [] -> int_array re_state (ports_page n st ls pk) = Ok st.
Proof.
  intros Hst. eapply int_array_csv; [| | exact Hst].
  - unfold Re.search, ports_page, re_state. skip_segments.
    apply search_from_here. apply (match_array "state:[" ","). apply csv_chars.
  - apply group1_array.
Qed.

Lemma ports_page_link_status (n : Z) (st ls pk : list Z) :
  ls <> [] -> int_array re_link_status (ports_page n st ls pk) = Ok ls.
Proof.
  intros Hls. eapply int_array_csv; [| | exact Hls].
  - unfold Re.search, ports_page, re_link_status. skip_segments.
    apply search_from_here. apply (match_array "link_status:[" ","). apply csv_chars.
  - apply group1_array.
Qed.

Lemma ports_page_pkts (n : Z) (st ls pk : list Z) :
  pk <> [] -> int_array re_pkts (ports_page n st ls pk) = Ok pk.
Proof.
  intros Hpk. eapply int_array_csv; [| | exact Hpk].
  - unfold Re.search, ports_page, re_pkts. skip_segments.
    apply search_from_here. apply (match_array "pkts:[" ""). apply csv_chars.
  - apply group1_array.
Qed.

(** On a rendered page the four patterns find what was rendered. *)
Lemma ports_page_fields_rendered (n : nat) (st ls pk : list Z) :
  (n <= 9)%nat -> st <> [] -> ls <> [] -> pk <> [] ->
  ports_page_fields (ports_page (Z.of_nat n) st ls pk) n st ls pk.
Proof.
  intros Hn Hst Hls Hpk. unfold ports_page_fields. split; [|split; [|split]].
  - apply ports_page_count. lia.
  - apply ports_page_state. exact Hst.
  - apply ports_page_link_status. exact Hls.
  - apply ports_page_pkts. exact Hpk.
Qed.

Lemma ports_fixture_rendered :
  ports_fixture = ports_page 2 [1; 0] [5; 0] [10; 0; 20; 1; 0; 0; 0; 0].
Proof. vm_compute. reflexivity. Qed.

(** On a rendered page [parse_ports_info] is its loop run on the arrays
    that were rendered. *)
Lemma ports_page_loop (n : nat) (st ls pk : list Z) :
  (n <= 9)%nat -> st <> [] -> ls <> [] -> pk <> [] ->
  parse_ports_info (ports_page (Z.of_nat n) st ls pk)
  = ports_loop st ls pk (Py.range (Z.of_nat n)) [].
Proof.
  intros Hn Hst Hls Hpk. apply parse_ports_info_fields.
  apply ports_page_fields_rendered; assumption.
Qed.

(** An empty state array renders as [state:[],], whose only piece is not an
    integer. *)
Lemma ports_page_no_state (n : Z) (ls pk : list Z) :
  0 <= n <= 9 -> parse_ports_info (ports_page n [] ls pk) = Raise ValueError.
Proof.
  intros Hn. destruct (ports_page_count n [] ls pk Hn) as (g & Hg & Hint).
  unfold parse_ports_info. rewrite Hg. cbn [rbind]. rewrite Hint. cbn [rbind].
  assert (Hstate : int_array re_state (ports_page n [] ls pk) = Raise ValueError).
  { unfold int_array, Re.search, ports_page, re_state. skip_segments.
    erewrite search_from_here;
      [| apply (match_array "state:[" ","); apply csv_chars].
    cbn [Re.group]. rewrite group1_array. reflexivity. }
  rewrite Hstate. reflexivity.
Qed.

Lemma digit_value_bound (d : ascii) :
  Py.is_digit d = true -> 0 <= Py.digit_value d <= 9.
Proof.
  unfold Py.is_digit, Py.digit_value. intros H.
  apply andb_true_iff in H. destruct H as [H1 H2].
  apply N.leb_le in H1, H2. lia.
Qed.

Lemma digit_not_semicolon (d : ascii) :
  Py.is_digit d = true -> Ascii.eqb d ";" = false.
Proof.
  intros Hd. destruct (Ascii.eqb d ";") eqn:E; [|reflexivity].
  apply Ascii.eqb_eq in E. subst d. discriminate.
Qed.

Lemma search_from_step (pat : list Re.atom) (bol : bool) (c : ascii) (s : string) :
  Re.match_here pat false bol (String c s) = None ->
  Re.search_from pat bol (String c s) = Re.search_from pat (Re.is_nl c) s.
Proof. intros H. cbn [Re.search_from]. rewrite H. reflexivity. Qed.

(** A count of 10 or more renders with two digits at least, and the
    port-count pattern finds nothing on the page. *)
Lemma ports_page_count_too_large (n : Z) (st ls pk : list Z) :
  10 <= n -> parse_ports_info (ports_page n st ls pk) = Raise AttributeError.
Proof.
  intros Hn.
  destruct (str_of_int_digits n) as (d1 & ds & Heq & Hall & Hval & _).
  assert (Hpos : (n <? 0) = false) by (apply Z.ltb_ge; lia).
  rewrite Hpos in Heq.
  cbn [Py.all_chars] in Hall. apply andb_true_iff in Hall. destruct Hall as [Hd1 Hds].
  destruct ds as [|d2 ds].
  { exfalso. cbn [Json.digits_value] in Hval.
    pose proof (digit_value_bound _ Hd1). lia. }
  assert (Hdigits : Py.all_chars Py.is_digit (String d1 (String d2 ds)) = true).
  { cbn [Py.all_chars]. rewrite Hd1. exact Hds. }
  cbn [Py.all_chars] in Hds. apply andb_true_iff in Hds. destruct Hds as [Hd2 Hds].
  assert (Hhere : forall bol t,
             Re.match_here re_max_port_num false bol
               ("var max_port_num = " ++ String d1 (String d2 ds) ++ t)%string = None).
  { intros bol t. unfold re_max_port_num. rewrite match_here_lits, strip_prefix_app.
    cbn [String.append app Re.match_here]. unfold Re.digit. rewrite Hd1.
    rewrite (digit_not_semicolon _ Hd2). reflexivity. }
  assert (Hsearch : Re.search re_max_port_num (ports_page n st ls pk) = None).
  { unfold Re.search, ports_page. rewrite Heq.
    match goal with
    | |- context [("var max_port_num = " ++ ?t)%string] =>
        change ("var max_port_num = " ++ t)%string
          with (String "v" ("ar max_port_num = " ++ t))%string
    end.
    rewrite search_from_step by apply Hhere.
    unfold re_max_port_num. skip_segments.
    rewrite (search_skip_lits _ _ (String d1 (String d2 ds)))
      by (apply (no_start_class Py.is_digit); [reflexivity | exact Hdigits]).
    skip_segments.
    apply search_none_lits; [reflexivity | discriminate]. }
  unfold parse_ports_info. rewrite Hsearch. reflexivity.
Qed.

(** ** What parse_ports_info raises and what it returns *)

Lemma int_raises (s : string) (e : exn) : Py.int s = Raise e -> e = ValueError.
Proof. unfold Py.int. destruct (Py.int_digits _ _ _); congruence. Qed.

Lemma mapM_int_raises (l : list string) (e : exn) :
  mapM Py.int l = Raise e -> e = ValueError.
Proof.
  induction l as [|s l IH]; cbn [mapM]; [discriminate|].
  destruct (Py.int s) as [v|e'] eqn:E; cbn [rbind].
  - destruct (mapM Py.int l) as [vs|e'']; cbn [rbind]; [discriminate|].
    intros H. apply IH. exact H.
  - intros H. inversion H; subst. eapply int_raises. exact E.
Qed.

Lemma int_array_raises (pat : list Re.atom) (text : string) (e : exn) :
  int_array pat text = Raise e -> e = AttributeError \/ e = ValueError.
Proof.
  unfold int_array. destruct (Re.search pat text) as [r|]; cbn [Re.group rbind].
  - intros H. right. eapply mapM_int_raises. exact H.
  - intros H. inversion H. left. reflexivity.
Qed.

(** A parse that returns has found a digit and three arrays, and is the
    loop run on them. *)
Lemma parse_ports_info_inv (text : string) (ports_info : list (Z * port_data)) :
  parse_ports_info text = Ok ports_info ->
  exists n st ls pk,
    (n <= 9)%nat
    /\ ports_page_fields text n st ls pk
    /\ ports_loop st ls pk (Py.range (Z.of_nat n)) [] = Ok ports_info.
Proof.
  unfold parse_ports_info, Re.search.
  destruct (Re.search_from re_max_port_num true text) as [r|] eqn:E; [|discriminate].
  pose proof (count_search _ _ _ E) as (d & Hd & Hg).
  cbn [Re.group rbind]. rewrite Hg.
  destruct (int_of_digit d Hd) as (v & Hv & Hrange). rewrite Hv. cbn [rbind].
  destruct (int_array re_state text) as [st|] eqn:Est; [|discriminate].
  destruct (int_array re_link_status text) as [ls|] eqn:Els; [|discriminate].
  destruct (int_array re_pkts text) as [pk|] eqn:Epk; [|discriminate].
  cbn [rbind]. intros H.
  exists (Z.to_nat v), st, ls, pk. rewrite Z2Nat.id by lia.
  split; [lia|]. split; [|exact H].
  unfold ports_page_fields, Re.search. rewrite E. cbn [Re.group].
  split; [|repeat split; assumption].
  exists (String d EmptyString). rewrite Z2Nat.id by lia.
  split; [rewrite Hg; reflexivity | exact Hv].
Qed.

Lemma ports_loop_inv st ls pk (k a : nat) (acc r : list (Z * port_data)) :
  ports_loop st ls pk (map Z.of_nat (seq a k)) acc = Ok r ->
  (forall key d, In (key, d) acc -> key <= Z.of_nat a) ->
  exists es,
    r = (acc ++ es)%list
    /\ Forall2 (fun j e => fst e = Z.of_nat j + 1
                           /\ port_entry st ls pk (Z.of_nat j) = Ok (snd e))
               (seq a k) es.
Proof.
  intros Hloop Hkeys.
  destruct (ports_loop_ok st ls pk k a acc) as (es & Hes & Hall).
  - intros j Hj. eapply ports_loop_entries; [exact Hloop|].
    apply in_map. apply in_seq. lia.
  - exact Hkeys.
  - exists es. split; [congruence | exact Hall].
Qed.

Lemma getitem_In {A : Type} (l : list A) (i : Z) (a : A) :
  Py.getitem l i = Ok a -> In a l.
Proof.
  unfold Py.getitem. destruct (_ || _); [discriminate|].
  destruct (nth_error l _) eqn:E; [|discriminate].
  intros H. inversion H; subst. eapply nth_error_In. exact E.
Qed.

Lemma Forall2_length_seq {B : Type} (R : nat -> B -> Prop) (a k : nat) (es : list B) :
  Forall2 R (seq a k) es -> length es = k.
Proof. intros H. apply Forall2_length in H. rewrite length_seq in H. congruence. Qed.

Lemma Forall2_right {A B : Type} (R : A -> B -> Prop) (P : B -> Prop)
      (l : list A) (l' : list B) :
  (forall a b, R a b -> P b) -> Forall2 R l l' -> Forall P l'.
Proof. intros HR. induction 1; constructor; eauto. Qed.

Lemma parse_ports_info_raises (response_text : string) (e : exn) :
  parse_ports_info response_text = Raise e ->
  e = AttributeError \/ e = ValueError \/ e = IndexError.
Proof.
  unfold parse_ports_info.
  destruct (Re.search re_max_port_num response_text) as [r|]; cbn [Re.group rbind].
  2:{ intros H. inversion H. auto. }
  destruct (Py.int (Re.group1 r)) as [n|e0] eqn:En; cbn [rbind].
  2:{ intros H. inversion H; subst. apply int_raises in En. auto. }
  destruct (int_array re_state response_text) as [st|e0] eqn:Est; cbn [rbind].
  2:{ intros H. inversion H; subst. apply int_array_raises in Est. tauto. }
  destruct (int_array re_link_status response_text) as [ls|e0] eqn:Els; cbn [rbind].
  2:{ intros H. inversion H; subst. apply int_array_raises in Els. tauto. }
  destruct (int_array re_pkts response_text) as [pk|e0] eqn:Epk; cbn [rbind].
  2:{ intros H. inversion H; subst. apply int_array_raises in Epk. tauto. }
  intros H. apply ports_loop_raises in H. auto.
Qed.

(** X1.  Whatever the page, [parse_ports_info] raises nothing but
    AttributeError (a pattern found nothing), ValueError (an array piece is
    not an integer) and IndexError (an index outside an array or a table). *)
Theorem parse_ports_info_only_raises (response_text : string) (e : exn) :
  parse_ports_info response_text = Raise e ->
  e = AttributeError \/ e = ValueError \/ e = IndexError.
Proof. exact (parse_ports_info_raises response_text e). Qed.

Lemma parse_ports_info_only_raises_witness :
  AttributeError = AttributeError \/ AttributeError = ValueError
  \/ AttributeError = IndexError.
Proof.
  apply (parse_ports_info_only_raises ports_ten AttributeError).
  vm_compute. reflexivity.
Defined.

(** What a returned mapping looks like. *)
Lemma parse_ports_info_shape (text : string) (ports_info : list (Z * port_data)) :
  parse_ports_info text = Ok ports_info ->
  (length ports_info <= 9)%nat
  /\ map fst ports_info = map Z.of_nat (seq 1 (length ports_info))
  /\ Forall (fun e => In (pd_status (snd e)) state_info
                      /\ In (pd_link_status (snd e)) link_info) ports_info.
Proof.
  intros H. destruct (parse_ports_info_inv _ _ H) as (n & st & ls & pk & Hn & _ & Hloop).
  unfold Py.range in Hloop. rewrite Nat2Z.id in Hloop.
  destruct (ports_loop_inv _ _ _ _ _ _ _ Hloop) as (es & -> & Hall).
  { intros key d []. }
  cbn [app]. rewrite (Forall2_length_seq _ _ _ _ Hall).
  split; [exact Hn|]. split.
  - eapply Forall2_map_fst; [|exact Hall]. intros j e [Hk _]. exact Hk.
  - eapply Forall2_right; [|exact Hall].
    intros j e [_ He]. apply port_entry_inv in He.
    destruct He as (s & l & _ & Hs & _ & Hl & _).
    split; eapply getitem_In; eassumption.
Qed.

(** X2.  Whenever [parse_ports_info] returns, the keys of the mapping are
    1, 2, ... in this order with none missing, every status is one of the
    two state labels and every link-status one of the eight link labels. *)
Theorem parse_ports_info_keys_and_labels (response_text : string)
        (ports_info : list (Z * port_data)) :
  parse_ports_info response_text = Ok ports_info ->
  map fst ports_info = map Z.of_nat (seq 1 (length ports_info))
  /\ Forall (fun e => In (pd_status (snd e)) ["Disabled"; "Enabled"]%string
                      /\ In (pd_link_status (snd e))
                            ["Link Down"; "Auto"; "10Half"; "10Full"; "100Half";
                             "100Full"; "1000Full"; ""]%string)
            ports_info.
Proof. intros H. apply parse_ports_info_shape in H. tauto. Qed.

Lemma parse_ports_info_keys_and_labels_witness :
  map fst [ (1, mk_port_data "Enabled" "100Full" 10 0 20 1);
            (2, mk_port_data "Disabled" "Link Down" 0 0 0 0) ]
  = map Z.of_nat (seq 1 2)
  /\ Forall (fun e => In (pd_status (snd e)) ["Disabled"; "Enabled"]%string
                      /\ In (pd_link_status (snd e))
                            ["Link Down"; "Auto"; "10Half"; "10Full"; "100Half";
                             "100Full"; "1000Full"; ""]%string)
            [ (1, mk_port_data "Enabled" "100Full" 10 0 20 1);
              (2, mk_port_data "Disabled" "Link Down" 0 0 0 0) ].
Proof.
  apply (parse_ports_info_keys_and_labels ports_fixture).
  vm_compute. reflexivity.
Defined.

Lemma getitem_wraps {A : Type} (l : list A) (i : Z) :
  - Z.of_nat (length l) <= i < Z.of_nat (length l) ->
  exists a, Py.getitem l i = Ok a.
Proof.
  intros Hi. unfold Py.getitem.
  destruct (i <? 0) eqn:Hneg.
  - apply Z.ltb_lt in Hneg.
    destruct (i + Z.of_nat (length l) <? 0) eqn:E1; [apply Z.ltb_lt in E1; lia|].
    destruct (Z.of_nat (length l) <=? i + Z.of_nat (length l)) eqn:E2;
      [apply Z.leb_le in E2; lia|].
    cbn [orb].
    destruct (nth_error l (Z.to_nat (i + Z.of_nat (length l)))) as [a|] eqn:E;
      [eauto|].
    apply nth_error_None in E. lia.
  - apply Z.ltb_ge in Hneg.
    destruct (i <? 0) eqn:E1; [apply Z.ltb_lt in E1; lia|].
    destruct (Z.of_nat (length l) <=? i) eqn:E2; [apply Z.leb_le in E2; lia|].
    cbn [orb].
    destruct (nth_error l (Z.to_nat i)) as [a|] eqn:E; [eauto|].
    apply nth_error_None in E. lia.
Qed.

Lemma port_entry_in_tables st ls pk (n j : nat) :
  (n <= length st)%nat -> (n <= length ls)%nat -> (4 * n <= length pk)%nat ->
  (forall i v, (i < n)%nat -> nth_error st i = Some v -> -2 <= v <= 1) ->
  (forall i v, (i < n)%nat -> nth_error ls i = Some v -> -8 <= v <= 7) ->
  (j < n)%nat ->
  exists d, port_entry st ls pk (Z.of_nat j) = Ok d.
Proof.
  intros Hst Hls Hpk Rst Rls Hj. unfold port_entry.
  destruct (getitem_in_range st (Z.of_nat j)) as (s & Es & Ns); [lia|].
  destruct (getitem_in_range ls (Z.of_nat j)) as (l & El & Nl); [lia|].
  rewrite Nat2Z.id in Ns, Nl.
  pose proof (Rst _ _ Hj Ns) as Rs. pose proof (Rls _ _ Hj Nl) as Rl.
  destruct (getitem_wraps state_info s) as (sl & Esl); [cbn; lia|].
  destruct (getitem_wraps link_info l) as (ll & Ell); [cbn; lia|].
  destruct (getitem_in_range pk (4 * Z.of_nat j)) as (p0 & E0 & _); [lia|].
  destruct (getitem_in_range pk (4 * Z.of_nat j + 1)) as (p1 & E1 & _); [lia|].
  destruct (getitem_in_range pk (4 * Z.of_nat j + 2)) as (p2 & E2 & _); [lia|].
  destruct (getitem_in_range pk (4 * Z.of_nat j + 3)) as (p3 & E3 & _); [lia|].
  rewrite Es; cbn [rbind]. rewrite Esl; cbn [rbind].
  rewrite El; cbn [rbind]. rewrite Ell; cbn [rbind].
  rewrite E0; cbn [rbind]. rewrite E1; cbn [rbind].
  rewrite E2; cbn [rbind]. rewrite E3; cbn [rbind].
  eauto.
Qed.

(** X3.  On a page of no more than 4300 digits, when the arrays hold at
    least one state and one link mode per port and four counters per
    port, the states of the ports lie between
    -2 and 1 and their link modes between -8 and 7, [parse_ports_info]
    returns one record per port: its status is [state_info[state[i]]], its
    link-status [link_info[link_status[i]]] (a negative index counting from
    the end of the table) and its counters the four at [pkts[4 i]] and
    after.  Entries past those of the last port play no part. *)
Theorem parse_ports_info_labels (response_text : string) (n : nat)
        (st ls pk : list Z) :
  ports_page_fields response_text n st ls pk ->
  (digit_count response_text <= 4300)%nat ->
  (n <= length st)%nat -> (n <= length ls)%nat -> (4 * n <= length pk)%nat ->
  (forall i v, (i < n)%nat -> nth_error st i = Some v -> -2 <= v <= 1) ->
  (forall i v, (i < n)%nat -> nth_error ls i = Some v -> -8 <= v <= 7) ->
  exists ports_info,
    parse_ports_info response_text = Ok ports_info
    /\ length ports_info = n
    /\ forall i, (i < n)%nat ->
         exists s l d,
           nth_error st i = Some s /\ nth_error ls i = Some l
           /\ nth_error ports_info i = Some (Z.of_nat i + 1, d)
           /\ Py.getitem state_info s = Ok (pd_status d)
           /\ Py.getitem link_info l = Ok (pd_link_status d)
           /\ nth_error pk (4 * i) = Some (pd_txgoodpkt d)
           /\ nth_error pk (4 * i + 1) = Some (pd_txbadpkt d)
           /\ nth_error pk (4 * i + 2) = Some (pd_rxgoodpkt d)
           /\ nth_error pk (4 * i + 3) = Some (pd_rxbadpkt d).
Proof.
  intros Hfields _ Hst Hls Hpk Rst Rls.
  rewrite (parse_ports_info_fields _ _ _ _ _ Hfields).
  unfold Py.range. rewrite Nat2Z.id.
  destruct (ports_loop_ok st ls pk n 0 []) as (es & Hes & Hall).
  { intros j Hj. eapply port_entry_in_tables; eauto. lia. }
  { intros key d []. }
  exists es. cbn [app] in Hes. split; [exact Hes|].
  split; [exact (Forall2_length_seq _ _ _ _ Hall)|].
  intros i Hi.
  destruct (Forall2_nth_error _ _ _ Hall i i) as ([key d] & Hnth & Hkey & Hentry).
  { rewrite nth_error_nth' with (d := O) by (rewrite length_seq; lia).
    rewrite seq_nth by lia. reflexivity. }
  cbn [fst snd] in Hkey, Hentry. subst key.
  apply port_entry_inv in Hentry.
  destruct Hentry as (s & l & Hs & Hsl & Hl & Hll & H0 & H1 & H2 & H3).
  apply getitem_nonneg in Hs; [|lia]. apply getitem_nonneg in Hl; [|lia].
  apply getitem_nonneg in H0; [|lia]. apply getitem_nonneg in H1; [|lia].
  apply getitem_nonneg in H2; [|lia]. apply getitem_nonneg in H3; [|lia].
  rewrite Nat2Z.id in Hs, Hl.
  replace (Z.to_nat (4 * Z.of_nat i)) with (4 * i)%nat in H0 by lia.
  replace (Z.to_nat (4 * Z.of_nat i + 1)) with (4 * i + 1)%nat in H1 by lia.
  replace (Z.to_nat (4 * Z.of_nat i + 2)) with (4 * i + 2)%nat in H2 by lia.
  replace (Z.to_nat (4 * Z.of_nat i + 3)) with (4 * i + 3)%nat in H3 by lia.
  exists s, l, d. auto 12.
Qed.

(** A page with entries past those of its single port and indices that
    count from the end of the tables. *)
Lemma ports_surplus_fields :
  ports_page_fields (ports_page 1 [-1; 7] [-8; 0; 0] [10; 0; 20; 1; 99])
                    1 [-1; 7] [-8; 0; 0] [10; 0; 20; 1; 99].
Proof.
  split; [exists "1"%string; split; vm_compute; reflexivity|].
  repeat split; vm_compute; reflexivity.
Defined.

Lemma parse_ports_info_labels_witness :
  exists ports_info,
    parse_ports_info (ports_page 1 [-1; 7] [-8; 0; 0] [10; 0; 20; 1; 99]) = Ok ports_info
    /\ length ports_info = 1%nat
    /\ forall i, (i < 1)%nat ->
         exists s l d,
           nth_error [-1; 7] i = Some s /\ nth_error [-8; 0; 0] i = Some l
           /\ nth_error ports_info i = Some (Z.of_nat i + 1, d)
           /\ Py.getitem state_info s = Ok (pd_status d)
           /\ Py.getitem link_info l = Ok (pd_link_status d)
           /\ nth_error [10; 0; 20; 1; 99] (4 * i) = Some (pd_txgoodpkt d)
           /\ nth_error [10; 0; 20; 1; 99] (4 * i + 1) = Some (pd_txbadpkt d)
           /\ nth_error [10; 0; 20; 1; 99] (4 * i + 2) = Some (pd_rxgoodpkt d)
           /\ nth_error [10; 0; 20; 1; 99] (4 * i + 3) = Some (pd_rxbadpkt d).
Proof.
  apply (parse_ports_info_labels _ 1 [-1; 7] [-8; 0; 0] [10; 0; 20; 1; 99]).
  - exact ports_surplus_fields.
  - apply Nat.leb_le. vm_compute. reflexivity.
  - cbn. lia.
  - cbn. lia.
  - cbn. lia.
  - intros i v Hi. destruct i as [|i]; [|lia]. cbn. intros H. inversion H. lia.
  - intros i v Hi. destruct i as [|i]; [|lia]. cbn. intros H. inversion H. lia.
Defined.

(** X4.  On a page of no more than 4300 digits, a link_status value below
    -8 or above 7 at an index below the port count makes
    [parse_ports_info] raise IndexError: the link table has eight labels
    and the code indexes it unchecked. *)
Theorem link_status_out_of_range (response_text : string) (n : nat)
        (st ls pk : list Z) (i : nat) (v : Z) :
  ports_page_fields response_text n st ls pk ->
  (digit_count response_text <= 4300)%nat ->
  (i < n)%nat -> nth_error ls i = Some v -> v < -8 \/ 7 < v ->
  parse_ports_info response_text = Raise IndexError.
Proof.
  intros Hfields _ Hi Hv Hout.
  rewrite (parse_ports_info_fields _ _ _ _ _ Hfields).
  destruct (ports_loop st ls pk (Py.range (Z.of_nat n)) []) as [r|e] eqn:E.
  - exfalso.
    destruct (ports_loop_entries _ _ _ _ _ _ E (Z.of_nat i)) as (d & Hd).
    { apply in_range. lia. }
    apply port_entry_inv in Hd. destruct Hd as (s & l & _ & _ & Hl & Hlabel & _).
    apply getitem_nonneg in Hl; [|lia]. rewrite Nat2Z.id in Hl.
    assert (l = v) by congruence. subst l.
    rewrite getitem_out_of_range in Hlabel; [discriminate | cbn; lia].
  - f_equal. eapply ports_loop_raises. exact E.
Qed.

Lemma link_status_out_of_range_witness :
  parse_ports_info (ports_page 2 [1; 0] [5; 8] [10; 0; 20; 1; 0; 0; 0; 0])
  = Raise IndexError.
Proof.
  apply (link_status_out_of_range _ 2 [1; 0] [5; 8] [10; 0; 20; 1; 0; 0; 0; 0] 1 8).
  - split; [exists "2"%string; split; vm_compute; reflexivity|].
    repeat split; vm_compute; reflexivity.
  - apply Nat.leb_le. vm_compute. reflexivity.
  - lia.
  - reflexivity.
  - right. lia.
Defined.

(** X5.  On a page of no more than 4300 digits, when the state array or
    the link_status array holds fewer integers than the port count,
    [parse_ports_info] raises IndexError. *)
Theorem state_or_link_too_short (response_text : string) (n : nat)
        (st ls pk : list Z) :
  ports_page_fields response_text n st ls pk ->
  (digit_count response_text <= 4300)%nat ->
  (length st < n)%nat \/ (length ls < n)%nat ->
  parse_ports_info response_text = Raise IndexError.
Proof.
  intros Hfields _ Hshort.
  rewrite (parse_ports_info_fields _ _ _ _ _ Hfields).
  destruct (ports_loop st ls pk (Py.range (Z.of_nat n)) []) as [r|e] eqn:E.
  - exfalso.
    destruct (ports_loop_entries _ _ _ _ _ _ E (Z.of_nat n - 1)) as (d & Hd).
    { apply in_range. lia. }
    apply port_entry_inv in Hd. destruct Hd as (s & l & Hs & _ & Hl & _).
    apply getitem_nonneg in Hs; [|lia]. apply getitem_nonneg in Hl; [|lia].
    assert (Z.to_nat (Z.of_nat n - 1) < length st)%nat
      by (apply nth_error_Some; congruence).
    assert (Z.to_nat (Z.of_nat n - 1) < length ls)%nat
      by (apply nth_error_Some; congruence).
    lia.
  - f_equal. eapply ports_loop_raises. exact E.
Qed.

Lemma state_or_link_too_short_witness :
  parse_ports_info (ports_page 2 [1; 0] [5] [10; 0; 20; 1; 0; 0; 0; 0])
  = Raise IndexError.
Proof.
  apply (state_or_link_too_short _ 2 [1; 0] [5] [10; 0; 20; 1; 0; 0; 0; 0]).
  - split; [exists "2"%string; split; vm_compute; reflexivity|].
    repeat split; vm_compute; reflexivity.
  - apply Nat.leb_le. vm_compute. reflexivity.
  - right. cbn. lia.
Defined.

Lemma nth_error_firstn_lt {A : Type} (l : list A) (m i : nat) :
  (i < m)%nat -> nth_error (firstn m l) i = nth_error l i.
Proof.
  revert m i. induction l as [|a l IH]; intros m i Hi.
  - rewrite firstn_nil. reflexivity.
  - destruct m as [|m]; [lia|]. destruct i as [|i]; [reflexivity|].
    cbn. apply IH. lia.
Qed.

Lemma getitem_firstn {A : Type} (l : list A) (m : nat) (i : Z) :
  0 <= i < Z.of_nat m -> Py.getitem (firstn m l) i = Py.getitem l i.
Proof.
  intros Hi.
  destruct (Py.getitem l i) as [a|e] eqn:E.
  - apply getitem_nonneg in E; [|lia]. apply getitem_nonneg; [lia|].
    rewrite nth_error_firstn_lt by lia. exact E.
  - destruct (Py.getitem (firstn m l) i) as [a|e'] eqn:E'.
    + apply getitem_nonneg in E'; [|lia].
      rewrite nth_error_firstn_lt in E' by lia.
      apply getitem_nonneg in E'; [|lia]. congruence.
    + apply getitem_raises in E, E'. congruence.
Qed.

Lemma port_entry_firstn st ls pk (n : nat) (j : Z) :
  0 <= j < Z.of_nat n ->
  port_entry (firstn n st) (firstn n ls) (firstn (4 * n) pk) j
  = port_entry st ls pk j.
Proof.
  intros Hj. unfold port_entry.
  rewrite !getitem_firstn by lia. reflexivity.
Qed.

Lemma ports_loop_ext st ls pk st' ls' pk' indices acc :
  (forall j, In j indices -> port_entry st ls pk j = port_entry st' ls' pk' j) ->
  ports_loop st ls pk indices acc = ports_loop st' ls' pk' indices acc.
Proof.
  revert acc. induction indices as [|i indices IH]; intros acc H; [reflexivity|].
  cbn [ports_loop]. rewrite (H i) by (left; reflexivity).
  destruct (port_entry st' ls' pk' i); cbn [rbind]; [|reflexivity].
  apply IH. intros j Hin. apply H. right. exact Hin.
Qed.

Lemma ports_loop_firstn st ls pk (n : nat) :
  ports_loop (firstn n st) (firstn n ls) (firstn (4 * n) pk) (Py.range (Z.of_nat n)) []
  = ports_loop st ls pk (Py.range (Z.of_nat n)) [].
Proof.
  apply ports_loop_ext. intros j Hin. apply in_range in Hin.
  apply port_entry_firstn. exact Hin.
Qed.

(** X6.  Only the first [n] states, the first [n] link modes and the
    first [4 n] counters of a page with port count [n] matter: two pages
    of no more than 4300 digits that agree on the count and on these give
    the same result, be it a mapping or an exception. *)
Theorem surplus_entries_ignored (text1 text2 : string) (n : nat)
        (st1 ls1 pk1 st2 ls2 pk2 : list Z) :
  ports_page_fields text1 n st1 ls1 pk1 ->
  ports_page_fields text2 n st2 ls2 pk2 ->
  (digit_count text1 <= 4300)%nat ->
  (digit_count text2 <= 4300)%nat ->
  firstn n st1 = firstn n st2 ->
  firstn n ls1 = firstn n ls2 ->
  firstn (4 * n) pk1 = firstn (4 * n) pk2 ->
  parse_ports_info text1 = parse_ports_info text2.
Proof.
  intros H1 H2 _ _ Hst Hls Hpk.
  rewrite (parse_ports_info_fields _ _ _ _ _ H1), (parse_ports_info_fields _ _ _ _ _ H2).
  rewrite <- (ports_loop_firstn st1), <- (ports_loop_firstn st2).
  rewrite Hst, Hls, Hpk. reflexivity.
Qed.

Lemma surplus_entries_ignored_witness :
  parse_ports_info (ports_page 1 [-1; 7] [-8; 0; 0] [10; 0; 20; 1; 99])
  = parse_ports_info (ports_page 1 [-1] [-8] [10; 0; 20; 1]).
Proof.
  apply (surplus_entries_ignored _ _ 1 [-1; 7] [-8; 0; 0] [10; 0; 20; 1; 99]
                                 [-1] [-8] [10; 0; 20; 1]).
  - exact ports_surplus_fields.
  - split; [exists "1"%string; split; vm_compute; reflexivity|].
    repeat split; vm_compute; reflexivity.
  - apply Nat.leb_le. vm_compute. reflexivity.
  - apply Nat.leb_le. vm_compute. reflexivity.
  - reflexivity.
  - reflexivity.
  - reflexivity.
Defined.

Lemma search_lits_absent (name : string) (pat : list Re.atom) (text : string)
      (bol : bool) :
  Py.contains name text = false ->
  Re.search_from (Re.lits name ++ pat) bol text = None.
Proof.
  revert bol. induction text as [|c text IH]; intros bol H.
  - cbn [Py.contains] in H. cbn [Re.search_from]. rewrite match_here_lits.
    destruct (Py.strip_prefix name ""); [discriminate | reflexivity].
  - cbn [Py.contains] in H. cbn [Re.search_from]. rewrite match_here_lits.
    destruct (Py.strip_prefix name (String c text)); [discriminate|].
    apply IH. exact H.
Qed.

Lemma count_int (text : string) (r : Re.rmatch) :
  Re.search re_max_port_num text = Some r ->
  exists v, Py.int (Re.group1 r) = Ok v /\ 0 <= v <= 9.
Proof.
  intros H. apply count_search in H. destruct H as (d & Hd & ->).
  apply int_of_digit. exact Hd.
Qed.

(** X7.  A page where the text [var max_port_num = ], or the text
    [state:] followed by an opening bracket, occurs nowhere makes
    [parse_ports_info] raise AttributeError, whatever else the page
    holds. *)
Theorem missing_count_or_state (response_text : string) :
  Py.contains "var max_port_num = " response_text = false
  \/ Py.contains "state:[" response_text = false ->
  parse_ports_info response_text = Raise AttributeError.
Proof.
  intros H. unfold parse_ports_info.
  destruct (Re.search re_max_port_num response_text) as [r|] eqn:E; [|reflexivity].
  destruct H as [H|H].
  - exfalso. unfold Re.search, re_max_port_num in E.
    rewrite (search_lits_absent _ _ _ _ H) in E. discriminate.
  - destruct (count_int _ _ E) as (v & Hv & _).
    cbn [Re.group rbind]. rewrite Hv. cbn [rbind].
    unfold int_array at 1, Re.search, re_state.
    rewrite (search_lits_absent _ _ _ _ H). reflexivity.
Qed.

Lemma missing_count_or_state_witness :
  parse_ports_info "var max_port_num = 2; link_status:[5,0], pkts:[1,2,3,4,5,6,7,8]"
  = Raise AttributeError.
Proof.
  apply missing_count_or_state. right. vm_compute. reflexivity.
Defined.

(** X8.  On a page laid out like the fixture, with a count from 0 to 9
    and three arrays that are not empty, the four patterns, [split] and
    [int] give back the count and exactly the integers that were written,
    whatever their sign and their size, as long as the page holds no more
    than 4300 digits. *)
Theorem ports_page_read_back (n : nat) (st ls pk : list Z) :
  (n <= 9)%nat -> st <> [] -> ls <> [] -> pk <> [] ->
  (digit_count (ports_page (Z.of_nat n) st ls pk) <= 4300)%nat ->
  ports_page_fields (ports_page (Z.of_nat n) st ls pk) n st ls pk.
Proof.
  intros Hn Hst Hls Hpk _. exact (ports_page_fields_rendered n st ls pk Hn Hst Hls Hpk).
Qed.

Lemma ports_page_read_back_witness :
  ports_page_fields (ports_page 2 [1; -1] [5; 1000000] [-7; 0; 20; 1; 0; 0; 0; 12345678901234567890])
                    2 [1; -1] [5; 1000000] [-7; 0; 20; 1; 0; 0; 0; 12345678901234567890].
Proof.
  apply (ports_page_read_back 2);
    [lia | discriminate | discriminate | discriminate |].
  apply Nat.leb_le. vm_compute. reflexivity.
Defined.

Lemma ports_page_searches (n : Z) (st ls pk : list Z) :
  (exists r, Re.search re_state (ports_page n st ls pk) = Some r
             /\ Re.group1 r = csv st)
  /\ (exists r, Re.search re_link_status (ports_page n st ls pk) = Some r
                /\ Re.group1 r = csv ls)
  /\ (exists r, Re.search re_pkts (ports_page n st ls pk) = Some r
                /\ Re.group1 r = csv pk).
Proof.
  split; [|split]; eexists; (split; [|apply group1_array]).
  - unfold Re.search, ports_page, re_state. skip_segments.
    apply search_from_here. apply (match_array "state:[" ","). apply csv_chars.
  - unfold Re.search, ports_page, re_link_status. skip_segments.
    apply search_from_here. apply (match_array "link_status:[" ","). apply csv_chars.
  - unfold Re.search, ports_page, re_pkts. skip_segments.
    apply search_from_here. apply (match_array "pkts:[" ""). apply csv_chars.
Qed.

Lemma int_array_empty (pat : list Re.atom) (text : string) (r : Re.rmatch) :
  Re.search pat text = Some r -> Re.group1 r = csv [] ->
  int_array pat text = Raise ValueError.
Proof.
  intros Hs Hg. unfold int_array. rewrite Hs. cbn [Re.group rbind].
  rewrite Hg. reflexivity.
Qed.

(** X9.  An empty array is written [[]]; the one piece that [split] finds
    between the brackets is the empty text, which [int] refuses: a page
    laid out like the fixture with an empty array raises ValueError, also
    when its port count is 0. *)
Theorem empty_array_refused (n : nat) (st ls pk : list Z) :
  (n <= 9)%nat -> st = [] \/ ls = [] \/ pk = [] ->
  parse_ports_info (ports_page (Z.of_nat n) st ls pk) = Raise ValueError.
Proof.
  intros Hn Hempty.
  destruct (ports_page_count (Z.of_nat n) st ls pk) as (g & Hg & Hint); [lia|].
  destruct (ports_page_searches (Z.of_nat n) st ls pk)
    as ((r1 & Hs1 & Hg1) & (r2 & Hs2 & Hg2) & (r3 & Hs3 & Hg3)).
  unfold parse_ports_info. rewrite Hg. cbn [rbind]. rewrite Hint. cbn [rbind].
  destruct st as [|s0 st'].
  { rewrite (int_array_empty _ _ _ Hs1 Hg1). reflexivity. }
  rewrite (int_array_csv _ _ _ _ Hs1 Hg1) by discriminate. cbn [rbind].
  destruct ls as [|l0 ls'].
  { rewrite (int_array_empty _ _ _ Hs2 Hg2). reflexivity. }
  rewrite (int_array_csv _ _ _ _ Hs2 Hg2) by discriminate. cbn [rbind].
  destruct pk as [|p0 pk'].
  { rewrite (int_array_empty _ _ _ Hs3 Hg3). reflexivity. }
  exfalso. destruct Hempty as [H|[H|H]]; discriminate H.
Qed.

Lemma empty_array_refused_witness :
  parse_ports_info (ports_page 0 [] [] []) = Raise ValueError.
Proof.
  apply (empty_array_refused 0 [] [] []); [lia | left; reflexivity].
Defined.

(** ** What parse_system_info raises and what it returns *)

Lemma search_from_inv (pat : list Re.atom) (s : string) (bol : bool) (r : Re.rmatch) :
  Re.search_from pat bol s = Some r ->
  exists bol' s', Re.match_here pat false bol' s' = Some r.
Proof.
  revert bol. induction s as [|c s IH]; intros bol; cbn [Re.search_from].
  - destruct (Re.match_here pat false bol "") eqn:E; [|discriminate].
    intros H. inversion H; subst. eauto.
  - destruct (Re.match_here pat false bol (String c s)) eqn:E.
    + intros H. inversion H; subst. eauto.
    + apply IH.
Qed.

(** What the info_ds pattern captures starts with the opening brace. *)
Lemma info_ds_group_brace (text : string) (r : Re.rmatch) :
  Re.search re_info_ds text = Some r ->
  exists g, Re.group1 r = String "{" g.
Proof.
  intros H. apply search_from_inv in H. destruct H as (bol & s & H).
  unfold re_info_ds in H. rewrite match_here_lits in H.
  destruct (Py.strip_prefix "var info_ds = " s) as [s'|]; [|discriminate].
  destruct (Re.match_here _ false _ s') as [r'|] eqn:E; [|discriminate].
  cbn [option_map] in H. inversion H; subst. clear H.
  cbn [Re.group1 Re.consume].
  rewrite match_here_group_open in E. cbn [Re.match_here] in E.
  destruct s' as [|c s'']; [discriminate|].
  destruct (Ascii.eqb c "{") eqn:Ec; [|discriminate].
  apply Ascii.eqb_eq in Ec. subst c.
  match type of E with
  | option_map _ ?m = Some _ => destruct m as [r''|]; [|discriminate]
  end.
  cbn [option_map] in E. inversion E; subst. cbn. eauto.
Qed.

Lemma sub_brace (g : string) :
  Re.sub re_bare_key quote_key (String "{" g)
  = String "{" (Re.sub_from re_bare_key quote_key 0 false g).
Proof. unfold Re.sub. rewrite sub_char by reflexivity. reflexivity. Qed.

Lemma object_members_dict (f : nat) :
  forall s acc v r,
    Json.object_members f s acc = Ok (v, r) -> exists d, v = Json.JDict d.
Proof.
  induction f as [|f IH]; intros s acc v r H; [discriminate|].
  rewrite object_members_eq in H.
  destruct (Json.after_char Json.dq s) as [s1|]; [|discriminate].
  destruct (Json.scanstring s1) as [k|]; [|discriminate]. cbn [rbind] in H.
  destruct (Json.after_char ":" _) as [s2|]; [|discriminate].
  destruct (Json.scan_once f _) as [x|]; [|discriminate]. cbn [rbind] in H.
  destruct (Json.after_char "}" _) as [s3|].
  - inversion H; subst. eauto.
  - destruct (Json.after_char "," _) as [s3|]; [|discriminate].
    eapply IH. exact H.
Qed.

Lemma scan_raises (f : nat) :
  (forall s e, Json.scan_once f s = Raise e ->
               e = JSONDecodeError \/ e = RecursionError)
  /\ (forall s acc e, Json.object_members f s acc = Raise e ->
                      e = JSONDecodeError \/ e = RecursionError)
  /\ (forall s acc e, Json.array_items f s acc = Raise e ->
                      e = JSONDecodeError \/ e = RecursionError).
Proof.
  induction f as [|f (IHs & IHo & IHa)].
  - repeat split; intros; right; cbn in *; congruence.
  - split; [|split].
    + intros s e H. destruct s as [|c s']; [left; cbn in H; congruence|].
      rewrite scan_once_eq in H.
      destruct (Ascii.eqb c Json.dq).
      { destruct (Json.scanstring s') as [[cs rest]|e'] eqn:E; [discriminate|].
        cbn [rbind] in H. inversion H; subst.
        left. eapply scanstring_raises; [apply le_n | exact E]. }
      destruct (Ascii.eqb c "{").
      { destruct (Json.after_char "}" _); [discriminate|]. eapply IHo. exact H. }
      destruct (Ascii.eqb c "[").
      { destruct (Json.after_char "]" _); [discriminate|]. eapply IHa. exact H. }
      destruct (Json.scan_constant _); [discriminate|].
      left. eapply scan_number_raises. exact H.
    + intros s acc e H. rewrite object_members_eq in H.
      destruct (Json.after_char Json.dq s) as [s1|]; [|left; congruence].
      destruct (Json.scanstring s1) as [k|e'] eqn:E.
      2:{ cbn [rbind] in H. inversion H; subst.
          left. eapply scanstring_raises; [apply le_n | exact E]. }
      cbn [rbind] in H.
      destruct (Json.after_char ":" _) as [s2|]; [|left; congruence].
      destruct (Json.scan_once f _) as [x|e'] eqn:E'.
      2:{ cbn [rbind] in H. inversion H; subst. eapply IHs. exact E'. }
      cbn [rbind] in H.
      destruct (Json.after_char "}" _) as [s3|]; [discriminate|].
      destruct (Json.after_char "," _) as [s3|]; [|left; congruence].
      eapply IHo. exact H.
    + intros s acc e H. rewrite array_items_eq in H.
      destruct (Json.scan_once f s) as [x|e'] eqn:E'.
      2:{ cbn [rbind] in H. inversion H; subst. eapply IHs. exact E'. }
      cbn [rbind] in H.
      destruct (Json.after_char "]" _) as [s3|]; [discriminate|].
      destruct (Json.after_char "," _) as [s3|]; [|left; congruence].
      eapply IHa. exact H.
Qed.

(** [json.loads] raises nothing but JSONDecodeError. *)
Lemma loads_raises (s : string) (e : exn) :
  Json.loads s = Raise e -> e = JSONDecodeError.
Proof.
  intros H. pose proof (loads_never_out_of_fuel s) as Hfuel.
  assert (He : e = JSONDecodeError \/ e = RecursionError).
  { unfold Json.loads in H.
    destruct (Json.scan_once _ _) as [r|e'] eqn:E; cbn [rbind] in H.
    - destruct (Json.skip_ws (snd r)); [discriminate | left; congruence].
    - inversion H; subst. eapply (proj1 (scan_raises _)). exact E. }
  destruct He as [He|He]; [exact He | subst e; contradiction].
Qed.

Lemma loads_brace (t : string) (v : Json.value) :
  Json.loads (String "{" t) = Ok v -> exists d, v = Json.JDict d.
Proof.
  unfold Json.loads.
  change (Json.skip_ws (String "{" t)) with (String "{" t).
  destruct (Json.scan_once _ _) as [[x rest]|] eqn:E; [|discriminate].
  cbn [rbind fst snd]. intros H.
  assert (Hx : exists d, x = Json.JDict d).
  { rewrite scan_once_eq in E.
    change (Ascii.eqb "{" Json.dq) with false in E.
    change (Ascii.eqb "{" "{") with true in E. cbv iota in E.
    destruct (Json.after_char "}" _).
    - inversion E; subst. eauto.
    - eapply object_members_dict. exact E. }
  destruct (Json.skip_ws rest); [|discriminate].
  inversion H; subst. exact Hx.
Qed.

(** X10.  A page where the text [var info_ds = ] occurs nowhere makes
    [parse_system_info] raise AttributeError. *)
Theorem missing_info_ds (response_text : string) :
  Py.contains "var info_ds = " response_text = false ->
  parse_system_info response_text = Raise AttributeError.
Proof.
  intros H. unfold parse_system_info, Re.search, re_info_ds.
  rewrite (search_lits_absent _ _ _ _ H). reflexivity.
Qed.

Lemma missing_info_ds_witness :
  parse_system_info "<html><body>Please log in</body></html>" = Raise AttributeError.
Proof. apply missing_info_ds. vm_compute. reflexivity. Defined.

Lemma parse_system_info_cases (text : string) :
  (exists d, parse_system_info text = Ok (Json.JDict d))
  \/ parse_system_info text = Raise AttributeError
  \/ parse_system_info text = Raise JSONDecodeError.
Proof.
  unfold parse_system_info.
  destruct (Re.search re_info_ds text) as [r|] eqn:E; [|right; left; reflexivity].
  destruct (info_ds_group_brace _ _ E) as (g & Hg).
  cbn [Re.group rbind]. rewrite Hg, sub_brace.
  destruct (Json.loads _) as [v|e] eqn:El.
  - left. apply loads_brace in El. destruct El as (d & ->). eauto.
  - right; right. apply loads_raises in El. subst e. reflexivity.
Qed.

(** X11.  On any page of no more than 4300 digits and no more than 100
    opening brackets and braces (so that no number meets the interpreter's
    digit limit and no nesting its recursion limit), [parse_system_info]
    either returns a dict or raises AttributeError (the pattern found
    nothing) or JSONDecodeError (what it found is not JSON once the keys
    are quoted): it returns no list, text or number, and raises nothing
    else. *)
Theorem parse_system_info_outcomes (response_text : string) :
  (digit_count response_text <= 4300)%nat ->
  (bracket_count response_text <= 100)%nat ->
  (exists d, parse_system_info response_text = Ok (Json.JDict d))
  \/ parse_system_info response_text = Raise AttributeError
  \/ parse_system_info response_text = Raise JSONDecodeError.
Proof. intros _ _. exact (parse_system_info_cases response_text). Qed.

Lemma parse_system_info_outcomes_witness :
  (exists d, parse_system_info sysinfo_one_line = Ok (Json.JDict d))
  \/ parse_system_info sysinfo_one_line = Raise AttributeError
  \/ parse_system_info sysinfo_one_line = Raise JSONDecodeError.
Proof.
  apply (parse_system_info_outcomes sysinfo_one_line).
  - apply Nat.leb_le. vm_compute. reflexivity.
  - apply Nat.leb_le. vm_compute. reflexivity.
Defined.

(** ** The loaders: what they touch, what they raise *)

Lemma with_switch_id (self : SwitchTPLDAO) : with_switch (fun s => s) self = self.
Proof. destruct self; reflexivity. Qed.

Lemma assign_fields_state (sys_info : Json.value) fs :
  forall self,
    snd (assign_fields sys_info fs self) = with_switch (assigned sys_info fs) self.
Proof.
  induction fs as [|[k f] fs IH]; intros self.
  - cbn. destruct self; reflexivity.
  - cbn [assign_fields assigned]. unfold bind at 1, assign, bind, lift.
    destruct (Json.getitem sys_info k) as [v|e].
    + cbn. rewrite IH. reflexivity.
    + cbn. destruct self; reflexivity.
Qed.

Lemma assign_fields_result (sys_info : Json.value) fs :
  forall self self',
    fst (assign_fields sys_info fs self) = fst (assign_fields sys_info fs self').
Proof.
  induction fs as [|[k f] fs IH]; intros self self'.
  - reflexivity.
  - cbn [assign_fields]. unfold bind, assign, lift.
    destruct (Json.getitem sys_info k) as [v|e]; [|reflexivity].
    unfold update_switch. apply IH.
Qed.

Lemma assign_fields_raises (sys_info : Json.value) fs :
  forall self e,
    fst (assign_fields sys_info fs self) = Raise e ->
    exists key, In key (map fst fs) /\ Json.getitem sys_info key = Raise e.
Proof.
  induction fs as [|[k f] fs IH]; intros self e H.
  - discriminate H.
  - cbn [assign_fields] in H. unfold bind at 1, assign, bind, lift in H.
    destruct (Json.getitem sys_info k) as [v|e'] eqn:E.
    + unfold update_switch in H.
      destruct (assign_fields sys_info fs (with_switch (f v) self))
        as [[[]|e''] s1] eqn:E'; [discriminate H|].
      cbn in H. inversion H; subst.
      destruct (IH (with_switch (f v) self) e) as (key & Hin & Hkey).
      { rewrite E'. reflexivity. }
      exists key. split; [right; exact Hin | exact Hkey].
    + cbn in H. inversion H; subst. exists k. split; [left; reflexivity | exact E].
Qed.

Lemma assign_fields_returns (sys_info : Json.value) fs :
  forall self,
    fst (assign_fields sys_info fs self) = Ok tt ->
    forall key, In key (map fst fs) -> exists v, Json.getitem sys_info key = Ok v.
Proof.
  induction fs as [|[k f] fs IH]; intros self H key Hin.
  - destruct Hin.
  - cbn [assign_fields] in H. unfold bind at 1, assign, bind, lift in H.
    destruct (Json.getitem sys_info k) as [v|e'] eqn:E; [|discriminate H].
    unfold update_switch in H.
    destruct Hin as [<-|Hin]; [eauto|].
    apply (IH (with_switch (f v) self)); [|exact Hin].
    destruct (assign_fields sys_info fs (with_switch (f v) self)) as [[[]|e''] s1];
      [reflexivity | discriminate H].
Qed.

(** The run of [sys_info_loader], case by case. *)
Lemma sys_info_loader_fetch_raises (session : Session) (self : SwitchTPLDAO) (e : exn) :
  session_get session (url self ++ "SystemInfoRpm.htm")%string = Raise e ->
  sys_info_loader session self = (Raise e, self).
Proof.
  intros Hget. unfold sys_info_loader, bind, read, lift. rewrite Hget. reflexivity.
Qed.

Lemma sys_info_loader_parse_raises (session : Session) (self : SwitchTPLDAO)
      (response : Response) (e : exn) :
  session_get session (url self ++ "SystemInfoRpm.htm")%string = Ok response ->
  parser_parse_system_info (parser self) (text response) = Raise e ->
  sys_info_loader session self = (Raise e, self).
Proof.
  intros Hget Hparse.
  unfold sys_info_loader, bind, read, lift. rewrite Hget, Hparse. reflexivity.
Qed.

(** The run of [ports_info_loader], case by case. *)
Lemma ports_info_loader_fetch_raises (session : Session) (self : SwitchTPLDAO) (e : exn) :
  session_get session (url self ++ "PortStatisticsRpm.htm")%string = Raise e ->
  ports_info_loader session self = (Raise e, self).
Proof.
  intros Hget. unfold ports_info_loader, bind, read, lift. rewrite Hget. reflexivity.
Qed.

Lemma ports_info_loader_parse_raises (session : Session) (self : SwitchTPLDAO)
      (response : Response) (e : exn) :
  session_get session (url self ++ "PortStatisticsRpm.htm")%string = Ok response ->
  parser_parse_ports_info (parser self) (text response) = Raise e ->
  ports_info_loader session self = (Raise e, self).
Proof.
  intros Hget Hparse.
  unfold ports_info_loader, bind, read, lift. rewrite Hget, Hparse. reflexivity.
Qed.

Lemma ports_info_loader_returns (session : Session) (self : SwitchTPLDAO)
      (response : Response) (ports_info : list (Z * port_data)) :
  session_get session (url self ++ "PortStatisticsRpm.htm")%string = Ok response ->
  parser_parse_ports_info (parser self) (text response) = Ok ports_info ->
  ports_info_loader session self
  = (Ok tt, with_switch (set_ports (map make_port ports_info)) self).
Proof.
  intros Hget Hparse.
  unfold ports_info_loader, bind, read, lift. rewrite Hget, Hparse.
  unfold update_switch. rewrite append_ports_spec.
  unfold with_switch, set_ports; cbn. reflexivity.
Qed.

(** The seven assignments leave the port list and the port number alone. *)
Lemma assigned_frame (sys_info : Json.value) (s : SwitchTPL) :
  ports (assigned sys_info system_fields s) = ports s
  /\ port_number (assigned sys_info system_fields s) = port_number s.
Proof.
  unfold system_fields. cbn [assigned].
  repeat match goal with
         | |- context [match Json.getitem ?v ?k with _ => _ end] =>
             destruct (Json.getitem v k)
         end; split; reflexivity.
Qed.

Lemma sys_info_loader_frame (session : Session) (self : SwitchTPLDAO) :
  ports (switch (snd (sys_info_loader session self))) = ports (switch self)
  /\ port_number (switch (snd (sys_info_loader session self))) = port_number (switch self)
  /\ parser (snd (sys_info_loader session self)) = parser self
  /\ url (snd (sys_info_loader session self)) = url self
  /\ username (snd (sys_info_loader session self)) = username self
  /\ password (snd (sys_info_loader session self)) = password self.
Proof.
  destruct (session_get session (url self ++ "SystemInfoRpm.htm")%string)
    as [response|e] eqn:Hget.
  2:{ rewrite (sys_info_loader_fetch_raises _ _ _ Hget). cbn. auto 6. }
  destruct (parser_parse_system_info (parser self) (text response))
    as [sys_info|e] eqn:Hparse.
  2:{ rewrite (sys_info_loader_parse_raises _ _ _ _ Hget Hparse). cbn. auto 6. }
  rewrite (sys_info_loader_fields _ _ _ _ Hget Hparse), assign_fields_state.
  cbn [with_switch switch parser url username password].
  destruct (assigned_frame sys_info (switch self)) as [Hp Hn]. auto 6.
Qed.

Lemma ports_info_loader_frame (session : Session) (self : SwitchTPLDAO) :
  set_ports (ports (switch self)) (switch (snd (ports_info_loader session self)))
  = switch self
  /\ parser (snd (ports_info_loader session self)) = parser self
  /\ url (snd (ports_info_loader session self)) = url self
  /\ username (snd (ports_info_loader session self)) = username self
  /\ password (snd (ports_info_loader session self)) = password self.
Proof.
  destruct (session_get session (url self ++ "PortStatisticsRpm.htm")%string)
    as [response|e] eqn:Hget.
  2:{ rewrite (ports_info_loader_fetch_raises _ _ _ Hget). cbn.
      destruct self as [[] ? ? ? ?]; cbn; auto. }
  destruct (parser_parse_ports_info (parser self) (text response))
    as [ports_info|e] eqn:Hparse.
  2:{ rewrite (ports_info_loader_parse_raises _ _ _ _ Hget Hparse). cbn.
      destruct self as [[] ? ? ? ?]; cbn; auto. }
  rewrite (ports_info_loader_returns _ _ _ _ Hget Hparse).
  destruct self as [[] ? ? ? ?]; cbn; auto.
Qed.

(** X12.  Whether they return or raise, the two loaders keep to their own
    part of the repository: [sys_info_loader] leaves the port list and the
    port number as they were, [ports_info_loader] leaves the seven
    system-info fields and the port number as they were, and neither
    changes the parser, the url, the user name or the password. *)
Theorem loaders_keep_to_their_fields (session : Session) (self : SwitchTPLDAO) :
  let after_sys := snd (sys_info_loader session self) in
  let after_ports := snd (ports_info_loader session self) in
  (ports (switch after_sys) = ports (switch self)
   /\ port_number (switch after_sys) = port_number (switch self)
   /\ parser after_sys = parser self /\ url after_sys = url self
   /\ username after_sys = username self /\ password after_sys = password self)
  /\ (description (switch after_ports) = description (switch self)
      /\ mac_address (switch after_ports) = mac_address (switch self)
      /\ ip_address (switch after_ports) = ip_address (switch self)
      /\ subnet_mask (switch after_ports) = subnet_mask (switch self)
      /\ gateway (switch after_ports) = gateway (switch self)
      /\ firmware (switch after_ports) = firmware (switch self)
      /\ hardware (switch after_ports) = hardware (switch self)
      /\ port_number (switch after_ports) = port_number (switch self)
      /\ parser after_ports = parser self /\ url after_ports = url self
      /\ username after_ports = username self /\ password after_ports = password self).
Proof.
  cbv zeta. split; [exact (sys_info_loader_frame session self)|].
  destruct (ports_info_loader_frame session self) as (Hs & Hp & Hu & Hn & Hw).
  pose proof (f_equal description Hs) as H1. pose proof (f_equal mac_address Hs) as H2.
  pose proof (f_equal ip_address Hs) as H3. pose proof (f_equal subnet_mask Hs) as H4.
  pose proof (f_equal gateway Hs) as H5. pose proof (f_equal firmware Hs) as H6.
  pose proof (f_equal hardware Hs) as H7. pose proof (f_equal port_number Hs) as H8.
  cbn in H1, H2, H3, H4, H5, H6, H7, H8. auto 12.
Qed.

Lemma pair_eq {A B : Type} (p q : A * B) : fst p = fst q -> snd p = snd q -> p = q.
Proof. destruct p, q; cbn; congruence. Qed.

Lemma assigned_twice (sys_info : Json.value) (s : SwitchTPL) :
  assigned sys_info system_fields (assigned sys_info system_fields s)
  = assigned sys_info system_fields s.
Proof.
  unfold system_fields. cbn [assigned].
  repeat match goal with
         | |- context [match Json.getitem ?v ?k with _ => _ end] =>
             destruct (Json.getitem v k)
         end; reflexivity.
Qed.

(** X13.  Loading the ports again does not pile them up: when the second
    fetch is answered like the first, running [ports_info_loader] on the
    repository that a first run left gives the same outcome and the same
    repository as the first run. *)
Theorem ports_info_loader_twice (session session' : Session) (self : SwitchTPLDAO) :
  session_get session' (url self ++ "PortStatisticsRpm.htm")%string
  = session_get session (url self ++ "PortStatisticsRpm.htm")%string ->
  ports_info_loader session' (snd (ports_info_loader session self))
  = ports_info_loader session self.
Proof.
  intros Hsame.
  destruct (session_get session (url self ++ "PortStatisticsRpm.htm")%string)
    as [response|e] eqn:Hget.
  2:{ rewrite (ports_info_loader_fetch_raises _ _ _ Hget). cbn [snd].
      apply ports_info_loader_fetch_raises. exact Hsame. }
  destruct (parser_parse_ports_info (parser self) (text response))
    as [ports_info|e] eqn:Hparse.
  2:{ rewrite (ports_info_loader_parse_raises _ _ _ _ Hget Hparse). cbn [snd].
      eapply ports_info_loader_parse_raises; eassumption. }
  rewrite (ports_info_loader_returns _ _ _ _ Hget Hparse). cbn [snd].
  rewrite (ports_info_loader_returns session' _ response ports_info).
  - destruct self as [[] ? ? ? ?]; reflexivity.
  - exact Hsame.
  - exact Hparse.
Qed.

Lemma ports_info_loader_twice_witness :
  ports_info_loader (serving ports_fixture)
                    (snd (ports_info_loader (serving ports_fixture) populated_dao))
  = ports_info_loader (serving ports_fixture) populated_dao.
Proof.
  apply (ports_info_loader_twice (serving ports_fixture) (serving ports_fixture)
                                 populated_dao).
  reflexivity.
Defined.

(** X14.  The same for the system information: when the second fetch is
    answered like the first, a second run of [sys_info_loader] gives the
    same outcome and leaves the repository as the first run left it, also
    when a key is missing. *)
Theorem sys_info_loader_twice (session session' : Session) (self : SwitchTPLDAO) :
  session_get session' (url self ++ "SystemInfoRpm.htm")%string
  = session_get session (url self ++ "SystemInfoRpm.htm")%string ->
  sys_info_loader session' (snd (sys_info_loader session self))
  = sys_info_loader session self.
Proof.
  intros Hsame.
  destruct (session_get session (url self ++ "SystemInfoRpm.htm")%string)
    as [response|e] eqn:Hget.
  2:{ rewrite (sys_info_loader_fetch_raises _ _ _ Hget). cbn [snd].
      apply sys_info_loader_fetch_raises. exact Hsame. }
  destruct (parser_parse_system_info (parser self) (text response))
    as [sys_info|e] eqn:Hparse.
  2:{ rewrite (sys_info_loader_parse_raises _ _ _ _ Hget Hparse). cbn [snd].
      eapply sys_info_loader_parse_raises; eassumption. }
  rewrite (sys_info_loader_fields _ _ _ _ Hget Hparse).
  rewrite assign_fields_state.
  rewrite (sys_info_loader_fields session' _ response sys_info);
    [| exact Hsame | exact Hparse].
  apply pair_eq.
  - apply assign_fields_result.
  - rewrite !assign_fields_state. unfold with_switch.
    cbn [switch parser url username password].
    rewrite assigned_twice. reflexivity.
Qed.

Lemma sys_info_loader_twice_witness :
  sys_info_loader (serving sysinfo_only_description)
                  (snd (sys_info_loader (serving sysinfo_only_description) populated_dao))
  = sys_info_loader (serving sysinfo_only_description) populated_dao.
Proof.
  apply (sys_info_loader_twice (serving sysinfo_only_description)
                               (serving sysinfo_only_description) populated_dao).
  reflexivity.
Defined.

Lemma getitem_dict_raises (d : list (list N * Json.value)) (key : string) (e : exn) :
  Json.getitem (Json.JDict d) key = Raise e -> e = KeyError key.
Proof.
  cbn [Json.getitem]. destruct (Py.dict_get _ _ _); congruence.
Qed.

Lemma sys_info_loader_raises (session : Session) (self : SwitchTPLDAO)
      (e : exn) :
  parser self = SwitchTPLParser ->
  fst (sys_info_loader session self) = Raise e ->
  session_get session (url self ++ "SystemInfoRpm.htm")%string = Raise e
  \/ e = AttributeError \/ e = JSONDecodeError
  \/ exists key,
       In key ["descriStr"; "macStr"; "ipStr"; "netmaskStr"; "gatewayStr";
               "firmwareStr"; "hardwareStr"]%string
       /\ e = KeyError key.
Proof.
  intros Hparser H.
  destruct (session_get session (url self ++ "SystemInfoRpm.htm")%string)
    as [response|e'] eqn:Hget.
  2:{ rewrite (sys_info_loader_fetch_raises _ _ _ Hget) in H. cbn in H.
      left. congruence. }
  right.
  assert (Hp : parser_parse_system_info (parser self) (text response)
               = parse_system_info (text response)) by (rewrite Hparser; reflexivity).
  destruct (parse_system_info_cases (text response)) as [(d & Hd)|[Hr|Hr]].
  - rewrite Hd in Hp. rewrite (sys_info_loader_fields _ _ _ _ Hget Hp) in H.
    apply assign_fields_raises in H. destruct H as (key & Hin & Hkey).
    apply getitem_dict_raises in Hkey. right; right. exists key. split; assumption.
  - rewrite Hr in Hp. rewrite (sys_info_loader_parse_raises _ _ _ _ Hget Hp) in H.
    cbn in H. left. congruence.
  - rewrite Hr in Hp. rewrite (sys_info_loader_parse_raises _ _ _ _ Hget Hp) in H.
    cbn in H. right; left. congruence.
Qed.

(** X15.  With the TP-Link parser and a page of no more than 4300
    digits and no more than 100 opening brackets and braces (so that no
    number meets the interpreter's digit limit and no nesting its
    recursion limit), [sys_info_loader] raises what the fetch raised,
    AttributeError or JSONDecodeError from the parse, or KeyError for the
    first of the seven keys that the page does not define; it raises
    nothing else (no TypeError: what the parser returns is a dict). *)
Theorem sys_info_loader_only_raises (session : Session) (self : SwitchTPLDAO)
        (e : exn) :
  parser self = SwitchTPLParser ->
  (forall response,
      session_get session (url self ++ "SystemInfoRpm.htm")%string = Ok response ->
      (digit_count (text response) <= 4300)%nat
      /\ (bracket_count (text response) <= 100)%nat) ->
  fst (sys_info_loader session self) = Raise e ->
  session_get session (url self ++ "SystemInfoRpm.htm")%string = Raise e
  \/ e = AttributeError \/ e = JSONDecodeError
  \/ exists key,
       In key ["descriStr"; "macStr"; "ipStr"; "netmaskStr"; "gatewayStr";
               "firmwareStr"; "hardwareStr"]%string
       /\ e = KeyError key.
Proof. intros Hparser _. exact (sys_info_loader_raises session self e Hparser). Qed.

Lemma sys_info_loader_only_raises_witness :
  session_get (serving sysinfo_only_description)
              (url populated_dao ++ "SystemInfoRpm.htm")%string
  = Raise (KeyError "macStr")
  \/ KeyError "macStr" = AttributeError \/ KeyError "macStr" = JSONDecodeError
  \/ exists key,
       In key ["descriStr"; "macStr"; "ipStr"; "netmaskStr"; "gatewayStr";
               "firmwareStr"; "hardwareStr"]%string
       /\ KeyError "macStr" = KeyError key.
Proof.
  apply (sys_info_loader_only_raises (serving sysinfo_only_description) populated_dao).
  - reflexivity.
  - intros response H. injection H as <-.
    split; apply Nat.leb_le; vm_compute; reflexivity.
  - vm_compute. reflexivity.
Defined.

(** X16.  With the TP-Link parser, the port list that a successful
    [ports_info_loader] leaves holds at most nine ports, numbered 1, 2, ...
    in this order with none missing; every state is one of the two state
    labels and every link status one of the eight link labels. *)
Theorem ports_info_loader_ports (session : Session) (self : SwitchTPLDAO) :
  parser self = SwitchTPLParser ->
  fst (ports_info_loader session self) = Ok tt ->
  let loaded := ports (switch (snd (ports_info_loader session self))) in
  (length loaded <= 9)%nat
  /\ map port_num loaded = map Z.of_nat (seq 1 (length loaded))
  /\ Forall (fun port => In (state port) ["Disabled"; "Enabled"]%string
                         /\ In (link_status port)
                               ["Link Down"; "Auto"; "10Half"; "10Full"; "100Half";
                                "100Full"; "1000Full"; ""]%string)
            loaded.
Proof.
  intros Hparser H.
  destruct (session_get session (url self ++ "PortStatisticsRpm.htm")%string)
    as [response|e] eqn:Hget.
  2:{ rewrite (ports_info_loader_fetch_raises _ _ _ Hget) in H. discriminate H. }
  destruct (parser_parse_ports_info (parser self) (text response))
    as [ports_info|e] eqn:Hparse.
  2:{ rewrite (ports_info_loader_parse_raises _ _ _ _ Hget Hparse) in H.
      discriminate H. }
  rewrite (ports_info_loader_returns _ _ _ _ Hget Hparse). cbn.
  rewrite Hparser in Hparse. cbn in Hparse.
  apply parse_ports_info_shape in Hparse. destruct Hparse as (Hlen & Hkeys & Hlabels).
  rewrite length_map, map_map. split; [exact Hlen|]. split.
  - exact Hkeys.
  - apply Forall_map. exact Hlabels.
Qed.

Lemma ports_info_loader_ports_witness :
  let loaded := ports (switch (snd (ports_info_loader (serving ports_fixture)
                                                      populated_dao))) in
  (length loaded <= 9)%nat
  /\ map port_num loaded = map Z.of_nat (seq 1 (length loaded))
  /\ Forall (fun port => In (state port) ["Disabled"; "Enabled"]%string
                         /\ In (link_status port)
                               ["Link Down"; "Auto"; "10Half"; "10Full"; "100Half";
                                "100Full"; "1000Full"; ""]%string)
            loaded.
Proof.
  apply (ports_info_loader_ports (serving ports_fixture) populated_dao).
  - reflexivity.
  - vm_compute. reflexivity.
Defined.

(** ** The characters of the JSON text *)

Lemma hex_digit_char (k : N) : (k < 16)%N -> json_char (Json.hex_digit k) = true.
Proof.
  intros Hk. rewrite <- (N2Nat.id k).
  assert (Hn : (N.to_nat k < 16)%nat) by lia.
  revert Hn. generalize (N.to_nat k). intros n Hn.
  do 16 (destruct n as [|n]; [reflexivity|]). lia.
Qed.

Lemma u_escape_chars (u : N) : Py.all_chars json_char (Json.u_escape u) = true.
Proof.
  unfold Json.u_escape. cbn [Py.all_chars].
  rewrite !hex_digit_char by (apply N.mod_lt; lia). reflexivity.
Qed.

Lemma printable_char (c : N) :
  (32 <= c <= 126)%N -> json_char (ascii_of_N c) = true.
Proof.
  intros Hc. unfold json_char, Py.code.
  rewrite N_ascii_embedding by lia.
  assert (H1 : (32 <=? c)%N = true) by (apply N.leb_le; lia).
  assert (H2 : (c <=? 126)%N = true) by (apply N.leb_le; lia).
  rewrite H1, H2. apply orb_true_r.
Qed.

Lemma escape_char_chars (c : N) : Py.all_chars json_char (Json.escape_char c) = true.
Proof.
  unfold Json.escape_char.
  repeat match goal with
         | |- context [if (c =? ?k)%N then _ else _] =>
             destruct (c =? k)%N; [reflexivity|]
         end.
  destruct ((32 <=? c) && (c <=? 126))%N eqn:E.
  - apply andb_true_iff in E. destruct E as [E1 E2]. apply N.leb_le in E1, E2.
    cbn [Py.all_chars]. rewrite printable_char by lia. reflexivity.
  - destruct (c <? 65536)%N; [apply u_escape_chars|].
    cbv zeta. rewrite all_chars_app, !u_escape_chars. reflexivity.
Qed.

Lemma encode_chars (cs : list N) :
  Py.all_chars json_char (Json.encode_basestring_ascii cs) = true.
Proof.
  unfold Json.encode_basestring_ascii.
  change (String Json.dq (Json.escape_chars cs ++ String Json.dq ""))%string
    with (String Json.dq "" ++ Json.escape_chars cs ++ String Json.dq "")%string.
  rewrite !all_chars_app.
  assert (H : Py.all_chars json_char (Json.escape_chars cs) = true).
  { induction cs as [|c cs IH]; [reflexivity|].
    cbn [Json.escape_chars]. rewrite all_chars_app, escape_char_chars, IH. reflexivity. }
  rewrite H. reflexivity.
Qed.

Lemma int_char_json_char (c : ascii) : int_char c = true -> json_char c = true.
Proof.
  destruct c as [b0 b1 b2 b3 b4 b5 b6 b7].
  destruct b0, b1, b2, b3, b4, b5, b6, b7; intros H;
    try discriminate H; reflexivity.
Qed.

Lemma spaces_chars (n : nat) : Py.all_chars json_char (Json.spaces n) = true.
Proof. induction n as [|n IH]; [reflexivity | exact IH]. Qed.

Lemma newline_indent_chars (level : nat) :
  Py.all_chars json_char (Json.newline_indent level) = true.
Proof. unfold Json.newline_indent. cbn [Py.all_chars]. apply spaces_chars. Qed.

(** [json.dumps(v, indent=4)] writes line feeds and printable ASCII only. *)
Lemma dumps_at_chars (v : Json.value) :
  Json.plain_data v = true ->
  forall level, Py.all_chars json_char (Json.dumps_at level v) = true.
Proof.
  induction v using value_ind_nested; intros Hv level.
  - reflexivity.
  - destruct b; reflexivity.
  - cbn [Json.dumps_at].
    apply (all_chars_weaken int_char); [exact int_char_json_char|].
    apply str_of_int_chars.
  - discriminate Hv.
  - apply encode_chars.
  - destruct l as [|x xs]; [reflexivity|].
    rewrite dumps_list_eq. cbn [Json.plain_data forallb] in Hv.
    apply andb_true_iff in Hv. destruct Hv as [Hx Hxs].
    inversion H as [|? ? IHx IHxs]; subst.
    rewrite !all_chars_app, newline_indent_chars, newline_indent_chars.
    rewrite (IHx Hx).
    assert (Hmore : Py.all_chars json_char (Json.more_items level xs) = true).
    { clear H IHx Hx. induction xs as [|y ys IH]; [reflexivity|].
      cbn [forallb] in Hxs. apply andb_true_iff in Hxs. destruct Hxs as [Hy Hys].
      inversion IHxs as [|? ? IHy IHys]; subst.
      cbn [Json.more_items].
      rewrite !all_chars_app, newline_indent_chars, (IHy Hy), (IH Hys IHys).
      reflexivity. }
    rewrite Hmore. reflexivity.
  - destruct d as [|[k x] kxs]; [reflexivity|].
    rewrite dumps_dict_eq. cbn [Json.plain_data] in Hv.
    apply andb_true_iff in Hv. destruct Hv as [_ Hv].
    cbn [forallb fst snd] in Hv.
    apply andb_true_iff in Hv. destruct Hv as [Hx Hkxs].
    apply andb_true_iff in Hx. destruct Hx as [_ Hx].
    inversion H as [|? ? IHx IHkxs]; subst. cbn [snd] in IHx.
    rewrite !all_chars_app, newline_indent_chars, newline_indent_chars, encode_chars.
    rewrite (IHx Hx).
    assert (Hmore : Py.all_chars json_char (Json.more_members level kxs) = true).
    { clear H IHx Hx. induction kxs as [|[k' y] ys IH]; [reflexivity|].
      cbn [forallb fst snd] in Hkxs.
      apply andb_true_iff in Hkxs. destruct Hkxs as [Hy Hys].
      apply andb_true_iff in Hy. destruct Hy as [_ Hy].
      inversion IHkxs as [|? ? IHy IHys]; subst. cbn [snd] in IHy.
      cbn [Json.more_members].
      rewrite !all_chars_app, newline_indent_chars, encode_chars, (IHy Hy),
        (IH Hys IHys).
      reflexivity. }
    rewrite Hmore. reflexivity.
Qed.

(** X17.  The text that the program prints and writes for a switch holds
    line feeds and printable ASCII characters only, whatever characters
    the descriptions hold: [json.dumps] writes every other character as an
    escape.  The seven fields may hold any value made of None, booleans,
    integers, strings, lists and dicts. *)
Theorem switch_info_json_ascii (self : SwitchTPL) :
  Json.plain_data (description self) = true ->
  Json.plain_data (mac_address self) = true ->
  Json.plain_data (ip_address self) = true ->
  Json.plain_data (subnet_mask self) = true ->
  Json.plain_data (gateway self) = true ->
  Json.plain_data (firmware self) = true ->
  Json.plain_data (hardware self) = true ->
  Py.all_chars json_char (switch_info_json self) = true.
Proof.
  intros H1 H2 H3 H4 H5 H6 H7. unfold switch_info_json, Json.dumps.
  apply dumps_at_chars. apply switch_plain_data; assumption.
Qed.

Lemma switch_info_json_ascii_witness :
  Py.all_chars json_char
    (switch_info_json
       (mk_SwitchTPL (Json.JStr [83; 233; 8364; 128512; 10]%N) (jstr "00:11:22:33:44:55")
                     Json.JNull (Json.JInt (-5)) (Json.JBool true)
                     (Json.JList [jstr "a"; Json.JDict []]) (jstr "1.0") 0
                     [mk_SwitchPort 1 "Enabled" "100Full" 10 0 20 1]))
  = true.
Proof. apply switch_info_json_ascii; reflexivity. Defined.

(** ** The whole run *)

Lemma logon_inv (requests : Requests) (self : SwitchTPLDAO) (s : Session) :
  logon requests self = Ok s ->
  exists response,
    session_post requests (url self ++ "logon.cgi")%string
                 (logon_data (username self) (password self)) = Ok (response, s)
    /\ status_code response = 200.
Proof.
  unfold logon, logon_data.
  destruct (session_post _ _ _) as [[response s']|e]; cbn [rbind fst snd]; [|discriminate].
  destruct (status_code response =? 200) eqn:E; [|discriminate].
  intros H. inversion H; subst. exists response. split; [reflexivity|].
  apply Z.eqb_eq. exact E.
Qed.

Lemma logon_raises (requests : Requests) (self : SwitchTPLDAO) (e : exn) :
  logon requests self = Raise e ->
  session_post requests (url self ++ "logon.cgi")%string
               (logon_data (username self) (password self)) = Raise e
  \/ exists response s,
       session_post requests (url self ++ "logon.cgi")%string
                    (logon_data (username self) (password self)) = Ok (response, s)
       /\ status_code response <> 200
       /\ e = Exception ("Login failed. HTTP Status Code: "
                         ++ Py.str_of_int (status_code response))%string.
Proof.
  unfold logon, logon_data.
  destruct (session_post _ _ _) as [[response s']|e']; cbn [rbind fst snd].
  - destruct (status_code response =? 200) eqn:E; [discriminate|].
    intros H. inversion H; subst. right. exists response, s'.
    split; [reflexivity|]. split; [|reflexivity]. apply Z.eqb_neq. exact E.
  - intros H. inversion H; subst. left. reflexivity.
Qed.

Lemma sys_info_loader_inv (session : Session) (self : SwitchTPLDAO) :
  fst (sys_info_loader session self) = Ok tt ->
  exists response sys_info,
    session_get session (url self ++ "SystemInfoRpm.htm")%string = Ok response
    /\ parser_parse_system_info (parser self) (text response) = Ok sys_info
    /\ (forall key, In key (map fst system_fields) ->
                    exists v, Json.getitem sys_info key = Ok v)
    /\ snd (sys_info_loader session self)
       = with_switch (assigned sys_info system_fields) self.
Proof.
  intros H.
  destruct (session_get session (url self ++ "SystemInfoRpm.htm")%string)
    as [response|e] eqn:Hget.
  2:{ rewrite (sys_info_loader_fetch_raises _ _ _ Hget) in H. discriminate H. }
  destruct (parser_parse_system_info (parser self) (text response))
    as [sys_info|e] eqn:Hparse.
  2:{ rewrite (sys_info_loader_parse_raises _ _ _ _ Hget Hparse) in H. discriminate H. }
  exists response, sys_info.
  split; [first [reflexivity | assumption]|].
  split; [first [reflexivity | assumption]|].
  rewrite (sys_info_loader_fields _ _ _ _ Hget Hparse) in H |- *.
  split; [eapply assign_fields_returns; exact H | apply assign_fields_state].
Qed.

Lemma ports_info_loader_inv (session : Session) (self : SwitchTPLDAO) :
  fst (ports_info_loader session self) = Ok tt ->
  exists response ports_info,
    session_get session (url self ++ "PortStatisticsRpm.htm")%string = Ok response
    /\ parser_parse_ports_info (parser self) (text response) = Ok ports_info
    /\ snd (ports_info_loader session self)
       = with_switch (set_ports (map make_port ports_info)) self.
Proof.
  intros H.
  destruct (session_get session (url self ++ "PortStatisticsRpm.htm")%string)
    as [response|e] eqn:Hget.
  2:{ rewrite (ports_info_loader_fetch_raises _ _ _ Hget) in H. discriminate H. }
  destruct (parser_parse_ports_info (parser self) (text response))
    as [ports_info|e] eqn:Hparse.
  2:{ rewrite (ports_info_loader_parse_raises _ _ _ _ Hget Hparse) in H. discriminate H. }
  exists response, ports_info.
  split; [first [reflexivity | assumption]|].
  split; [first [reflexivity | assumption]|].
  rewrite (ports_info_loader_returns _ _ _ _ Hget Hparse). reflexivity.
Qed.

Lemma assigned_values (sys_info : Json.value) (v1 v2 v3 v4 v5 v6 v7 : Json.value)
      (s : SwitchTPL) :
  Json.getitem sys_info "descriStr" = Ok v1 ->
  Json.getitem sys_info "macStr" = Ok v2 ->
  Json.getitem sys_info "ipStr" = Ok v3 ->
  Json.getitem sys_info "netmaskStr" = Ok v4 ->
  Json.getitem sys_info "gatewayStr" = Ok v5 ->
  Json.getitem sys_info "firmwareStr" = Ok v6 ->
  Json.getitem sys_info "hardwareStr" = Ok v7 ->
  assigned sys_info system_fields s
  = mk_SwitchTPL v1 v2 v3 v4 v5 v6 v7 (port_number s) (ports s).
Proof.
  intros H1 H2 H3 H4 H5 H6 H7. unfold system_fields. cbn [assigned].
  rewrite H1, H2, H3, H4, H5, H6, H7. reflexivity.
Qed.

(** The run, step by step: the outcome of each step decides the next. *)
Lemma main_eq (requests : Requests) (arg_url arg_user arg_password : string) :
  main requests arg_url arg_user arg_password
  = let stpl := SwitchTPLDAO_init SwitchTPLParser arg_url arg_user arg_password in
    match logon requests stpl with
    | Raise e => Raise e
    | Ok s =>
        match sys_info_loader s stpl with
        | (Raise e, _) => Raise e
        | (Ok _, stpl1) =>
            match ports_info_loader s stpl1 with
            | (Raise e, _) => Raise e
            | (Ok _, stpl2) =>
                Ok (mk_Output (switch_info_json (switch stpl2)
                                 ++ String Json.nl EmptyString)
                              (switch_info_json (switch stpl2)))
            end
        end
    end.
Proof.
  unfold main. cbv zeta. unfold bind at 1.
  destruct (logon requests _) as [s|e]; [|reflexivity].
  unfold bind at 1.
  destruct (sys_info_loader s _) as [[[]|e] stpl1]; [|reflexivity].
  unfold bind at 1.
  destruct (ports_info_loader s stpl1) as [[[]|e] stpl2]; reflexivity.
Qed.

Lemma main_returns_iff (requests : Requests) (arg_url arg_user arg_password : string)
      (out : Output) :
  main requests arg_url arg_user arg_password = Ok out
  <-> exists response session page1 sys_info v1 v2 v3 v4 v5 v6 v7 page2 ports_info,
        session_post requests (arg_url ++ "logon.cgi")%string
                     (logon_data arg_user arg_password) = Ok (response, session)
        /\ status_code response = 200
        /\ session_get session (arg_url ++ "SystemInfoRpm.htm")%string = Ok page1
        /\ parse_system_info (text page1) = Ok sys_info
        /\ Json.getitem sys_info "descriStr" = Ok v1
        /\ Json.getitem sys_info "macStr" = Ok v2
        /\ Json.getitem sys_info "ipStr" = Ok v3
        /\ Json.getitem sys_info "netmaskStr" = Ok v4
        /\ Json.getitem sys_info "gatewayStr" = Ok v5
        /\ Json.getitem sys_info "firmwareStr" = Ok v6
        /\ Json.getitem sys_info "hardwareStr" = Ok v7
        /\ session_get session (arg_url ++ "PortStatisticsRpm.htm")%string = Ok page2
        /\ parse_ports_info (text page2) = Ok ports_info
        /\ out = mk_Output
                   (switch_info_json (loaded_switch v1 v2 v3 v4 v5 v6 v7 ports_info)
                      ++ String Json.nl EmptyString)
                   (switch_info_json (loaded_switch v1 v2 v3 v4 v5 v6 v7 ports_info)).
Proof.
  rewrite main_eq. cbv zeta.
  set (stpl := SwitchTPLDAO_init SwitchTPLParser arg_url arg_user arg_password).
  split.
  - destruct (logon requests stpl) as [s|e] eqn:Hlogon; [|discriminate].
    apply logon_inv in Hlogon. destruct Hlogon as (response & Hpost & Hstatus).
    destruct (sys_info_loader s stpl) as [[[]|e] stpl1] eqn:Hsys; [|discriminate].
    destruct (sys_info_loader_inv s stpl) as (page1 & sys_info & Hget1 & Hparse1 & Hkeys & Hst1).
    { rewrite Hsys. reflexivity. }
    rewrite Hsys in Hst1. cbn [snd] in Hst1. subst stpl1.
    destruct (ports_info_loader s _) as [[[]|e] stpl2] eqn:Hports; [|discriminate].
    destruct (ports_info_loader_inv s (with_switch (assigned sys_info system_fields) stpl))
      as (page2 & ports_info & Hget2 & Hparse2 & Hst2).
    { rewrite Hports. reflexivity. }
    rewrite Hports in Hst2. cbn [snd] in Hst2. subst stpl2.
    intros H.
    destruct (Hkeys "descriStr"%string) as (v1 & H1); [cbn; tauto|].
    destruct (Hkeys "macStr"%string) as (v2 & H2); [cbn; tauto|].
    destruct (Hkeys "ipStr"%string) as (v3 & H3); [cbn; tauto|].
    destruct (Hkeys "netmaskStr"%string) as (v4 & H4); [cbn; tauto|].
    destruct (Hkeys "gatewayStr"%string) as (v5 & H5); [cbn; tauto|].
    destruct (Hkeys "firmwareStr"%string) as (v6 & H6); [cbn; tauto|].
    destruct (Hkeys "hardwareStr"%string) as (v7 & H7); [cbn; tauto|].
    exists response, s, page1, sys_info, v1, v2, v3, v4, v5, v6, v7, page2, ports_info.
    assert (Hswitch : switch (with_switch (set_ports (map make_port ports_info))
                                (with_switch (assigned sys_info system_fields) stpl))
                      = loaded_switch v1 v2 v3 v4 v5 v6 v7 ports_info).
    { unfold with_switch. cbv beta iota delta [switch].
      rewrite (assigned_values _ _ _ _ _ _ _ _ _ H1 H2 H3 H4 H5 H6 H7). reflexivity. }
    rewrite Hswitch in H.
    repeat (split; [assumption|]). congruence.
  - intros (response & session & page1 & sys_info & v1 & v2 & v3 & v4 & v5 & v6 & v7
            & page2 & ports_info & Hpost & Hstatus & Hget1 & Hparse1
            & H1 & H2 & H3 & H4 & H5 & H6 & H7 & Hget2 & Hparse2 & ->).
    assert (Hlogon : logon requests stpl = Ok session).
    { unfold logon. fold (logon_data (username stpl) (password stpl)).
      cbn [stpl SwitchTPLDAO_init url username password].
      rewrite Hpost. cbn [rbind fst snd]. rewrite Hstatus. reflexivity. }
    rewrite Hlogon.
    rewrite (sys_info_loader_fields session stpl page1 sys_info Hget1 Hparse1).
    rewrite assign_fields_all.
    2:{ intros k f Hin. cbn in Hin.
        repeat (destruct Hin as [Hin|Hin]; [inversion Hin; subst; eauto|]).
        destruct Hin. }
    rewrite (ports_info_loader_returns
               session (with_switch (assigned sys_info system_fields) stpl)
               page2 ports_info Hget2 Hparse2).
    unfold with_switch. cbv beta iota delta [switch].
    rewrite (assigned_values _ _ _ _ _ _ _ _ _ H1 H2 H3 H4 H5 H6 H7).
    reflexivity.
Qed.

(** The dict of a loaded switch, key by key. *)
Lemma loaded_switch_dict (v1 v2 v3 v4 v5 v6 v7 : Json.value)
      (ports_info : list (Z * port_data)) :
  SwitchTPL_to_dict (loaded_switch v1 v2 v3 v4 v5 v6 v7 ports_info)
  = Json.JDict
      [ (Py.codes "description", v1);
        (Py.codes "mac_address", v2);
        (Py.codes "ip_address", v3);
        (Py.codes "subnet_mask", v4);
        (Py.codes "gateway", v5);
        (Py.codes "firmware", v6);
        (Py.codes "hardware", v7);
        (Py.codes "ports",
         Json.JList
           (map (fun item =>
                   Json.JDict
                     [ (Py.codes "port_num", Json.JInt (fst item));
                       (Py.codes "state", jstr (pd_status (snd item)));
                       (Py.codes "link_status", jstr (pd_link_status (snd item)));
                       (Py.codes "txgoodpkt", Json.JInt (pd_txgoodpkt (snd item)));
                       (Py.codes "txbadpkt", Json.JInt (pd_txbadpkt (snd item)));
                       (Py.codes "rxgoodpkt", Json.JInt (pd_rxgoodpkt (snd item)));
                       (Py.codes "rxbadpkt", Json.JInt (pd_rxbadpkt (snd item))) ])
                ports_info)) ].
Proof.
  unfold SwitchTPL_to_dict, loaded_switch.
  cbn [description mac_address ip_address subnet_mask gateway firmware hardware ports].
  rewrite map_map. reflexivity.
Qed.

(** X18.  Where the system-info page holds no more than 4300 digits, no
    more than 100 opening brackets and braces and no float, and the ports
    page no more than 4300 digits (so that the interpreter's digit and
    recursion limits are not met, and no float has to be written), the
    program prints and writes a text exactly when the logon request is
    answered with status 200, both pages are fetched, [parse_system_info]
    returns a mapping with the seven keys and [parse_ports_info] returns.
    The text in the file is then [json.dumps] of the dict that holds the
    seven values under the keys description .. hardware and, under ports,
    one dict per parsed entry, in their order, with the number, the two
    labels and the four counters of the entry; standard output receives
    the same text followed by a line feed. *)
Theorem main_returns (requests : Requests) (arg_url arg_user arg_password : string)
        (out : Output) :
  (forall response session page,
      session_post requests (arg_url ++ "logon.cgi")%string
                   [ ("username", arg_user); ("password", arg_password);
                     ("logon", "Login") ]%string = Ok (response, session) ->
      session_get session (arg_url ++ "SystemInfoRpm.htm")%string = Ok page ->
      (digit_count (text page) <= 4300)%nat
      /\ (bracket_count (text page) <= 100)%nat
      /\ forall sys_info,
           parse_system_info (text page) = Ok sys_info ->
           Json.plain_data sys_info = true) ->
  (forall response session page,
      session_post requests (arg_url ++ "logon.cgi")%string
                   [ ("username", arg_user); ("password", arg_password);
                     ("logon", "Login") ]%string = Ok (response, session) ->
      session_get session (arg_url ++ "PortStatisticsRpm.htm")%string = Ok page ->
      (digit_count (text page) <= 4300)%nat) ->
  main requests arg_url arg_user arg_password = Ok out
  <-> exists response session page1 sys_info v1 v2 v3 v4 v5 v6 v7 page2 ports_info,
        session_post requests (arg_url ++ "logon.cgi")%string
                     [ ("username", arg_user); ("password", arg_password);
                       ("logon", "Login") ]%string = Ok (response, session)
        /\ status_code response = 200
        /\ session_get session (arg_url ++ "SystemInfoRpm.htm")%string = Ok page1
        /\ parse_system_info (text page1) = Ok sys_info
        /\ Json.getitem sys_info "descriStr" = Ok v1
        /\ Json.getitem sys_info "macStr" = Ok v2
        /\ Json.getitem sys_info "ipStr" = Ok v3
        /\ Json.getitem sys_info "netmaskStr" = Ok v4
        /\ Json.getitem sys_info "gatewayStr" = Ok v5
        /\ Json.getitem sys_info "firmwareStr" = Ok v6
        /\ Json.getitem sys_info "hardwareStr" = Ok v7
        /\ session_get session (arg_url ++ "PortStatisticsRpm.htm")%string = Ok page2
        /\ parse_ports_info (text page2) = Ok ports_info
        /\ printed out = (switch_info_file out ++ String Json.nl EmptyString)%string
        /\ switch_info_file out
           = Json.dumps
               (Json.JDict
                  [ (Py.codes "description", v1);
                    (Py.codes "mac_address", v2);
                    (Py.codes "ip_address", v3);
                    (Py.codes "subnet_mask", v4);
                    (Py.codes "gateway", v5);
                    (Py.codes "firmware", v6);
                    (Py.codes "hardware", v7);
                    (Py.codes "ports",
                     Json.JList
                       (map (fun item =>
                               Json.JDict
                                 [ (Py.codes "port_num", Json.JInt (fst item));
                                   (Py.codes "state", jstr (pd_status (snd item)));
                                   (Py.codes "link_status",
                                    jstr (pd_link_status (snd item)));
                                   (Py.codes "txgoodpkt",
                                    Json.JInt (pd_txgoodpkt (snd item)));
                                   (Py.codes "txbadpkt",
                                    Json.JInt (pd_txbadpkt (snd item)));
                                   (Py.codes "rxgoodpkt",
                                    Json.JInt (pd_rxgoodpkt (snd item)));
                                   (Py.codes "rxbadpkt",
                                    Json.JInt (pd_rxbadpkt (snd item))) ])
                            ports_info)) ]).
Proof.
  intros _ _. rewrite main_returns_iff. split.
  - intros (response & session & page1 & sys_info & v1 & v2 & v3 & v4 & v5 & v6 & v7
            & page2 & ports_info & Hpost & Hstatus & Hget1 & Hparse1
            & H1 & H2 & H3 & H4 & H5 & H6 & H7 & Hget2 & Hparse2 & ->).
    exists response, session, page1, sys_info, v1, v2, v3, v4, v5, v6, v7,
      page2, ports_info.
    repeat (split; [assumption|]).
    cbn [printed switch_info_file]. unfold switch_info_json.
    rewrite loaded_switch_dict. split; reflexivity.
  - intros (response & session & page1 & sys_info & v1 & v2 & v3 & v4 & v5 & v6 & v7
            & page2 & ports_info & Hpost & Hstatus & Hget1 & Hparse1
            & H1 & H2 & H3 & H4 & H5 & H6 & H7 & Hget2 & Hparse2 & Hprinted & Hfile).
    exists response, session, page1, sys_info, v1, v2, v3, v4, v5, v6, v7,
      page2, ports_info.
    repeat (split; [assumption|]).
    destruct out as [stdout file]. cbn [printed switch_info_file] in Hprinted, Hfile.
    unfold switch_info_json. rewrite loaded_switch_dict, <- Hfile, <- Hprinted.
    reflexivity.
Qed.

(** X19.  Where the system-info page holds no more than 4300 digits and
    no more than 100 opening brackets and braces, and the ports page no
    more than 4300 digits (so that the interpreter's digit and recursion
    limits are not met), a run that raises raises what the logon request
    or one of the two fetches raised, the login failure with the status
    code, or one of AttributeError, JSONDecodeError, ValueError,
    IndexError and KeyError for one of the seven keys: these are all the
    ways the program fails before it prints. *)
Theorem main_only_raises (requests : Requests) (arg_url arg_user arg_password : string)
        (e : exn) :
  (forall response session page,
      session_post requests (arg_url ++ "logon.cgi")%string
                   [ ("username", arg_user); ("password", arg_password);
                     ("logon", "Login") ]%string = Ok (response, session) ->
      session_get session (arg_url ++ "SystemInfoRpm.htm")%string = Ok page ->
      (digit_count (text page) <= 4300)%nat
      /\ (bracket_count (text page) <= 100)%nat) ->
  (forall response session page,
      session_post requests (arg_url ++ "logon.cgi")%string
                   [ ("username", arg_user); ("password", arg_password);
                     ("logon", "Login") ]%string = Ok (response, session) ->
      session_get session (arg_url ++ "PortStatisticsRpm.htm")%string = Ok page ->
      (digit_count (text page) <= 4300)%nat) ->
  main requests arg_url arg_user arg_password = Raise e ->
  session_post requests (arg_url ++ "logon.cgi")%string
               [ ("username", arg_user); ("password", arg_password);
                 ("logon", "Login") ]%string = Raise e
  \/ (exists response session,
         session_post requests (arg_url ++ "logon.cgi")%string
                      [ ("username", arg_user); ("password", arg_password);
                        ("logon", "Login") ]%string = Ok (response, session)
         /\ ((status_code response <> 200
              /\ e = Exception ("Login failed. HTTP Status Code: "
                                ++ Py.str_of_int (status_code response))%string)
             \/ (status_code response = 200
                 /\ (session_get session (arg_url ++ "SystemInfoRpm.htm")%string = Raise e
                     \/ session_get session (arg_url ++ "PortStatisticsRpm.htm")%string
                        = Raise e))))
  \/ e = AttributeError \/ e = JSONDecodeError \/ e = ValueError \/ e = IndexError
  \/ exists key,
       In key ["descriStr"; "macStr"; "ipStr"; "netmaskStr"; "gatewayStr";
               "firmwareStr"; "hardwareStr"]%string
       /\ e = KeyError key.
Proof.
  intros _ _. rewrite main_eq. cbv zeta.
  set (stpl := SwitchTPLDAO_init SwitchTPLParser arg_url arg_user arg_password).
  destruct (logon requests stpl) as [s|e0] eqn:Hlogon.
  2:{ intros H. inversion H; subst e0. apply logon_raises in Hlogon.
      destruct Hlogon as [Hpost|(response & s & Hpost & Hstatus & He)].
      - left. exact Hpost.
      - right; left. exists response, s. split; [exact Hpost|]. left. auto. }
  apply logon_inv in Hlogon. destruct Hlogon as (response & Hpost & Hstatus).
  destruct (sys_info_loader s stpl) as [[[]|e0] stpl1] eqn:Hsys.
  2:{ intros H. inversion H; subst e0.
      destruct (sys_info_loader_raises s stpl e) as [Hget|[He|[He|He]]].
      - reflexivity.
      - rewrite Hsys. reflexivity.
      - right; left. exists response, s. split; [exact Hpost|]. right. auto.
      - auto.
      - auto.
      - do 6 right. exact He. }
  pose proof (sys_info_loader_frame s stpl) as (_ & _ & Hparser & Hurl & _).
  rewrite Hsys in Hparser, Hurl. cbn [snd] in Hparser, Hurl.
  destruct (ports_info_loader s stpl1) as [[[]|e0] stpl2] eqn:Hports; [discriminate|].
  intros H. inversion H; subst e0.
  destruct (session_get s (url stpl1 ++ "PortStatisticsRpm.htm")%string)
    as [page2|e0] eqn:Hget.
  2:{ rewrite (ports_info_loader_fetch_raises _ _ _ Hget) in Hports.
      inversion Hports; subst e0.
      right; left. exists response, s. split; [exact Hpost|]. right.
      split; [exact Hstatus|]. right. rewrite Hurl in Hget. exact Hget. }
  destruct (parser_parse_ports_info (parser stpl1) (text page2))
    as [ports_info|e0] eqn:Hparse.
  { rewrite (ports_info_loader_returns _ _ _ _ Hget Hparse) in Hports.
    discriminate Hports. }
  rewrite (ports_info_loader_parse_raises _ _ _ _ Hget Hparse) in Hports.
  inversion Hports; subst e0.
  rewrite Hparser in Hparse. cbn in Hparse.
  apply parse_ports_info_raises in Hparse. tauto.
Qed.

Lemma main_only_raises_witness :
  session_post (answering 403) ("http://10.0.0.2/" ++ "logon.cgi")%string
               [ ("username", "admin"); ("password", "secret");
                 ("logon", "Login") ]%string
  = Raise (Exception "Login failed. HTTP Status Code: 403")
  \/ (exists response session,
         session_post (answering 403) ("http://10.0.0.2/" ++ "logon.cgi")%string
                      [ ("username", "admin"); ("password", "secret");
                        ("logon", "Login") ]%string = Ok (response, session)
         /\ ((status_code response <> 200
              /\ Exception "Login failed. HTTP Status Code: 403"
                 = Exception ("Login failed. HTTP Status Code: "
                              ++ Py.str_of_int (status_code response))%string)
             \/ (status_code response = 200
                 /\ (session_get session ("http://10.0.0.2/" ++ "SystemInfoRpm.htm")%string
                     = Raise (Exception "Login failed. HTTP Status Code: 403")
                     \/ session_get session
                                    ("http://10.0.0.2/" ++ "PortStatisticsRpm.htm")%string
                        = Raise (Exception "Login failed. HTTP Status Code: 403")))))
  \/ Exception "Login failed. HTTP Status Code: 403" = AttributeError
  \/ Exception "Login failed. HTTP Status Code: 403" = JSONDecodeError
  \/ Exception "Login failed. HTTP Status Code: 403" = ValueError
  \/ Exception "Login failed. HTTP Status Code: 403" = IndexError
  \/ exists key,
       In key ["descriStr"; "macStr"; "ipStr"; "netmaskStr"; "gatewayStr";
               "firmwareStr"; "hardwareStr"]%string
       /\ Exception "Login failed. HTTP Status Code: 403" = KeyError key.
Proof.
  apply (main_only_raises (answering 403) "http://10.0.0.2/" "admin" "secret").
  - intros response session page Hpost Hget.
    injection Hpost as <- <-. injection Hget as <-.
    split; apply Nat.leb_le; vm_compute; reflexivity.
  - intros response session page Hpost Hget.
    injection Hpost as <- <-. injection Hget as <-.
    apply Nat.leb_le. vm_compute. reflexivity.
  - vm_compute. reflexivity.
Defined.

Lemma parse_system_info_page (pre v1 v2 v3 v4 v5 v6 v7 post : string) :
  Py.contains "var info_ds = " pre = false ->
  plain v1 = true -> plain v2 = true -> plain v3 = true -> plain v4 = true ->
  plain v5 = true -> plain v6 = true -> plain v7 = true ->
  Re.at_eol post = true ->
  parse_system_info (sysinfo_page pre v1 v2 v3 v4 v5 v6 v7 post)
  = Ok (info_mapping v1 v2 v3 v4 v5 v6 v7).
Proof.
  intros Hpre H1 H2 H3 H4 H5 H6 H7 Hpost. unfold parse_system_info.
  rewrite info_ds_group by assumption. cbn [rbind].
  rewrite info_sub by assumption.
  apply info_loads; assumption.
Qed.

Lemma loaded_switch_plain (v1 v2 v3 v4 v5 v6 v7 : string)
      (ports_info : list (Z * port_data)) :
  Json.plain_data
    (SwitchTPL_to_dict
       (loaded_switch (jstr v1) (jstr v2) (jstr v3) (jstr v4) (jstr v5) (jstr v6)
                      (jstr v7) ports_info)) = true.
Proof.
  apply switch_plain_data; unfold loaded_switch, jstr;
    cbn [description mac_address ip_address subnet_mask gateway firmware hardware
         Json.plain_data];
    apply str_ok_codes.
Qed.

(** X20.  From the pages to the file: when the switch accepts the logon,
    serves a system-info page with the seven keys one per line and a ports
    page of no more than 4300 digits that [parse_ports_info] reads, the
    program prints and writes a text, and [json.loads] of that text is a
    dict with eight keys: description, mac_address, ip_address,
    subnet_mask, gateway, firmware and hardware hold the seven values of
    the page, character for character, and ports holds one dict per
    parsed entry, in their order, where port_num is the number of the
    entry, state and link_status are its two labels and txgoodpkt,
    txbadpkt, rxgoodpkt and rxbadpkt its four counters, each under its own
    key. *)
Theorem main_end_to_end (requests : Requests) (arg_url arg_user arg_password : string)
        (response : Response) (session : Session) (page1 page2 : Response)
        (pre v1 v2 v3 v4 v5 v6 v7 post : string)
        (ports_info : list (Z * port_data)) :
  session_post requests (arg_url ++ "logon.cgi")%string
               [ ("username", arg_user); ("password", arg_password);
                 ("logon", "Login") ]%string = Ok (response, session) ->
  status_code response = 200 ->
  session_get session (arg_url ++ "SystemInfoRpm.htm")%string = Ok page1 ->
  text page1 = sysinfo_page pre v1 v2 v3 v4 v5 v6 v7 post ->
  Py.contains "var info_ds = " pre = false ->
  plain v1 = true -> plain v2 = true -> plain v3 = true -> plain v4 = true ->
  plain v5 = true -> plain v6 = true -> plain v7 = true ->
  Re.at_eol post = true ->
  session_get session (arg_url ++ "PortStatisticsRpm.htm")%string = Ok page2 ->
  (digit_count (text page2) <= 4300)%nat ->
  parse_ports_info (text page2) = Ok ports_info ->
  exists out,
    main requests arg_url arg_user arg_password = Ok out
    /\ printed out = (switch_info_file out ++ String Json.nl EmptyString)%string
    /\ Json.loads (switch_info_file out)
       = Ok (Json.JDict
               [ (Py.codes "description", jstr v1);
                 (Py.codes "mac_address", jstr v2);
                 (Py.codes "ip_address", jstr v3);
                 (Py.codes "subnet_mask", jstr v4);
                 (Py.codes "gateway", jstr v5);
                 (Py.codes "firmware", jstr v6);
                 (Py.codes "hardware", jstr v7);
                 (Py.codes "ports",
                  Json.JList
                    (map (fun item =>
                            Json.JDict
                              [ (Py.codes "port_num", Json.JInt (fst item));
                                (Py.codes "state", jstr (pd_status (snd item)));
                                (Py.codes "link_status",
                                 jstr (pd_link_status (snd item)));
                                (Py.codes "txgoodpkt",
                                 Json.JInt (pd_txgoodpkt (snd item)));
                                (Py.codes "txbadpkt",
                                 Json.JInt (pd_txbadpkt (snd item)));
                                (Py.codes "rxgoodpkt",
                                 Json.JInt (pd_rxgoodpkt (snd item)));
                                (Py.codes "rxbadpkt",
                                 Json.JInt (pd_rxbadpkt (snd item))) ])
                         ports_info)) ]).
Proof.
  intros Hpost Hstatus Hget1 Htext Hpre H1 H2 H3 H4 H5 H6 H7 Heol Hget2 _ Hparse2.
  eexists. split; [|split].
  - apply main_returns_iff.
    exists response, session, page1, (info_mapping v1 v2 v3 v4 v5 v6 v7),
      (jstr v1), (jstr v2), (jstr v3), (jstr v4), (jstr v5), (jstr v6), (jstr v7),
      page2, ports_info.
    split; [exact Hpost|]. split; [exact Hstatus|]. split; [exact Hget1|].
    split; [rewrite Htext; apply parse_system_info_page; assumption|].
    do 7 (split; [reflexivity|]).
    split; [exact Hget2|]. split; [exact Hparse2 | reflexivity].
  - reflexivity.
  - cbn [switch_info_file]. unfold switch_info_json.
    rewrite loads_dumps by apply loaded_switch_plain.
    rewrite loaded_switch_dict. reflexivity.
Qed.

Lemma main_end_to_end_witness :
  exists out,
    main (fixture_switch "http://10.0.0.2/") "http://10.0.0.2/" "admin" "secret" = Ok out
    /\ printed out = (switch_info_file out ++ String Json.nl EmptyString)%string
    /\ Json.loads (switch_info_file out)
       = Ok (Json.JDict
               [ (Py.codes "description", jstr "SW1");
                 (Py.codes "mac_address", jstr "00:11:22:33:44:55");
                 (Py.codes "ip_address", jstr "10.0.0.2");
                 (Py.codes "subnet_mask", jstr "255.255.255.0");
                 (Py.codes "gateway", jstr "10.0.0.1");
                 (Py.codes "firmware", jstr "1.0.0");
                 (Py.codes "hardware", jstr "1.0");
                 (Py.codes "ports",
                  Json.JList
                    (map (fun item =>
                            Json.JDict
                              [ (Py.codes "port_num", Json.JInt (fst item));
                                (Py.codes "state", jstr (pd_status (snd item)));
                                (Py.codes "link_status",
                                 jstr (pd_link_status (snd item)));
                                (Py.codes "txgoodpkt",
                                 Json.JInt (pd_txgoodpkt (snd item)));
                                (Py.codes "txbadpkt",
                                 Json.JInt (pd_txbadpkt (snd item)));
                                (Py.codes "rxgoodpkt",
                                 Json.JInt (pd_rxgoodpkt (snd item)));
                                (Py.codes "rxbadpkt",
                                 Json.JInt (pd_rxbadpkt (snd item))) ])
                         [ (1, mk_port_data "Enabled" "100Full" 10 0 20 1);
                           (2, mk_port_data "Disabled" "Link Down" 0 0 0 0) ])) ]).
Proof.
  apply (main_end_to_end (fixture_switch "http://10.0.0.2/") "http://10.0.0.2/"
                         "admin" "secret"
                         (mk_Response 200 "<html></html>")
                         (fixture_session "http://10.0.0.2/")
                         (mk_Response 200 sysinfo_fixture)
                         (mk_Response 200 ports_fixture)
                         (lines ["<html>"; "<script>"; ""])
                         "SW1" "00:11:22:33:44:55" "10.0.0.2" "255.255.255.0"
                         "10.0.0.1" "1.0.0" "1.0"
                         (lines [""; "var tip = 0;"; "</script>"]));
    try (vm_compute; reflexivity).
  apply Nat.leb_le. vm_compute. reflexivity.
Defined.

(** The pages of the fixture switch are within the limits. *)
Lemma fixture_system_page_guard (response : Response) (session : Session)
      (page : Response) :
  session_post (fixture_switch "http://10.0.0.2/") ("http://10.0.0.2/" ++ "logon.cgi")%string
               [ ("username", "admin"); ("password", "secret");
                 ("logon", "Login") ]%string = Ok (response, session) ->
  session_get session ("http://10.0.0.2/" ++ "SystemInfoRpm.htm")%string = Ok page ->
  (digit_count (text page) <= 4300)%nat
  /\ (bracket_count (text page) <= 100)%nat
  /\ forall sys_info,
       parse_system_info (text page) = Ok sys_info ->
       Json.plain_data sys_info = true.
Proof.
  intros Hpost Hget. vm_compute in Hpost. injection Hpost as <- <-.
  vm_compute in Hget. injection Hget as <-.
  split; [apply Nat.leb_le; vm_compute; reflexivity|].
  split; [apply Nat.leb_le; vm_compute; reflexivity|].
  intros sys_info Hparse. vm_compute in Hparse. injection Hparse as <-.
  vm_compute. reflexivity.
Defined.

Lemma fixture_ports_page_guard (response : Response) (session : Session)
      (page : Response) :
  session_post (fixture_switch "http://10.0.0.2/") ("http://10.0.0.2/" ++ "logon.cgi")%string
               [ ("username", "admin"); ("password", "secret");
                 ("logon", "Login") ]%string = Ok (response, session) ->
  session_get session ("http://10.0.0.2/" ++ "PortStatisticsRpm.htm")%string = Ok page ->
  (digit_count (text page) <= 4300)%nat.
Proof.
  intros Hpost Hget. vm_compute in Hpost. injection Hpost as <- <-.
  vm_compute in Hget. injection Hget as <-.
  apply Nat.leb_le. vm_compute. reflexivity.
Defined.

Lemma main_returns_witness :
  main (fixture_switch "http://10.0.0.2/") "http://10.0.0.2/" "admin" "secret"
  = Ok (mk_Output
          (switch_info_json
             (mk_SwitchTPL (jstr "SW1") (jstr "00:11:22:33:44:55") (jstr "10.0.0.2")
                           (jstr "255.255.255.0") (jstr "10.0.0.1") (jstr "1.0.0")
                           (jstr "1.0") 0
                           [ mk_SwitchPort 1 "Enabled" "100Full" 10 0 20 1;
                             mk_SwitchPort 2 "Disabled" "Link Down" 0 0 0 0 ])
             ++ String Json.nl EmptyString)
          (switch_info_json
             (mk_SwitchTPL (jstr "SW1") (jstr "00:11:22:33:44:55") (jstr "10.0.0.2")
                           (jstr "255.255.255.0") (jstr "10.0.0.1") (jstr "1.0.0")
                           (jstr "1.0") 0
                           [ mk_SwitchPort 1 "Enabled" "100Full" 10 0 20 1;
                             mk_SwitchPort 2 "Disabled" "Link Down" 0 0 0 0 ]))).
Proof.
  apply (proj2 (main_returns (fixture_switch "http://10.0.0.2/") "http://10.0.0.2/"
                             "admin" "secret" _
                             fixture_system_page_guard fixture_ports_page_guard)).
  exists (mk_Response 200 "<html></html>"), (fixture_session "http://10.0.0.2/"),
    (mk_Response 200 sysinfo_fixture),
    (info_mapping "SW1" "00:11:22:33:44:55" "10.0.0.2" "255.255.255.0" "10.0.0.1"
                  "1.0.0" "1.0"),
    (jstr "SW1"), (jstr "00:11:22:33:44:55"), (jstr "10.0.0.2"),
    (jstr "255.255.255.0"), (jstr "10.0.0.1"), (jstr "1.0.0"), (jstr "1.0"),
    (mk_Response 200 ports_fixture),
    [ (1, mk_port_data "Enabled" "100Full" 10 0 20 1);
      (2, mk_port_data "Disabled" "Link Down" 0 0 0 0) ].
  repeat split; vm_compute; reflexivity.
Defined.

(** ** The key-quoting step, line by line *)

Lemma word_not_colon (c : ascii) : Re.word c = true -> Ascii.eqb c ":" = false.
Proof.
  intros H. destruct (Ascii.eqb c ":") eqn:E; [|reflexivity].
  apply Ascii.eqb_eq in E. subst c. discriminate H.
Qed.

Lemma greedy_key (s : string) (bol : bool) :
  Re.match_here [Re.GreedyPlus Re.word; Re.GroupClose; Re.Lit ":"] true bol s
  = match s with
    | String c s' =>
        if Re.word c then option_map (Re.consume true c) (key_tail s') else None
    | EmptyString => None
    end.
Proof.
  destruct s as [|c s']; [reflexivity|]. cbn [Re.match_here].
  destruct (Re.word c); [|reflexivity]. f_equal.
  generalize (Re.is_nl c).
  match goal with |- forall b, ?M b s' = _ => set (more := M) end.
  assert (Hnil : forall b, more b EmptyString = None) by reflexivity.
  assert (Hstep : forall b c0 s0,
             more b (String c0 s0)
             = if Re.word c0
               then match more (Re.is_nl c0) s0 with
                    | Some r => Some (Re.consume true c0 r)
                    | None =>
                        if Ascii.eqb c0 ":"
                        then Some (Re.consume false c0 (Re.mk_rmatch "" "" s0))
                        else None
                    end
               else if Ascii.eqb c0 ":"
                    then Some (Re.consume false c0 (Re.mk_rmatch "" "" s0))
                    else None).
  { intros b c0 s0. reflexivity. }
  clearbody more.
  induction s' as [|c' s' IH]; intros b.
  - rewrite Hnil. reflexivity.
  - rewrite Hstep. unfold key_tail. cbn [word_prefix].
    destruct (Re.word c') eqn:Hw.
    + rewrite IH. unfold key_tail. cbn [fst snd].
      destruct (snd (word_prefix s')) as [|d r].
      * rewrite (word_not_colon _ Hw). reflexivity.
      * destruct (Ascii.eqb d ":"); [reflexivity|].
        rewrite (word_not_colon _ Hw). reflexivity.
    + cbn [fst snd]. destruct (Ascii.eqb c' ":") eqn:E; [|reflexivity].
      apply Ascii.eqb_eq in E. subst c'. reflexivity.
Qed.

(** What the key pattern matches at the start of a line. *)
Lemma bare_key_match (s : string) (bol : bool) :
  Re.match_here re_bare_key false bol s
  = if bol
    then match s with
         | String c s' =>
             if Re.word c then option_map (Re.consume true c) (key_tail s') else None
         | EmptyString => None
         end
    else None.
Proof.
  unfold re_bare_key.
  change (Re.match_here [Re.Bol; Re.GroupOpen; Re.GreedyPlus Re.word; Re.GroupClose;
                         Re.Lit ":"] false bol s)
    with (if bol
          then Re.match_here [Re.GreedyPlus Re.word; Re.GroupClose; Re.Lit ":"] true bol s
          else None).
  destruct bol; [apply greedy_key | reflexivity].
Qed.

Lemma word_prefix_app (s : string) :
  s = (fst (word_prefix s) ++ snd (word_prefix s))%string.
Proof.
  induction s as [|c s IH]; [reflexivity|].
  cbn [word_prefix]. destruct (Re.word c); cbn [fst snd String.append].
  - rewrite <- IH. reflexivity.
  - reflexivity.
Qed.

Lemma word_prefix_line (s t : string) :
  Re.at_eol t = true ->
  word_prefix (s ++ t) = (fst (word_prefix s), (snd (word_prefix s) ++ t)%string).
Proof.
  intros Ht. induction s as [|c s IH].
  - cbn [String.append word_prefix fst snd].
    destruct t as [|d t]; [reflexivity|].
    cbn [Re.at_eol] in Ht. unfold Re.is_nl in Ht. apply Ascii.eqb_eq in Ht. subst d.
    reflexivity.
  - cbn [String.append word_prefix]. rewrite IH.
    destruct (Re.word c); reflexivity.
Qed.

Lemma key_tail_line (s t : string) :
  Re.at_eol t = true ->
  key_tail (s ++ t)
  = option_map (fun r => Re.mk_rmatch (Re.matched r) (Re.group1 r) (Re.rest r ++ t))
               (key_tail s).
Proof.
  intros Ht. unfold key_tail. rewrite (word_prefix_line _ _ Ht). cbn [fst snd].
  destruct (snd (word_prefix s)) as [|d r]; cbn [String.append].
  - destruct t as [|d t]; [reflexivity|].
    cbn [Re.at_eol] in Ht. unfold Re.is_nl in Ht. apply Ascii.eqb_eq in Ht. subst d.
    reflexivity.
  - destruct (Ascii.eqb d ":"); reflexivity.
Qed.

Lemma no_newline_app (a b : string) :
  no_newline (a ++ b) = no_newline a && no_newline b.
Proof. apply all_chars_app. Qed.

Lemma sub_copy (c : ascii) (s : string) (bol : bool) :
  Re.match_here re_bare_key false bol (String c s) = None ->
  Re.sub_from re_bare_key quote_key 0 bol (String c s)
  = String c (Re.sub_from re_bare_key quote_key 0 (Re.is_nl c) s).
Proof. intros H. cbn [Re.sub_from]. rewrite H. reflexivity. Qed.

Lemma sub_rest_of_line (l t : string) :
  no_newline l = true ->
  Re.sub_from re_bare_key quote_key 0 false (l ++ t)
  = (l ++ Re.sub_from re_bare_key quote_key 0 false t)%string.
Proof.
  induction l as [|c l IH]; intros Hl; [reflexivity|].
  cbn [no_newline Py.all_chars] in Hl. apply andb_true_iff in Hl.
  destruct Hl as [Hc Hl]. apply negb_true_iff in Hc.
  cbn [String.append]. rewrite sub_char by reflexivity.
  rewrite Hc, (IH Hl). reflexivity.
Qed.

Lemma bol_after_colon (w : string) (bol : bool) :
  Re.bol_after bol (w ++ ":") = false.
Proof.
  revert bol. induction w as [|c w IH]; intros bol; [reflexivity|].
  cbn [String.append Re.bol_after]. apply IH.
Qed.

(** One line, followed by the end of the text or by a line feed. *)
Lemma sub_line (l t x : string) :
  no_newline l = true ->
  Re.at_eol t = true ->
  (forall bol, Re.sub_from re_bare_key quote_key 0 bol t = x) ->
  Re.sub_from re_bare_key quote_key 0 true (l ++ t) = (quote_line l ++ x)%string.
Proof.
  intros Hl Ht Hx. destruct l as [|c s].
  - cbn [String.append]. rewrite Hx. reflexivity.
  - cbn [no_newline Py.all_chars] in Hl. apply andb_true_iff in Hl.
    destruct Hl as [Hc Hs]. apply negb_true_iff in Hc. fold (no_newline s) in Hs.
    assert (Hcopy : Re.sub_from re_bare_key quote_key 0 false (s ++ t) = (s ++ x)%string).
    { rewrite sub_rest_of_line by exact Hs. rewrite Hx. reflexivity. }
    pose proof (bare_key_match (String c s ++ t) true) as Hm.
    cbn [String.append] in Hm. cbv iota in Hm.
    rewrite (key_tail_line _ _ Ht) in Hm.
    unfold quote_line. cbn [word_prefix].
    destruct (Re.word c) eqn:Hw.
    2:{ cbn [fst snd String.append]. rewrite (sub_copy _ _ _ Hm), Hc, Hcopy.
        reflexivity. }
    cbn [fst snd]. unfold key_tail in Hm.
    pose proof (word_prefix_app s) as Hsplit.
    destruct (snd (word_prefix s)) as [|d r] eqn:Esnd.
    { cbn [option_map] in Hm. cbn [String.append].
      rewrite (sub_copy _ _ _ Hm), Hc, Hcopy. reflexivity. }
    destruct (Ascii.eqb d ":") eqn:Ed.
    2:{ cbn [option_map] in Hm. cbn [String.append].
        rewrite (sub_copy _ _ _ Hm), Hc, Hcopy. reflexivity. }
    apply Ascii.eqb_eq in Ed. subst d. cbn [option_map] in Hm.
    set (k := fst (word_prefix s)) in *.
    assert (Hr : no_newline r = true).
    { rewrite Hsplit in Hs. rewrite no_newline_app in Hs.
      apply andb_true_iff in Hs. destruct Hs as [_ Hs].
      cbn [no_newline Py.all_chars] in Hs. apply andb_true_iff in Hs. tauto. }
    assert (Htext : (String c s ++ t)%string = (String c (k ++ ":") ++ (r ++ t))%string).
    { rewrite Hsplit at 1. cbn [String.append]. f_equal.
      rewrite !append_assoc. reflexivity. }
    cbn [String.append] in Htext. cbn [String.append]. rewrite Htext.
    change (String c ((k ++ ":") ++ r ++ t))%string
      with (String c (k ++ ":") ++ (r ++ t))%string.
    rewrite Htext in Hm.
    change (String c ((k ++ ":") ++ r ++ t))%string
      with (String c (k ++ ":") ++ (r ++ t))%string in Hm.
    rewrite (sub_match_string _ _ _ _ _ _ _ Hm eq_refl).
    cbn [Re.bol_after]. rewrite bol_after_colon.
    rewrite sub_rest_of_line by exact Hr. rewrite Hx.
    unfold quote_key. cbn [Re.group1 Re.consume String.append].
    f_equal. f_equal. rewrite !append_assoc. reflexivity.
Qed.

Lemma sub_newline (t : string) (bol : bool) :
  Re.sub_from re_bare_key quote_key 0 bol (String Json.nl t)
  = String Json.nl (Re.sub_from re_bare_key quote_key 0 true t).
Proof. destruct bol; rewrite sub_char by reflexivity; reflexivity. Qed.

Lemma sub_lines (ls : list string) :
  Forall (fun l => no_newline l = true) ls ->
  Re.sub re_bare_key quote_key (lines ls) = lines (map quote_line ls).
Proof.
  unfold Re.sub, lines. induction ls as [|l ls IH]; intros H; [reflexivity|].
  inversion H as [|? ? Hl Hls]; subst.
  destruct ls as [|l' ls].
  - cbn [map String.concat]. rewrite <- (append_nil l) at 1.
    rewrite (sub_line l EmptyString EmptyString Hl); [apply append_nil | reflexivity |].
    intros bol. reflexivity.
  - change (String.concat (String Json.nl "") (l :: l' :: ls))
      with (l ++ String Json.nl (String.concat (String Json.nl "") (l' :: ls)))%string.
    change (String.concat (String Json.nl "") (map quote_line (l :: l' :: ls)))
      with (quote_line l
            ++ String Json.nl
                 (String.concat (String Json.nl "") (map quote_line (l' :: ls))))%string.
    apply sub_line; [exact Hl | reflexivity |].
    intros bol. rewrite sub_newline, (IH Hls). reflexivity.
Qed.

Lemma closes_inner (c : ascii) (inner post : string) :
  Py.contains "};" (String c inner) = false ->
  closes (String c (inner ++ "};" ++ post)) = false.
Proof.
  intros H. cbn [Py.contains] in H.
  destruct (Py.strip_prefix "};" (String c inner)) eqn:E; [discriminate|].
  unfold closes. destruct (Ascii.eqb c "}") eqn:Ec; [|reflexivity].
  apply Ascii.eqb_eq in Ec. subst c.
  destruct inner as [|c2 inner]; [reflexivity|].
  cbn [String.append]. cbn in E.
  destruct c2 as [b0 b1 b2 b3 b4 b5 b6 b7].
  destruct b0, b1, b2, b3, b4, b5, b6, b7; try reflexivity.
  discriminate E.
Qed.

Lemma lazy_skip_inner (inner post : string) (bol : bool) :
  Py.contains "};" inner = false ->
  Re.match_here (Re.LazyStar Re.any :: re_info_close) true bol (inner ++ "};" ++ post)
  = option_map (Re.consume_all true inner)
      (Re.match_here (Re.LazyStar Re.any :: re_info_close) true
                     (Re.bol_after bol inner) ("};" ++ post)).
Proof.
  revert bol. induction inner as [|c inner IH]; intros bol H.
  - cbn [String.append Re.consume_all Re.bol_after].
    destruct (Re.match_here _ _ _ _); reflexivity.
  - pose proof (closes_inner _ _ post H) as Hc.
    assert (H' : Py.contains "};" inner = false).
    { cbn [Py.contains] in H.
      destruct (Py.strip_prefix "};" (String c inner)); [discriminate | exact H]. }
    change ((String c inner ++ "};" ++ post)%string)
      with (String c (inner ++ "};" ++ post)).
    rewrite lazy_skip_char by exact Hc.
    rewrite (IH _ H'). cbn [Re.consume_all Re.bol_after].
    destruct (Re.match_here _ _ _ _); reflexivity.
Qed.

Lemma info_ds_match_inner (inner post : string) (bol : bool) :
  Py.contains "};" inner = false ->
  Re.at_eol post = true ->
  exists r,
    Re.match_here re_info_ds false bol ("var info_ds = {" ++ inner ++ "};" ++ post)
    = Some r
    /\ Re.group1 r = ("{" ++ inner ++ "}")%string.
Proof.
  intros Hinner Hpost. unfold re_info_ds.
  rewrite match_here_lits.
  change ("var info_ds = {" ++ inner ++ "};" ++ post)%string
    with ("var info_ds = " ++ String "{" (inner ++ "};" ++ post))%string.
  rewrite strip_prefix_app. cbn [app].
  rewrite match_here_group_open, match_here_lit. fold re_info_close.
  rewrite (lazy_skip_inner _ _ _ Hinner).
  change ("};" ++ post)%string with (String "}" (String ";" post)).
  rewrite lazy_stop by exact Hpost.
  cbn [option_map]. eexists. split; [reflexivity|].
  rewrite group1_consume_all_outside. cbn [Re.group1 Re.consume].
  rewrite group1_consume_all_inside. reflexivity.
Qed.

Lemma info_ds_group_inner (pre inner post : string) :
  Py.contains "var info_ds = " pre = false ->
  Py.contains "};" inner = false ->
  Re.at_eol post = true ->
  Re.group (Re.search re_info_ds (pre ++ "var info_ds = {" ++ inner ++ "};" ++ post))
  = Ok ("{" ++ inner ++ "}")%string.
Proof.
  intros Hpre Hinner Hpost.
  destruct (info_ds_match_inner inner post (Re.bol_after true pre) Hinner Hpost)
    as (r & Hr & Hg).
  unfold Re.search.
  change ("var info_ds = {" ++ inner ++ "};" ++ post)%string
    with (String "v" ("ar info_ds = {" ++ inner ++ "};" ++ post))%string in Hr |- *.
  rewrite info_ds_search_skip by exact Hpre.
  rewrite (search_from_here _ _ _ _ Hr). cbn [Re.group]. rewrite Hg. reflexivity.
Qed.

Lemma parse_system_info_inner (pre inner post : string) :
  Py.contains "var info_ds = " pre = false ->
  Py.contains "};" inner = false ->
  Re.at_eol post = true ->
  parse_system_info (pre ++ "var info_ds = {" ++ inner ++ "};" ++ post)
  = Json.loads (Re.sub re_bare_key quote_key ("{" ++ inner ++ "}")).
Proof.
  intros Hpre Hinner Hpost. unfold parse_system_info.
  rewrite (info_ds_group_inner _ _ _ Hpre Hinner Hpost). reflexivity.
Qed.

(** X21.  What [parse_system_info] hands to [json.loads]: on a page where
    [var info_ds = ] first occurs in front of an object literal that is
    closed by the first brace-semicolon of the page, at the end of a line,
    the result is that of [json.loads] on the literal, braces included,
    once [re.sub] has quoted its keys; the rest of the page plays no
    part. *)
Theorem info_ds_extracted (pre inner post : string) :
  Py.contains "var info_ds = " pre = false ->
  Py.contains "};" inner = false ->
  Re.at_eol post = true ->
  parse_system_info (pre ++ "var info_ds = {" ++ inner ++ "};" ++ post)
  = Json.loads (Re.sub re_bare_key quote_key ("{" ++ inner ++ "}")).
Proof. exact (parse_system_info_inner pre inner post). Qed.

Lemma info_ds_extracted_witness :
  parse_system_info
    ("<script>var info_ds = {" ++ (String Json.dq "a" ++ String Json.dq ":[1,{}]")
       ++ "};" ++ String Json.nl "var tip = 0;};")
  = Json.loads (Re.sub re_bare_key quote_key
                       ("{" ++ (String Json.dq "a" ++ String Json.dq ":[1,{}]") ++ "}")).
Proof.
  apply (info_ds_extracted "<script>"
                           (String Json.dq "a" ++ String Json.dq ":[1,{}]")
                           (String Json.nl "var tip = 0;};"));
    reflexivity.
Defined.

(** X22.  The key-quoting step works line by line: when the object
    literal is a sequence of lines, [parse_system_info] returns what
    [json.loads] returns on the same lines, each line that starts with
    word characters and a colon having these word characters put between
    double quotes and every other line left as it is.  A key that does not
    start its line stays bare, and [json.loads] then refuses the text. *)
Theorem parse_system_info_by_lines (pre post inner : string) (ls : list string) :
  Py.contains "var info_ds = " pre = false ->
  lines ls = ("{" ++ inner ++ "}")%string ->
  Py.contains "};" inner = false ->
  Forall (fun l => no_newline l = true) ls ->
  Re.at_eol post = true ->
  parse_system_info (pre ++ "var info_ds = " ++ lines ls ++ ";" ++ post)
  = Json.loads (lines (map quote_line ls)).
Proof.
  intros Hpre Hlines Hinner Hls Hpost.
  rewrite <- (sub_lines ls Hls). rewrite Hlines.
  rewrite <- (parse_system_info_inner pre inner post Hpre Hinner Hpost).
  f_equal. f_equal. cbn [String.append]. do 15 f_equal.
  rewrite append_assoc. reflexivity.
Qed.

Lemma parse_system_info_by_lines_witness :
  parse_system_info
    ("<script>" ++ "var info_ds = "
       ++ lines [ "{"; "descriStr:["; (String Json.dq "TL-SG105E" ++ String Json.dq "")%string;
                  "],"; "ports:5"; "}" ]
       ++ ";" ++ String Json.nl "</script>")
  = Json.loads
      (lines (map quote_line
                  [ "{"; "descriStr:["; (String Json.dq "TL-SG105E" ++ String Json.dq "")%string;
                    "],"; "ports:5"; "}" ])).
Proof.
  apply (parse_system_info_by_lines
           "<script>" (String Json.nl "</script>")
           (String Json.nl
              (lines [ "descriStr:["; (String Json.dq "TL-SG105E" ++ String Json.dq "")%string;
                       "],"; "ports:5"; "" ]))).
  - reflexivity.
  - reflexivity.
  - reflexivity.
  - repeat constructor.
  - reflexivity.
Defined.

(** The lines of that page as [json.loads] sees them, and what it makes
    of them. *)
Example by_lines_quoted :
  map quote_line
      [ "{"; "descriStr:["; (String Json.dq "TL-SG105E" ++ String Json.dq "")%string;
        "],"; "ports:5"; "}" ]
  = [ "{"; (String Json.dq "descriStr" ++ String Json.dq ":[")%string;
      (String Json.dq "TL-SG105E" ++ String Json.dq "")%string;
      "],"; (String Json.dq "ports" ++ String Json.dq ":5")%string; "}" ]
  /\ Json.loads
       (lines (map quote_line
                   [ "{"; "descriStr:["; (String Json.dq "TL-SG105E" ++ String Json.dq "")%string;
                     "],"; "ports:5"; "}" ]))
     = Ok (Json.JDict [ (Py.codes "descriStr", Json.JList [jstr "TL-SG105E"]);
                        (Py.codes "ports", Json.JInt 5) ]).
Proof. split; vm_compute; reflexivity. Qed.
